(** * limo-app-mgr-lib: launch, registration, dispatch and messaging

    A shallow embedding of the IPC part of [src/limo-app-mgr-lib.c]
    (registration, the three launch variants, the D-Bus filter
    [message_func] and [clp_app_mgr_send_message]) together with the
    constants of [clp-app-mgr.h] and [clp-app-mgr-config.h].

    The library talks to three outside parties: the GConf registry, the
    D-Bus connection and the callbacks the application registered.  The
    registry is a finite map that the code reads and writes; everything the
    code does to the bus, and every callback it invokes, is appended to a
    trace; the answers of the outside world (does the bus connect, what does
    the daemon reply, ...) are collected in an environment record. *)

From Stdlib Require Import ZArith Ascii String DecimalString List.
From stdpp Require Import base option list strings gmap.

Import ListNotations.
Local Open Scope string_scope.
Local Open Scope list_scope.
Local Open Scope Z_scope.

(* stdpp freezes [String.append] for [simpl]; the proofs below compute
   with string constants. *)
#[local] Arguments String.append !_ _ / : simpl nomatch.

(** ** Constants of the headers *)

Module Hdr.

(* clp-app-mgr.h *)
Definition NAME_SIZE : Z := 256.
Definition MAX_SIZE : Z := 256.

(* enum _ClpAppMgrErrorCodes, the values used by the modelled functions *)
Definition CLP_APP_MGR_FAILURE : Z := -1.
Definition CLP_APP_MGR_SUCCESS : Z := 0.
Definition CLP_APP_MGR_OUT_OF_MEMORY : Z := 208.
Definition CLP_APP_MGR_DBUS_CALL_FAIL : Z := 209.

(* clp-app-mgr-config.h *)
Definition GCONF_APPS_DIR : string := "/appmgr".
Definition CLP_APP_MGR_DBUS_INTERFACE : string := "org.clp.appmanager".
Definition CLP_APP_MGR_DBUS_OBJECT : string := "/org/clp/appmanager".
Definition CLP_WIN_MGR_DBUS_INTERFACE : string := "org.clp.matchboxwm".
Definition CLP_APP_MGR_DBUS_SIGNAL_STOP : string := "stop".
Definition CLP_APP_MGR_DBUS_SIGNAL_EXEC : string := "exec".
Definition CLP_APP_MGR_DBUS_SIGNAL_ROTATE : string := "rotate".
Definition CLP_APP_MGR_DBUS_SIGNAL_APPEXIT : string := "AppExit".
Definition CLP_WIN_MGR_DBUS_SIGNAL_UA_GAINED : string := "UserInteractionGained".
Definition CLP_WIN_MGR_DBUS_SIGNAL_UA_LOST : string := "UserInteractionLost".
Definition CLP_APP_MGR_DBUS_SIGNAL_MESSAGE : string := "Message".

(* limo-app-mgr-lib.c *)
Definition LIMO_APPS_DIR : string := "/LiMo/System/AppInfo".

End Hdr.
Import Hdr.

(** ** The glib string functions the code uses *)

(** A C string pointer is [option string]: [None] is NULL. *)
Definition cstr := option string.

(** [g_strdup]: a copy, NULL for NULL. *)
Definition g_strdup (s : cstr) : cstr := s.

(** The arguments of [g_strconcat] after the first one, read up to the
    first NULL; also [g_strconcat] itself where its first argument is a
    string constant. *)
Fixpoint concat_until_null (parts : list cstr) : string :=
  match parts with
  | Some s :: rest => s +:+ concat_until_null rest
  | _ => ""
  end.

(** [g_strconcat (string1, ..., NULL)]: NULL when [string1] is NULL,
    otherwise the concatenation of the arguments before the first NULL. *)
Definition g_strconcat (parts : list cstr) : cstr :=
  match parts with
  | Some s :: rest => Some (s +:+ concat_until_null rest)
  | _ => None
  end.

(** The first [n] bytes of a string. *)
Fixpoint string_take (n : nat) (s : string) : string :=
  match n, s with
  | S k, String c r => String c (string_take k r)
  | _, _ => ""
  end.

(** [g_strlcat (dest, src, dest_size)]: appends [src] to the buffer [dest]
    of [dest_size] bytes, keeping the terminating NUL inside the buffer;
    nothing happens for a NULL [src] or a full buffer. *)
Definition g_strlcat (dest : string) (src : cstr) (dest_size : Z) : string :=
  match src with
  | None => dest
  | Some s =>
      let dlength := Z.of_nat (String.length dest) in
      if dest_size <=? dlength then dest
      else dest +:+ string_take (Z.to_nat (dest_size - dlength - 1)) s
  end.

(** Cuts a string at the first occurrence of the byte [d]. *)
Fixpoint split_at (d : ascii) (s : string) : string * option string :=
  match s with
  | EmptyString => ("", None)
  | String c r =>
      if Ascii.eqb c d then ("", Some r)
      else let '(h, t) := split_at d r in (String c h, t)
  end.

(** [g_strsplit (s, d, 2)] for a one-byte delimiter [d]: the empty vector
    for the empty string, otherwise at most two pieces, cut at the first
    delimiter. *)
Definition g_strsplit (s : string) (d : ascii) : list string :=
  match s with
  | EmptyString => []
  | _ => match split_at d s with
         | (h, None) => [h]
         | (h, Some t) => [h; t]
         end
  end.

(** [split[i]] of a NULL-terminated string vector: the element, NULL at
    the terminator, and no value at all ([None]) past the end of the
    allocated vector. *)
Definition strv_nth (v : list string) (i : nat) : option cstr :=
  if (i <=? length v)%nat then Some (nth_error v i) else None.

(** [sprintf (buf, "%d", n)]. *)
Definition sprintf_d (n : Z) : string := NilZero.string_of_int (Z.to_int n).

(** An [int] stored as a [DBUS_TYPE_UINT32], and a [guint] in general. *)
Definition uint32 (n : Z) : Z := n mod 2 ^ 32.

(** A 32-bit value read as, or converted to, an [int]. *)
Definition int32 (n : Z) : Z := (n + 2 ^ 31) mod 2 ^ 32 - 2 ^ 31.

(** ** D-Bus messages *)

Inductive DBusArg : Type :=
| DBUS_TYPE_UINT32 (n : Z)
| DBUS_TYPE_INT32 (n : Z)
| DBUS_TYPE_ARRAY (elems : list string).  (* array of DBUS_TYPE_STRING *)

Inductive DBusMessageType : Type :=
| DBUS_MESSAGE_TYPE_METHOD_CALL
| DBUS_MESSAGE_TYPE_METHOD_RETURN
| DBUS_MESSAGE_TYPE_ERROR
| DBUS_MESSAGE_TYPE_SIGNAL.

(** The header fields the library looks at, and the body.  (A signal always
    carries a path, an interface and a member.) *)
Record DBusMessage : Type := {
  msg_type : DBusMessageType;
  msg_path : string;
  msg_interface : string;
  msg_member : string;
  msg_args : list DBusArg
}.

Inductive DBusHandlerResult : Type :=
| DBUS_HANDLER_RESULT_HANDLED
| DBUS_HANDLER_RESULT_NOT_YET_HANDLED.

Definition DBusConnection := nat.

(** A registered callback is a function pointer; the library never looks
    inside, it only calls it. *)
Definition fnptr := nat.

(** ** What the library does to the outside world *)

Inductive Event : Type :=
(* callbacks of the application *)
| call_stop (f : fnptr)                                   (* (f)(NULL) *)
| call_exec (f : fnptr) (argc : Z) (argv : list string)
| call_death (f : fnptr) (process_id : Z)                 (* (f)(NULL, pid) *)
| call_focus_gained (f : fnptr)
| call_focus_lost (f : fnptr)
| call_message (f : fnptr) (argc : Z) (argv : list string)
| call_post_init (f : fnptr)
(* the bus *)
| bus_get                                                 (* dbus_bus_get *)
| g_bus_get                                               (* dbus_g_bus_get *)
| bus_add_match (conn : DBusConnection) (rule : string)
| connection_add_filter (conn : DBusConnection)           (* message_func *)
| connection_send (conn : DBusConnection) (msg : DBusMessage)
| connection_flush (conn : DBusConnection)
| proxy_call (method : string) (app_id : Z) (args : cstr) (app_model_data : Z).

(** ** What the outside world answers *)

Record Env : Type := {
  getpid : Z;
  (* dbus_bus_get (DBUS_BUS_SYSTEM): the connection, or NULL *)
  dbus_bus_get : option DBusConnection;
  (* app_get_dbus_proxy: did dbus_g_bus_get, did dbus_g_proxy_new_for_name
     succeed *)
  dbus_g_bus_get_ok : bool;
  dbus_g_proxy_new_ok : bool;
  (* the daemon's answer to app_launch_call (app_id, args, model data):
     no answer, or (inst_id, error_code) *)
  app_launch_call : Z -> cstr -> Z -> option (Z * Z);
  (* dbus_message_new_signal (path, interface, name) returned a message *)
  dbus_message_new_signal_ok : string -> string -> string -> bool;
  (* dbus_connection_send had the memory to queue the message *)
  dbus_connection_send_ok : bool;
  (* the ABI hands a va_list to a callee by value (a pointer or a small
     structure is copied) rather than by reference (an array type) *)
  va_list_by_value : bool;
  (* error codes of the LiMo app-manager header <app-manager.h> *)
  APPMGR_ERROR_APP_ALREADY_RUNNING : Z;
  APPMGR_ERROR_INTERNAL_TRANSPORT_ERROR : Z
}.

(** ** The GConf registry *)

Inductive GConfValue : Type :=
| GCONF_VALUE_INT (n : Z)
| GCONF_VALUE_BOOL (b : bool).

(** [gconf_client_get_int]: 0 when the key is unset or not an integer. *)
Definition gconf_client_get_int (client : gmap string GConfValue)
    (key : string) : Z :=
  match client !! key with
  | Some (GCONF_VALUE_INT n) => n
  | _ => 0
  end.

(** [gconf_client_get_bool]: FALSE when the key is unset or not a boolean. *)
Definition gconf_client_get_bool (client : gmap string GConfValue)
    (key : string) : bool :=
  match client !! key with
  | Some (GCONF_VALUE_BOOL b) => b
  | _ => false
  end.

Definition gconf_client_set_int (client : gmap string GConfValue)
    (key : string) (val : Z) : gmap string GConfValue :=
  <[key := GCONF_VALUE_INT val]> client.

(** ** The state of the library *)

Record ClpAppMgrGlobalInfo : Type := {
  pid : Z;
  app_id : Z;
  inst_id : Z;
  app_name : cstr;
  instance_name : cstr;
  bus_conn : option DBusConnection;
  init_done : bool;
  stop_callback : option fnptr;
  exec_callback : option fnptr;
  rotate_callback : option fnptr;
  death_callback : option fnptr;
  app_focus_gained_callback : option fnptr;
  app_focus_lost_callback : option fnptr;
  message_callback : option fnptr;
  post_init_callback : option fnptr
}.

(** The statics of the file ([appclient_context], [dbus_interface],
    [dbus_object]), the registry and the trace of events so far. *)
Record State : Type := {
  appclient_context : ClpAppMgrGlobalInfo;
  dbus_interface : string;
  dbus_object : string;
  gconf : gmap string GConfValue;
  trace : list Event
}.

(** The statics as the loader leaves them. *)
Definition appclient_context_0 : ClpAppMgrGlobalInfo :=
  {| pid := 0; app_id := 0; inst_id := 0; app_name := None;
     instance_name := None; bus_conn := None; init_done := false;
     stop_callback := None; exec_callback := None; rotate_callback := None;
     death_callback := None; app_focus_gained_callback := None;
     app_focus_lost_callback := None; message_callback := None;
     post_init_callback := None |}.

Definition initial_state (registry : gmap string GConfValue) : State :=
  {| appclient_context := appclient_context_0;
     dbus_interface := CLP_APP_MGR_DBUS_INTERFACE;
     dbus_object := CLP_APP_MGR_DBUS_OBJECT;
     gconf := registry;
     trace := [] |}.

Definition with_context (st : State) (c : ClpAppMgrGlobalInfo) : State :=
  {| appclient_context := c; dbus_interface := dbus_interface st;
     dbus_object := dbus_object st; gconf := gconf st; trace := trace st |}.

(** Appends an event to the trace. *)
Definition emit (ev : Event) (st : State) : State :=
  {| appclient_context := appclient_context st;
     dbus_interface := dbus_interface st; dbus_object := dbus_object st;
     gconf := gconf st; trace := trace st ++ [ev] |}.

(** ** Registering handlers *)

Definition clp_app_mgr_register_stop_handler (callback : option fnptr)
    (st : State) : State :=
  let c := appclient_context st in
  with_context st
    {| pid := pid c; app_id := app_id c; inst_id := inst_id c;
       app_name := app_name c; instance_name := instance_name c;
       bus_conn := bus_conn c; init_done := init_done c;
       stop_callback := callback;
       exec_callback := exec_callback c;
       rotate_callback := rotate_callback c;
       death_callback := death_callback c;
       app_focus_gained_callback := app_focus_gained_callback c;
       app_focus_lost_callback := app_focus_lost_callback c;
       message_callback := message_callback c;
       post_init_callback := post_init_callback c |}.

Definition clp_app_mgr_register_exec_handler (exec_func : option fnptr)
    (st : State) : State :=
  let c := appclient_context st in
  with_context st
    {| pid := pid c; app_id := app_id c; inst_id := inst_id c;
       app_name := app_name c; instance_name := instance_name c;
       bus_conn := bus_conn c; init_done := init_done c;
       stop_callback := stop_callback c;
       exec_callback := exec_func;
       rotate_callback := rotate_callback c;
       death_callback := death_callback c;
       app_focus_gained_callback := app_focus_gained_callback c;
       app_focus_lost_callback := app_focus_lost_callback c;
       message_callback := message_callback c;
       post_init_callback := post_init_callback c |}.

Definition clp_app_mgr_register_message_handler
    (message_handler : option fnptr) (st : State) : State :=
  let c := appclient_context st in
  with_context st
    {| pid := pid c; app_id := app_id c; inst_id := inst_id c;
       app_name := app_name c; instance_name := instance_name c;
       bus_conn := bus_conn c; init_done := init_done c;
       stop_callback := stop_callback c;
       exec_callback := exec_callback c;
       rotate_callback := rotate_callback c;
       death_callback := death_callback c;
       app_focus_gained_callback := app_focus_gained_callback c;
       app_focus_lost_callback := app_focus_lost_callback c;
       message_callback := message_handler;
       post_init_callback := post_init_callback c |}.

(** The assignment [appclient_context.post_init_callback = handler]. *)
Definition set_post_init_callback (handler : option fnptr) (st : State)
    : State :=
  let c := appclient_context st in
  with_context st
    {| pid := pid c; app_id := app_id c; inst_id := inst_id c;
       app_name := app_name c; instance_name := instance_name c;
       bus_conn := bus_conn c; init_done := init_done c;
       stop_callback := stop_callback c;
       exec_callback := exec_callback c;
       rotate_callback := rotate_callback c;
       death_callback := death_callback c;
       app_focus_gained_callback := app_focus_gained_callback c;
       app_focus_lost_callback := app_focus_lost_callback c;
       message_callback := message_callback c;
       post_init_callback := handler |}.

Definition clp_app_mgr_get_instance_name (st : State) : cstr :=
  instance_name (appclient_context st).

Definition clp_app_mgr_get_name (st : State) : cstr :=
  app_name (appclient_context st).

(** ** Registration *)

Inductive ClpAppMgrInstanceType : Type :=
| CLP_APP_MGR_SINGLE
| CLP_APP_MGR_MULTIPLE.

(** A match rule, built in a buffer of [MAX_SIZE] bytes. *)
Definition match_rule (interface : string) : string :=
  let match_str := "type='signal',interface='" in
  let match_str := g_strlcat match_str (Some interface) MAX_SIZE in
  g_strlcat match_str (Some "'") MAX_SIZE.

(** The identity part of [clp_app_mgr_init], lines 210-265: everything up
    to the bus connection.  [CLP_APPMGR_PARAM_ERROR] only logs, so a bad
    name does not stop the function; the [priority] and [instance]
    parameters are not read. *)
Definition clp_app_mgr_init_identity (e : Env) (name : string) (st : State)
    : State :=
  let c := appclient_context st in
  let split := g_strsplit name "." in
  let app_name' := g_strdup (nth_error split 0) in
  let pid' := getpid e in
  let dbus_interface' := g_strlcat (dbus_interface st) (Some ".") MAX_SIZE in
  let dbus_interface' := g_strlcat dbus_interface' app_name' MAX_SIZE in
  let dbus_object' := g_strlcat (dbus_object st) (Some "/") MAX_SIZE in
  let dbus_object' := g_strlcat dbus_object' app_name' MAX_SIZE in
  let client := gconf st in
  let key_path :=
    concat_until_null [Some GCONF_APPS_DIR; Some "/"; app_name';
                       Some "/info/PID"] in
  let client := gconf_client_set_int client key_path pid' in
  let key_path :=
    concat_until_null [Some GCONF_APPS_DIR; Some "/"; app_name';
                       Some "/info/AppID"] in
  let app_id' := gconf_client_get_int client key_path in
  let key_path :=
    concat_until_null [Some GCONF_APPS_DIR; Some "/"; app_name';
                       Some "/LastInstId"] in
  let inst_id' := gconf_client_get_int client key_path in
  let appid := sprintf_d app_id' in
  let key_path :=
    concat_until_null [Some LIMO_APPS_DIR; Some "/"; Some appid;
                       Some "/AppMultiInstance"] in
  let instance_type := gconf_client_get_bool client key_path in
  let instance_id := sprintf_d inst_id' in
  let instance_name' :=
    if instance_type
    then g_strconcat [app_name'; Some ":"; Some instance_id]
    else g_strdup app_name' in
  let dbus_interface' :=
    if instance_type
    then g_strlcat dbus_interface' (Some instance_id) MAX_SIZE
    else dbus_interface' in
  let dbus_object' :=
    if instance_type
    then g_strlcat dbus_object' (Some instance_id) MAX_SIZE
    else dbus_object' in
  {| appclient_context :=
       {| pid := pid'; app_id := app_id'; inst_id := inst_id';
          app_name := app_name'; instance_name := instance_name';
          bus_conn := bus_conn c; init_done := init_done c;
          stop_callback := stop_callback c;
          exec_callback := exec_callback c;
          rotate_callback := rotate_callback c;
          death_callback := death_callback c;
          app_focus_gained_callback := app_focus_gained_callback c;
          app_focus_lost_callback := app_focus_lost_callback c;
          message_callback := message_callback c;
          post_init_callback := post_init_callback c |};
     dbus_interface := dbus_interface';
     dbus_object := dbus_object';
     gconf := client;
     trace := trace st |}.

(** Lines 276-291: the connection is stored, the handlers are cleared
    (all but [post_init_callback]) and [init_done] is set. *)
Definition store_connection (connection : DBusConnection)
    (c : ClpAppMgrGlobalInfo) : ClpAppMgrGlobalInfo :=
  {| pid := pid c; app_id := app_id c; inst_id := inst_id c;
     app_name := app_name c; instance_name := instance_name c;
     bus_conn := Some connection; init_done := true;
     stop_callback := None; exec_callback := None;
     rotate_callback := None; death_callback := None;
     app_focus_gained_callback := None; app_focus_lost_callback := None;
     message_callback := None;
     post_init_callback := post_init_callback c |}.

(** [clp_app_mgr_init]: the return code and the state it leaves. *)
Definition clp_app_mgr_init (e : Env) (name : string) (priority : Z)
    (instance : ClpAppMgrInstanceType) (st : State) : Z * State :=
  let st := clp_app_mgr_init_identity e name st in
  let st := emit bus_get st in
  match dbus_bus_get e with
  | None => (CLP_APP_MGR_DBUS_CALL_FAIL, st)
  | Some connection =>
      let st :=
        with_context st (store_connection connection (appclient_context st)) in
      let st :=
        emit (bus_add_match connection (match_rule (dbus_interface st))) st in
      let st :=
        emit (bus_add_match connection
                (match_rule CLP_APP_MGR_DBUS_INTERFACE)) st in
      let st :=
        emit (bus_add_match connection
                (match_rule CLP_WIN_MGR_DBUS_INTERFACE)) st in
      let st := emit (connection_add_filter connection) st in
      (CLP_APP_MGR_SUCCESS, st)
  end.

(** [clp_app_mgr_async_init]: the result of [clp_app_mgr_init] is not
    looked at. *)
Definition clp_app_mgr_async_init (e : Env) (name : string) (priority : Z)
    (instance : ClpAppMgrInstanceType) (post_init_handler : option fnptr)
    (st : State) : Z * State :=
  let st := set_post_init_callback post_init_handler st in
  let '(_, st) := clp_app_mgr_init e name priority instance st in
  match post_init_callback (appclient_context st) with
  | Some f => (CLP_APP_MGR_SUCCESS, emit (call_post_init f) st)
  | None => (CLP_APP_MGR_FAILURE, st)
  end.

(** ** Launching *)

(** [delim]: the one-byte string holding the byte 16. *)
Definition delim : string := String (ascii_of_nat 16) "".

Definition clp_app_mgr_get_app_id (appname : string) (st : State) : Z :=
  let key_path :=
    concat_until_null [Some GCONF_APPS_DIR; Some "/"; Some appname;
                       Some "/info/AppID"] in
  gconf_client_get_int (gconf st) key_path.

(** [app_get_dbus_proxy]. *)
Definition app_get_dbus_proxy (e : Env) (st : State) : bool * State :=
  let st := emit g_bus_get st in
  if dbus_g_bus_get_ok e
  then (dbus_g_proxy_new_ok e, st)
  else (false, st).

(** The loop of lines 546-550: [args = g_strconcat (args, delim, value)]
    for every further argument. *)
Fixpoint join_va_args (args : string) (va_args : list string) : string :=
  match va_args with
  | [] => args
  | value :: rest => join_va_args (args +:+ delim +:+ value) rest
  end.

(** The call of the daemon's [app_launch_call] and what is returned for
    its answer (lines 553-589 and 727-763, the same text). *)
Definition launch_call (e : Env) (app_id : Z) (app_model_data : Z)
    (inst_id : option Z) (args : cstr) (st : State)
    : Z * option Z * State :=
  let '(ok, st) := app_get_dbus_proxy e st in
  if negb ok then (APPMGR_ERROR_INTERNAL_TRANSPORT_ERROR e, inst_id, st)
  else
    let st := emit (proxy_call "app_launch_call" app_id args app_model_data) st in
    match app_launch_call e app_id args app_model_data with
    | None => (APPMGR_ERROR_INTERNAL_TRANSPORT_ERROR e, inst_id, st)
    | Some (inst, error_code) =>
        if error_code =? 0 then (0, Some inst, st)
        else (error_code, Some inst, st)
    end.

(** [ClpAppMgrAppLaunchWithArgs].  [inst_id] is what the caller's variable
    holds ([None]: nothing yet; the pointer itself is never NULL in this
    file); [va_args] are the variable arguments up to the closing NULL.
    Returned: the error code, the caller's [inst_id] afterwards, where the
    function's [va_list] stands when it returns (the arguments left, [None]
    once the closing NULL has been read), and the state. *)
Definition ClpAppMgrAppLaunchWithArgs (e : Env) (app_id : Z)
    (app_model_data : Z) (inst_id : option Z) (va_args : list string)
    (st : State) : Z * option Z * option (list string) * State :=
  let shutdown := gconf_client_get_bool (gconf st) "/appmgr/Shutdown" in
  if shutdown then (-1, inst_id, Some va_args, st)
  else
    let args :=
      match va_args with
      | [] => None
      | value :: rest => Some (join_va_args value rest)
      end in
    let '(error_code, inst_id, st) :=
      launch_call e app_id app_model_data inst_id args st in
    (error_code, inst_id, None, st).

(** The caller's [va_list] after a call that was handed it: untouched
    where the callee got a copy, where the callee left it otherwise. *)
Definition va_list_after_call (e : Env) (before : list string)
    (callee : option (list string)) : option (list string) :=
  if va_list_by_value e then Some before else callee.

(** The loop of lines 721-725; reading [params[i]] past the end of the
    array has no defined result. *)
Fixpoint join_argv (argc : nat) (i : nat) (params : list string)
    (args : string) : option string :=
  match argc with
  | O => Some args
  | S argc' =>
      match nth_error params i with
      | None => None
      | Some p => join_argv argc' (S i) params (args +:+ delim +:+ p)
      end
  end.

(** [ClpAppMgrAppLaunchWithArgv]; [None] when the loop reads past the end
    of [params]. *)
Definition ClpAppMgrAppLaunchWithArgv (e : Env) (app_id : Z)
    (app_model_data : Z) (inst_id : option Z) (argc : Z)
    (params : list string) (st : State) : option (Z * option Z * State) :=
  let shutdown := gconf_client_get_bool (gconf st) "/appmgr/Shutdown" in
  if shutdown then Some (-1, inst_id, st)
  else
    match join_argv (Z.to_nat argc) 0 params "" with
    | None => None
    | Some args => Some (launch_call e app_id app_model_data inst_id (Some args) st)
    end.

(** [dbus_message_new_signal] followed by the appends of a count and of an
    array of strings. *)
Definition new_signal (path interface name : string) (count : Z)
    (elems : list string) : DBusMessage :=
  {| msg_type := DBUS_MESSAGE_TYPE_SIGNAL;
     msg_path := path;
     msg_interface := interface;
     msg_member := name;
     msg_args := [DBUS_TYPE_UINT32 (uint32 count); DBUS_TYPE_ARRAY elems] |}.

(** [dbus_connection_send (conn, msg, _)]: FALSE for a NULL connection or
    when memory is short, otherwise the message is queued. *)
Definition dbus_connection_send (e : Env) (conn : option DBusConnection)
    (msg : DBusMessage) (st : State) : bool * State :=
  match conn with
  | None => (false, st)
  | Some c =>
      if dbus_connection_send_ok e then (true, emit (connection_send c msg) st)
      else (false, st)
  end.

(** [dbus_connection_flush]. *)
Definition dbus_connection_flush (conn : option DBusConnection) (st : State)
    : State :=
  match conn with
  | None => st
  | Some c => emit (connection_flush c) st
  end.

(** The loop of lines 454-458 (and 635-639): [params[no_of_params]] is
    written for every argument; [params] has [NAME_SIZE] entries, and a
    write past the end has no defined result.  The list returned holds
    [params[1]], [params[2]], ... *)
Fixpoint collect_params (va : list string) (no_of_params : Z)
    (params : list string) : option (Z * list string) :=
  match va with
  | [] => Some (no_of_params, params)
  | value :: rest =>
      if NAME_SIZE <=? no_of_params then None
      else collect_params rest (no_of_params + 1) (params ++ [value])
  end.

(** The test [return_code != 0 || inst_id <= 0]; reading an [inst_id] that
    was never written has no defined result. *)
Definition launch_failed (return_code : Z) (inst_id : option Z)
    : option bool :=
  if negb (return_code =? 0) then Some true
  else match inst_id with
       | None => None
       | Some i => Some (i <=? 0)
       end.

(** [clp_app_mgr_exec (application, ..., NULL)].  [args] are the variable
    arguments before the closing NULL.  The [va_list] is handed to
    [ClpAppMgrAppLaunchWithArgs] and read again from line 441 on: where the
    callee walked a copy, the [va_arg] of line 441 yields the first
    argument again; where it walked the caller's own list, that [va_arg]
    reads past the closing NULL.  [None]: no defined result. *)
Definition clp_app_mgr_exec (e : Env) (application : string)
    (args : list string) (st : State) : option (Z * State) :=
  let no_of_params := 1 in
  let app_id := clp_app_mgr_get_app_id application st in
  let '(return_code, inst_id, ap, st) :=
    ClpAppMgrAppLaunchWithArgs e app_id 0 None args st in
  match va_list_after_call e args ap with
  | None => None
  | Some args =>
      if return_code =? APPMGR_ERROR_APP_ALREADY_RUNNING e then
        let app_interface :=
          concat_until_null [Some CLP_APP_MGR_DBUS_INTERFACE; Some ".";
                             Some application] in
        let app_objectpath :=
          concat_until_null [Some CLP_APP_MGR_DBUS_OBJECT; Some "/";
                             Some application] in
        match collect_params args no_of_params [] with
        | None => None
        | Some (no_of_params, params) =>
            let st := emit bus_get st in
            let bus_conn := dbus_bus_get e in
            if negb (dbus_message_new_signal_ok e app_objectpath
                       app_interface CLP_APP_MGR_DBUS_SIGNAL_EXEC)
            then Some (CLP_APP_MGR_DBUS_CALL_FAIL, st)
            else
              let msg :=
                new_signal app_objectpath app_interface
                  CLP_APP_MGR_DBUS_SIGNAL_EXEC no_of_params
                  (application :: params) in
              let '(sent, st) := dbus_connection_send e bus_conn msg st in
              if negb sent then Some (CLP_APP_MGR_OUT_OF_MEMORY, st)
              else
                let st := dbus_connection_flush bus_conn st in
                Some (CLP_APP_MGR_SUCCESS, st)
        end
      else
        match launch_failed return_code inst_id with
        | None => None
        | Some true => Some (CLP_APP_MGR_FAILURE, st)
        | Some false => Some (CLP_APP_MGR_SUCCESS, st)
        end
  end.

(** [clp_app_mgr_exec_application (application, old_ap)]: the same text
    as [clp_app_mgr_exec], the caller having started the [va_list]. *)
Definition clp_app_mgr_exec_application (e : Env) (application : string)
    (old_ap : list string) (st : State) : option (Z * State) :=
  let no_of_params := 1 in
  let app_id := clp_app_mgr_get_app_id application st in
  let '(return_code, inst_id, ap, st) :=
    ClpAppMgrAppLaunchWithArgs e app_id 0 None old_ap st in
  match va_list_after_call e old_ap ap with
  | None => None
  | Some old_ap =>
      if return_code =? APPMGR_ERROR_APP_ALREADY_RUNNING e then
        let app_interface :=
          concat_until_null [Some CLP_APP_MGR_DBUS_INTERFACE; Some ".";
                             Some application] in
        let app_objectpath :=
          concat_until_null [Some CLP_APP_MGR_DBUS_OBJECT; Some "/";
                             Some application] in
        match collect_params old_ap no_of_params [] with
        | None => None
        | Some (no_of_params, params) =>
            let st := emit bus_get st in
            let bus_conn := dbus_bus_get e in
            if negb (dbus_message_new_signal_ok e app_objectpath
                       app_interface CLP_APP_MGR_DBUS_SIGNAL_EXEC)
            then Some (CLP_APP_MGR_DBUS_CALL_FAIL, st)
            else
              let msg :=
                new_signal app_objectpath app_interface
                  CLP_APP_MGR_DBUS_SIGNAL_EXEC no_of_params
                  (application :: params) in
              let '(sent, st) := dbus_connection_send e bus_conn msg st in
              if negb sent then Some (CLP_APP_MGR_OUT_OF_MEMORY, st)
              else
                let st := dbus_connection_flush bus_conn st in
                Some (CLP_APP_MGR_SUCCESS, st)
        end
      else
        match launch_failed return_code inst_id with
        | None => None
        | Some true => Some (CLP_APP_MGR_FAILURE, st)
        | Some false => Some (CLP_APP_MGR_SUCCESS, st)
        end
  end.

(** The loop of lines 824-827: [params_list[0 .. no_of_params-1]]. *)
Fixpoint read_params (n : nat) (i : nat) (params_list : list string)
    : option (list string) :=
  match n with
  | O => Some []
  | S n' =>
      match nth_error params_list i with
      | None => None
      | Some p =>
          match read_params n' (S i) params_list with
          | None => None
          | Some ps => Some (p :: ps)
          end
      end
  end.

(** [clp_app_mgr_exec_argv (application, no_of_params, params_list)]. *)
Definition clp_app_mgr_exec_argv (e : Env) (application : string)
    (no_of_params : Z) (params_list : list string) (st : State)
    : option (Z * State) :=
  let app_id := clp_app_mgr_get_app_id application st in
  match ClpAppMgrAppLaunchWithArgv e app_id 0 None no_of_params
          params_list st with
  | None => None
  | Some (return_code, inst_id, st) =>
      if return_code =? APPMGR_ERROR_APP_ALREADY_RUNNING e then
        let app_interface :=
          concat_until_null [Some CLP_APP_MGR_DBUS_INTERFACE; Some ".";
                             Some application] in
        let app_objectpath :=
          concat_until_null [Some CLP_APP_MGR_DBUS_OBJECT; Some "/";
                             Some application] in
        let st := emit bus_get st in
        let bus_conn := dbus_bus_get e in
        if negb (dbus_message_new_signal_ok e app_objectpath app_interface
                   CLP_APP_MGR_DBUS_SIGNAL_EXEC)
        then Some (CLP_APP_MGR_DBUS_CALL_FAIL, st)
        else
          let count := no_of_params + 1 in
          match read_params (Z.to_nat no_of_params) 0 params_list with
          | None => None
          | Some params =>
              let msg :=
                new_signal app_objectpath app_interface
                  CLP_APP_MGR_DBUS_SIGNAL_EXEC count
                  (application :: params) in
              let '(sent, st) := dbus_connection_send e bus_conn msg st in
              if negb sent then Some (CLP_APP_MGR_OUT_OF_MEMORY, st)
              else
                let st := dbus_connection_flush bus_conn st in
                Some (CLP_APP_MGR_SUCCESS, st)
          end
      else
        match launch_failed return_code inst_id with
        | None => None
        | Some true => Some (CLP_APP_MGR_FAILURE, st)
        | Some false => Some (CLP_APP_MGR_SUCCESS, st)
        end
  end.

(** ** The dispatch filter *)

Definition is_signal_type (t : DBusMessageType) : bool :=
  match t with
  | DBUS_MESSAGE_TYPE_SIGNAL => true
  | _ => false
  end.

(** [dbus_message_is_signal (msg, interface, signal_name)]. *)
Definition dbus_message_is_signal (msg : DBusMessage)
    (interface signal_name : string) : bool :=
  is_signal_type (msg_type msg)
  && String.eqb (msg_member msg) signal_name
  && String.eqb (msg_interface msg) interface.

(** [dbus_message_iter_init] then [dbus_message_iter_get_basic] into a
    [gint] variable: the four bytes of the first argument of the message
    when it is a 32-bit integer, read as a signed number (an INT32 as the
    sender wrote it, a UINT32 above [INT_MAX] as a negative number);
    nothing is defined otherwise.  On the wire a UINT32 is a number from 0
    to 2^32 - 1 and an INT32 one from -2^31 to 2^31 - 1. *)
Definition iter_get_int (iter : list DBusArg) : option Z :=
  match iter with
  | DBUS_TYPE_INT32 n :: _ => Some n
  | DBUS_TYPE_UINT32 n :: _ => Some (int32 n)
  | _ => None
  end.

(** The same into a [guint] variable: the four bytes read as an unsigned
    number (a UINT32 as the sender wrote it, a negative INT32 as a number
    above [INT_MAX]). *)
Definition iter_get_uint (iter : list DBusArg) : option Z :=
  match iter with
  | DBUS_TYPE_UINT32 n :: _ => Some n
  | DBUS_TYPE_INT32 n :: _ => Some (uint32 n)
  | _ => None
  end.

(** [dbus_message_iter_next]. *)
Definition iter_next (iter : list DBusArg) : list DBusArg := tl iter.

(** [dbus_message_iter_recurse] into an array of strings. *)
Definition iter_recurse (iter : list DBusArg) : option (list string) :=
  match iter with
  | DBUS_TYPE_ARRAY elems :: _ => Some elems
  | _ => None
  end.

(** The loops of lines 1224-1237 and 1276-1282: [n] times, the string
    under the array iterator is copied and the iterator moves on.  Reading
    a string from an iterator at the end of the array defines nothing. *)
Fixpoint read_strings (n : nat) (array_iter : list string)
    : option (list string) :=
  match n with
  | O => Some []
  | S n' =>
      match array_iter with
      | [] => None
      | temp :: array_iter' =>
          match read_strings n' array_iter' with
          | None => None
          | Some l => Some (temp :: l)
          end
      end
  end.

(** The decoding shared by the [exec] and [Message] branches, from the
    count on: [(no_of_param, list)]. *)
Definition decode_params (msg : DBusMessage) : option (Z * list string) :=
  let iter := msg_args msg in
  match iter_get_uint iter with
  | None => None
  | Some no_of_param =>
      let iter := iter_next iter in
      if no_of_param =? 0 then Some (no_of_param, [])
      else
        match iter_recurse iter with
        | None => None
        | Some array_iter =>
            match read_strings (Z.to_nat no_of_param) array_iter with
            | None => None
            | Some l => Some (no_of_param, l)
            end
        end
  end.

(** The chain of lines 1161-1294, which decides the result. *)
Definition message_func_chain (e : Env) (msg : DBusMessage) (st : State)
    : option (DBusHandlerResult * State) :=
  let c := appclient_context st in
  if dbus_message_is_signal msg CLP_APP_MGR_DBUS_INTERFACE
       CLP_APP_MGR_DBUS_SIGNAL_STOP then
    match stop_callback c with
    | Some f => Some (DBUS_HANDLER_RESULT_HANDLED, emit (call_stop f) st)
    | None => Some (DBUS_HANDLER_RESULT_HANDLED, st)
    end
  else if dbus_message_is_signal msg CLP_WIN_MGR_DBUS_INTERFACE
            CLP_WIN_MGR_DBUS_SIGNAL_UA_GAINED then
    match iter_get_int (msg_args msg) with
    | None => None
    | Some pid =>
        if pid =? getpid e then
          match app_focus_gained_callback c with
          | Some f =>
              Some (DBUS_HANDLER_RESULT_HANDLED, emit (call_focus_gained f) st)
          | None => Some (DBUS_HANDLER_RESULT_HANDLED, st)
          end
        else Some (DBUS_HANDLER_RESULT_HANDLED, st)
    end
  else if dbus_message_is_signal msg CLP_WIN_MGR_DBUS_INTERFACE
            CLP_WIN_MGR_DBUS_SIGNAL_UA_LOST then
    match iter_get_int (msg_args msg) with
    | None => None
    | Some pid =>
        if pid =? getpid e then
          match app_focus_lost_callback c with
          | Some f =>
              Some (DBUS_HANDLER_RESULT_HANDLED, emit (call_focus_lost f) st)
          | None => Some (DBUS_HANDLER_RESULT_HANDLED, st)
          end
        else Some (DBUS_HANDLER_RESULT_HANDLED, st)
    end
  else if dbus_message_is_signal msg CLP_APP_MGR_DBUS_INTERFACE
            CLP_APP_MGR_DBUS_SIGNAL_ROTATE then
    Some (DBUS_HANDLER_RESULT_HANDLED, st)
  else if dbus_message_is_signal msg (dbus_interface st)
            CLP_APP_MGR_DBUS_SIGNAL_EXEC then
    match exec_callback c with
    | None => Some (DBUS_HANDLER_RESULT_HANDLED, st)
    | Some f =>
        match iter_get_uint (msg_args msg) with
        | None => None
        | Some no_of_param =>
            (* g_malloc0 of zero bytes is NULL *)
            if no_of_param =? 0
            then Some (DBUS_HANDLER_RESULT_NOT_YET_HANDLED, st)
            else
              match decode_params msg with
              | None => None
              | Some (no_of_param, params_list) =>
                  Some (DBUS_HANDLER_RESULT_HANDLED,
                        emit (call_exec f no_of_param params_list) st)
              end
        end
    end
  else if dbus_message_is_signal msg CLP_APP_MGR_DBUS_INTERFACE
            CLP_APP_MGR_DBUS_SIGNAL_APPEXIT then
    match death_callback c with
    | None => Some (DBUS_HANDLER_RESULT_HANDLED, st)
    | Some f =>
        match iter_get_uint (msg_args msg) with
        | None => None
        | Some process_id =>
            (* the [guint] is passed for the [int] of [app_death] *)
            Some (DBUS_HANDLER_RESULT_HANDLED,
                  emit (call_death f (int32 process_id)) st)
        end
    end
  else if dbus_message_is_signal msg (dbus_interface st)
            CLP_APP_MGR_DBUS_SIGNAL_MESSAGE then
    match message_callback c with
    | None => Some (DBUS_HANDLER_RESULT_HANDLED, st)
    | Some f =>
        match decode_params msg with
        | None => None
        | Some (no_of_param, message_list) =>
            Some (DBUS_HANDLER_RESULT_HANDLED,
                  emit (call_message f no_of_param message_list) st)
        end
    end
  else Some (DBUS_HANDLER_RESULT_NOT_YET_HANDLED, st).

(** [message_func]: the first [if] of lines 1153-1160, then the chain.
    [None]: the message body is not of the shape the branch reads. *)
Definition message_func (e : Env) (msg : DBusMessage) (st : State)
    : option (DBusHandlerResult * State) :=
  let st :=
    if dbus_message_is_signal msg (dbus_interface st)
         CLP_APP_MGR_DBUS_SIGNAL_STOP then
      match stop_callback (appclient_context st) with
      | Some f => emit (call_stop f) st
      | None => st
      end
    else st in
  message_func_chain e msg st.

(** ** Sending a message *)

(** The loop of lines 3676-3681: [message_list[i++]] is written for every
    argument; [message_list] has [MAX_SIZE] entries.  The list returned
    holds [message_list[0]], [message_list[1]], ... *)
Fixpoint collect_messages (ap : list string) (i : Z) (no_of_param : Z)
    (message_list : list string) : option (Z * list string) :=
  match ap with
  | [] => Some (no_of_param, message_list)
  | value :: rest =>
      if MAX_SIZE <=? i then None
      else collect_messages rest (i + 1) (no_of_param + 1)
             (message_list ++ [value])
  end.

(** [clp_app_mgr_send_message (application, ap)]; [ap] are the arguments
    before the closing NULL.  [None]: no defined result. *)
Definition clp_app_mgr_send_message (e : Env) (application : string)
    (ap : list string) (st : State) : option (Z * State) :=
  let no_of_param := 1 in
  let split := g_strsplit application ":" in
  match strv_nth split 0, strv_nth split 1 with
  | Some split0, Some split1 =>
      let dbusinterface :=
        concat_until_null [Some CLP_APP_MGR_DBUS_INTERFACE; Some ".";
                           split0; split1] in
      let dbusobject :=
        concat_until_null [Some CLP_APP_MGR_DBUS_OBJECT; Some "/";
                           split0; split1] in
      if negb (dbus_message_new_signal_ok e dbusobject dbusinterface
                 CLP_APP_MGR_DBUS_SIGNAL_MESSAGE)
      then Some (CLP_APP_MGR_DBUS_CALL_FAIL, st)
      else
        match collect_messages ap 0 no_of_param [] with
        | None => None
        | Some (no_of_param, message_list) =>
            let msg :=
              new_signal dbusobject dbusinterface
                CLP_APP_MGR_DBUS_SIGNAL_MESSAGE no_of_param
                (application :: message_list) in
            let '(_, st) :=
              dbus_connection_send e (bus_conn (appclient_context st)) msg st in
            Some (CLP_APP_MGR_SUCCESS, st)
        end
  | _, _ => None
  end.

(** ** Reading the trace *)

(** The messages put on the bus, in order. *)
Fixpoint sent_messages (tr : list Event) : list DBusMessage :=
  match tr with
  | [] => []
  | connection_send _ msg :: rest => msg :: sent_messages rest
  | _ :: rest => sent_messages rest
  end.

(** An inbound signal as the bus delivers it. *)
Definition inbound_signal (path interface member : string)
    (args : list DBusArg) : DBusMessage :=
  {| msg_type := DBUS_MESSAGE_TYPE_SIGNAL; msg_path := path;
     msg_interface := interface; msg_member := member; msg_args := args |}.

(** ** Reading the registry *)

(** What the registry says about the application [app]: its id, the id of
    its last instance, and whether it is a multi-instance application. *)
Definition registry_app_id (registry : gmap string GConfValue)
    (app : string) : Z :=
  gconf_client_get_int registry
    (GCONF_APPS_DIR +:+ "/" +:+ app +:+ "/info/AppID").

Definition registry_last_inst_id (registry : gmap string GConfValue)
    (app : string) : Z :=
  gconf_client_get_int registry
    (GCONF_APPS_DIR +:+ "/" +:+ app +:+ "/LastInstId").

Definition registry_multi_instance (registry : gmap string GConfValue)
    (app : string) : bool :=
  gconf_client_get_bool registry
    (LIMO_APPS_DIR +:+ "/" +:+ sprintf_d (registry_app_id registry app)
       +:+ "/AppMultiInstance").

(** The application name of a registration: the name up to its first
    ['.']. *)
Definition canonical_name (name : string) : string :=
  (split_at "." name).1.

(** The three [g_strlcat] of lines 229-232 and 259-260 on one buffer. *)
Definition derive_address (buffer sep app : string) (multi : bool)
    (inst : Z) : string :=
  let buffer := g_strlcat buffer (Some sep) MAX_SIZE in
  let buffer := g_strlcat buffer (Some app) MAX_SIZE in
  if multi then g_strlcat buffer (Some (sprintf_d inst)) MAX_SIZE
  else buffer.

(** ** Words for the statements about launching *)

(** The shutdown flag of the registry. *)
Definition shutdown_flag (st : State) : bool :=
  gconf_client_get_bool (gconf st) "/appmgr/Shutdown".

(** The proxy of the daemon can be had. *)
Definition proxy_ok (e : Env) : bool :=
  dbus_g_bus_get_ok e && dbus_g_proxy_new_ok e.

(** The daemon answers every launch call for [application] with
    [(inst_id, error_code)]. *)
Definition daemon_reports (e : Env) (st : State) (application : string)
    (inst_id error_code : Z) : Prop :=
  forall args : cstr,
    app_launch_call e (clp_app_mgr_get_app_id application st) args 0
    = Some (inst_id, error_code).

(** The argument string [ClpAppMgrAppLaunchWithArgs] hands to the
    daemon. *)
Definition va_args_string (args : list string) : cstr :=
  match args with
  | [] => None
  | value :: rest => Some (join_va_args value rest)
  end.

(** The argument string [ClpAppMgrAppLaunchWithArgv] hands to the daemon
    when [argc] is the length of [params]. *)
Definition argv_string (params : list string) : string :=
  fold_left (fun args p => args +:+ delim +:+ p) params "".

(** The address of the single-instance application [application]. *)
Definition app_interface (application : string) : string :=
  CLP_APP_MGR_DBUS_INTERFACE +:+ "." +:+ application.

Definition app_objectpath (application : string) : string :=
  CLP_APP_MGR_DBUS_OBJECT +:+ "/" +:+ application.

(** The address [clp_app_mgr_send_message] computes for the target
    [application]: the pieces of the name around its first [':'], glued to
    the well-known interface and object path. *)
Definition message_interface (application : string) : string :=
  let split := g_strsplit application ":" in
  concat_until_null [Some CLP_APP_MGR_DBUS_INTERFACE; Some ".";
                     nth_error split 0; nth_error split 1].

Definition message_objectpath (application : string) : string :=
  let split := g_strsplit application ":" in
  concat_until_null [Some CLP_APP_MGR_DBUS_OBJECT; Some "/";
                     nth_error split 0; nth_error split 1].

(** The signal with member [member] and payload
    [(1 + length args, application :: args)]. *)
Definition forwarded_signal (path interface member application : string)
    (args : list string) : DBusMessage :=
  inbound_signal path interface member
    [DBUS_TYPE_UINT32 (1 + Z.of_nat (length args));
     DBUS_TYPE_ARRAY (application :: args)].

(** The events of a launch call that is forwarded to a running
    instance. *)
Definition forwarded_launch (app_id : Z) (args : cstr) (c : DBusConnection)
    (application : string) (params : list string) : list Event :=
  [g_bus_get; proxy_call "app_launch_call" app_id args 0; bus_get;
   connection_send c
     (forwarded_signal (app_objectpath application)
        (app_interface application) "exec" application params);
   connection_flush c].

(** The three launch variants, on the same application and arguments. *)
Definition launch_variants (e : Env) (application : string)
    (args : list string) : list (State -> option (Z * State)) :=
  [clp_app_mgr_exec e application args;
   clp_app_mgr_exec_application e application args;
   clp_app_mgr_exec_argv e application (Z.of_nat (length args)) args].

(** ** The other handler registrations *)

Definition clp_app_mgr_register_death_handler
    (app_death_callback : option fnptr) (st : State) : State :=
  let c := appclient_context st in
  with_context st
    {| pid := pid c; app_id := app_id c; inst_id := inst_id c;
       app_name := app_name c; instance_name := instance_name c;
       bus_conn := bus_conn c; init_done := init_done c;
       stop_callback := stop_callback c;
       exec_callback := exec_callback c;
       rotate_callback := rotate_callback c;
       death_callback := app_death_callback;
       app_focus_gained_callback := app_focus_gained_callback c;
       app_focus_lost_callback := app_focus_lost_callback c;
       message_callback := message_callback c;
       post_init_callback := post_init_callback c |}.

Definition clp_app_mgr_register_rotate_handler
    (app_rotate_callback : option fnptr) (st : State) : State :=
  let c := appclient_context st in
  with_context st
    {| pid := pid c; app_id := app_id c; inst_id := inst_id c;
       app_name := app_name c; instance_name := instance_name c;
       bus_conn := bus_conn c; init_done := init_done c;
       stop_callback := stop_callback c;
       exec_callback := exec_callback c;
       rotate_callback := app_rotate_callback;
       death_callback := death_callback c;
       app_focus_gained_callback := app_focus_gained_callback c;
       app_focus_lost_callback := app_focus_lost_callback c;
       message_callback := message_callback c;
       post_init_callback := post_init_callback c |}.

Definition clp_app_mgr_wm_register_focus_gained_handler
    (callback : option fnptr) (st : State) : State :=
  let c := appclient_context st in
  with_context st
    {| pid := pid c; app_id := app_id c; inst_id := inst_id c;
       app_name := app_name c; instance_name := instance_name c;
       bus_conn := bus_conn c; init_done := init_done c;
       stop_callback := stop_callback c;
       exec_callback := exec_callback c;
       rotate_callback := rotate_callback c;
       death_callback := death_callback c;
       app_focus_gained_callback := callback;
       app_focus_lost_callback := app_focus_lost_callback c;
       message_callback := message_callback c;
       post_init_callback := post_init_callback c |}.

Definition clp_app_mgr_wm_register_focus_lost_handler
    (callback : option fnptr) (st : State) : State :=
  let c := appclient_context st in
  with_context st
    {| pid := pid c; app_id := app_id c; inst_id := inst_id c;
       app_name := app_name c; instance_name := instance_name c;
       bus_conn := bus_conn c; init_done := init_done c;
       stop_callback := stop_callback c;
       exec_callback := exec_callback c;
       rotate_callback := rotate_callback c;
       death_callback := death_callback c;
       app_focus_gained_callback := app_focus_gained_callback c;
       app_focus_lost_callback := callback;
       message_callback := message_callback c;
       post_init_callback := post_init_callback c |}.

(** ** Stopping and closing *)

(** [clp_app_mgr_stop (app)]: a stop signal without body to the address
    made of the pieces of [app] around its first [':'], on a connection got
    for the occasion.  [None]: no defined result ([split[1]] of the empty
    vector). *)
Definition clp_app_mgr_stop (e : Env) (app : string) (st : State)
    : option (Z * State) :=
  let split := g_strsplit app ":" in
  match strv_nth split 0, strv_nth split 1 with
  | Some split0, Some split1 =>
      let interface :=
        concat_until_null [Some CLP_APP_MGR_DBUS_INTERFACE; Some ".";
                           split0; split1] in
      let objectpath :=
        concat_until_null [Some CLP_APP_MGR_DBUS_OBJECT; Some "/";
                           split0; split1] in
      let st := emit bus_get st in
      let bus_conn := dbus_bus_get e in
      if negb (dbus_message_new_signal_ok e objectpath interface
                 CLP_APP_MGR_DBUS_SIGNAL_STOP)
      then Some (CLP_APP_MGR_DBUS_CALL_FAIL, st)
      else
        let msg :=
          inbound_signal objectpath interface CLP_APP_MGR_DBUS_SIGNAL_STOP
            [] in
        let '(sent, st) := dbus_connection_send e bus_conn msg st in
        if negb sent then Some (CLP_APP_MGR_OUT_OF_MEMORY, st)
        else Some (CLP_APP_MGR_SUCCESS, dbus_connection_flush bus_conn st)
  | _, _ => None
  end.

(** What lies outside the repository and outside the bus connection: the
    LiMo call [AppMgrAppKill] (its return code for an instance id) and
    the value [clp_app_mgr_get_property] finds in the .desktop file of an
    application (NULL when the file or the key is missing). *)
Record Ams : Type := {
  AppMgrAppKill : Z -> Z;
  clp_app_mgr_get_property : string -> string -> cstr
}.

(** The calls that leave the process by another way than the bus
    connection, in the order made. *)
Inductive Outside : Type :=
| app_kill (inst_id : Z)             (* AppMgrAppKill (inst_id) *)
| sleep (seconds : Z)
| system (command : string).

(** The stop signal of [clp_app_mgr_close_by_name] and
    [clp_app_mgr_close_by_red_key], lines 1012-1020 and 1073-1081: the
    address is built in two local buffers of [MAX_SIZE] bytes from the
    whole of [app]. *)
Definition close_signal (app : string) : DBusMessage :=
  let dbusinterface := CLP_APP_MGR_DBUS_INTERFACE in
  let dbusobject := CLP_APP_MGR_DBUS_OBJECT in
  let dbusinterface := g_strlcat dbusinterface (Some ".") MAX_SIZE in
  let dbusinterface := g_strlcat dbusinterface (Some app) MAX_SIZE in
  let dbusobject := g_strlcat dbusobject (Some "/") MAX_SIZE in
  let dbusobject := g_strlcat dbusobject (Some app) MAX_SIZE in
  inbound_signal dbusobject dbusinterface CLP_APP_MGR_DBUS_SIGNAL_STOP [].

(** [clp_app_mgr_close_by_name (app)]: the return code, the state and the
    calls made outside the bus. *)
Definition clp_app_mgr_close_by_name (e : Env) (a : Ams) (app : string)
    (st : State) : Z * State * list Outside :=
  let key_path :=
    concat_until_null [Some GCONF_APPS_DIR; Some "/"; Some app;
                       Some "/LastInstId"] in
  let inst_id := gconf_client_get_int (gconf st) key_path in
  let msg := close_signal app in
  if negb (dbus_message_new_signal_ok e (msg_path msg) (msg_interface msg)
             CLP_APP_MGR_DBUS_SIGNAL_STOP)
  then (CLP_APP_MGR_DBUS_CALL_FAIL, st, [])
  else
    let '(_, st) :=
      dbus_connection_send e (bus_conn (appclient_context st)) msg st in
    let return_code := AppMgrAppKill a inst_id in
    if negb (return_code =? 0)
    then (CLP_APP_MGR_FAILURE, st, [sleep 2; app_kill inst_id])
    else (CLP_APP_MGR_SUCCESS, st, [sleep 2; app_kill inst_id]).

(** [!g_strcmp0 (flag, "true") || !g_strcmp0 (flag, "TRUE")]. *)
Definition red_key_kill (flag : cstr) : bool :=
  match flag with
  | Some f => String.eqb f "true" || String.eqb f "TRUE"
  | None => false
  end.

(** [clp_app_mgr_close_by_red_key (app)]. *)
Definition clp_app_mgr_close_by_red_key (e : Env) (a : Ams) (app : string)
    (st : State) : Z * State * list Outside :=
  let flag := clp_app_mgr_get_property a app "X-RedKeyKill" in
  if red_key_kill flag then
    let key_path :=
      concat_until_null [Some GCONF_APPS_DIR; Some "/"; Some app;
                         Some "/LastInstId"] in
    let inst_id := gconf_client_get_int (gconf st) key_path in
    let msg := close_signal app in
    if negb (dbus_message_new_signal_ok e (msg_path msg) (msg_interface msg)
               CLP_APP_MGR_DBUS_SIGNAL_STOP)
    then (CLP_APP_MGR_DBUS_CALL_FAIL, st, [])
    else
      let '(_, st) :=
        dbus_connection_send e (bus_conn (appclient_context st)) msg st in
      let return_code := AppMgrAppKill a inst_id in
      if negb (return_code =? 0)
      then (CLP_APP_MGR_FAILURE, st, [sleep 2; app_kill inst_id])
      else (CLP_APP_MGR_SUCCESS, st, [sleep 2; app_kill inst_id])
  else (CLP_APP_MGR_SUCCESS, st, []).

(** ** Power off and visibility *)

Definition gconf_client_set_bool (client : gmap string GConfValue)
    (key : string) (val : bool) : gmap string GConfValue :=
  <[key := GCONF_VALUE_BOOL val]> client.

Definition with_gconf (st : State) (client : gmap string GConfValue)
    : State :=
  {| appclient_context := appclient_context st;
     dbus_interface := dbus_interface st; dbus_object := dbus_object st;
     gconf := client; trace := trace st |}.

(** The C constant [FALSE]. *)
Definition FALSE : Z := 0.

(** [clp_app_mgr_power_off]: the shutdown flag is set, a stop signal goes
    out on the well-known interface, the shutdown script is run. *)
Definition clp_app_mgr_power_off (e : Env) (st : State)
    : Z * State * list Outside :=
  let st :=
    with_gconf st (gconf_client_set_bool (gconf st) "/appmgr/Shutdown" true) in
  if negb (dbus_message_new_signal_ok e CLP_APP_MGR_DBUS_OBJECT
             CLP_APP_MGR_DBUS_INTERFACE CLP_APP_MGR_DBUS_SIGNAL_STOP)
  then (FALSE, st, [])
  else
    let mesg :=
      inbound_signal CLP_APP_MGR_DBUS_OBJECT CLP_APP_MGR_DBUS_INTERFACE
        CLP_APP_MGR_DBUS_SIGNAL_STOP [] in
    let '(sent, st) :=
      dbus_connection_send e (bus_conn (appclient_context st)) mesg st in
    if negb sent then (FALSE, st, [])
    else (CLP_APP_MGR_FAILURE, st, [system "/sbin/shutdown.sh"]).

(** [clp_app_mgr_set_visibility (visibility)]. *)
Definition clp_app_mgr_set_visibility (visibility : bool) (st : State)
    : Z * State :=
  let key_path :=
    concat_until_null [Some GCONF_APPS_DIR; Some "/";
                       app_name (appclient_context st);
                       Some "/info/Visibility"] in
  (CLP_APP_MGR_SUCCESS,
   with_gconf st (gconf_client_set_bool (gconf st) key_path visibility)).

(** ** Closing oneself, invoking a service *)

(** [clp_app_mgr_close]: the return code and the calls made outside the
    bus. *)
Definition clp_app_mgr_close (a : Ams) (st : State) : Z * list Outside :=
  let inst_id := inst_id (appclient_context st) in
  let return_code := AppMgrAppKill a inst_id in
  if negb (return_code =? 0) then (CLP_APP_MGR_FAILURE, [app_kill inst_id])
  else (CLP_APP_MGR_SUCCESS, [app_kill inst_id]).

(** [clp_app_mgr_service_invoke (application, ..., NULL)]: starts the
    [va_list] and hands it to [clp_app_mgr_exec_application]. *)
Definition clp_app_mgr_service_invoke (e : Env) (application : string)
    (args : list string) (st : State) : option (Z * State) :=
  let rv := clp_app_mgr_exec_application e application args st in
  rv.

(** The visibility that [clp_app_mgr_get_application_instance_info
    (instance_name)] puts in the record it returns (lines 1740, 1760 and
    1787-1788): the key is built from the piece of the instance name
    before its first [':']. *)
Definition instance_info_visibility (instance_name : string) (st : State)
    : bool :=
  let split := g_strsplit instance_name ":" in
  let key_path :=
    concat_until_null [Some GCONF_APPS_DIR; Some "/"; nth_error split 0;
                       Some "/info"] in
  let temp := concat_until_null [Some key_path; Some "/Visibility"] in
  gconf_client_get_bool (gconf st) temp.

(** ** Words for the further statements *)

(** The callbacks among some events. *)
Definition is_callback (ev : Event) : bool :=
  match ev with
  | call_stop _ | call_exec _ _ _ | call_death _ _ | call_focus_gained _
  | call_focus_lost _ | call_message _ _ _ | call_post_init _ => true
  | _ => false
  end.

(** The members the filter has a rule for. *)
Definition known_members : list string :=
  [CLP_APP_MGR_DBUS_SIGNAL_STOP; CLP_WIN_MGR_DBUS_SIGNAL_UA_GAINED;
   CLP_WIN_MGR_DBUS_SIGNAL_UA_LOST; CLP_APP_MGR_DBUS_SIGNAL_ROTATE;
   CLP_APP_MGR_DBUS_SIGNAL_EXEC; CLP_APP_MGR_DBUS_SIGNAL_APPEXIT;
   CLP_APP_MGR_DBUS_SIGNAL_MESSAGE].

(** A decoder for the launch strings, used to show that they lose
    nothing: the pieces of a string between the bytes [d]. *)
Fixpoint pieces (d : ascii) (s : string) : list string :=
  match s with
  | EmptyString => [""]
  | String c r =>
      if Ascii.eqb c d then "" :: pieces d r
      else match pieces d r with
           | h :: t => String c h :: t
           | [] => [String c ""]
           end
  end.

(** No byte [d] in the string. *)
Fixpoint free_of (d : ascii) (s : string) : bool :=
  match s with
  | EmptyString => true
  | String c r => negb (Ascii.eqb c d) && free_of d r
  end.

(** ** Sample data for the examples *)

Module Sample.

(** A world in which the bus works and the daemon answers every launch
    call with [(inst_id, error_code)].  The two codes of <app-manager.h>
    are not part of this repository; -6 and -3 stand for them here. *)
Definition env (bus : option DBusConnection) (inst_id error_code : Z) : Env :=
  {| getpid := 4242;
     dbus_bus_get := bus;
     dbus_g_bus_get_ok := true;
     dbus_g_proxy_new_ok := true;
     app_launch_call := fun _ _ _ => Some (inst_id, error_code);
     dbus_message_new_signal_ok := fun _ _ _ => true;
     dbus_connection_send_ok := true;
     va_list_by_value := true;
     APPMGR_ERROR_APP_ALREADY_RUNNING := -6;
     APPMGR_ERROR_INTERNAL_TRANSPORT_ERROR := -3 |}.

Definition running : Env := env (Some 1%nat) 5 (-6).
Definition cold : Env := env (Some 1%nat) 5 0.
Definition no_bus : Env := env None 5 0.

(** A registry that knows the multi-instance application "appY", whose
    last instance is 3, and the single-instance "appX". *)
Definition registry : gmap string GConfValue :=
  <["/appmgr/appY/info/AppID" := GCONF_VALUE_INT 12]>
  (<["/appmgr/appY/LastInstId" := GCONF_VALUE_INT 3]>
  (<["/LiMo/System/AppInfo/12/AppMultiInstance" := GCONF_VALUE_BOOL true]>
  (<["/appmgr/appX/info/AppID" := GCONF_VALUE_INT 11]> ∅))).

Definition shutting_down : gmap string GConfValue :=
  <["/appmgr/Shutdown" := GCONF_VALUE_BOOL true]> registry.

(** The process of "appX" after registration, with an exec handler. *)
Definition appX : State :=
  clp_app_mgr_register_exec_handler (Some 7%nat)
    (clp_app_mgr_init cold "appX" 10 CLP_APP_MGR_SINGLE
       (initial_state registry)).2.

(** The process of instance 3 of "appY", with stop and message handlers. *)
Definition appY3 : State :=
  clp_app_mgr_register_stop_handler (Some 8%nat)
    (clp_app_mgr_register_message_handler (Some 9%nat)
       (clp_app_mgr_init cold "appY" 10 CLP_APP_MGR_MULTIPLE
          (initial_state registry)).2).

(** The world of [running] on an ABI whose [va_list] is an array type. *)
Definition running_shared_va_list : Env :=
  {| getpid := 4242;
     dbus_bus_get := Some 1%nat;
     dbus_g_bus_get_ok := true;
     dbus_g_proxy_new_ok := true;
     app_launch_call := fun _ _ _ => Some (5, -6);
     dbus_message_new_signal_ok := fun _ _ _ => true;
     dbus_connection_send_ok := true;
     va_list_by_value := false;
     APPMGR_ERROR_APP_ALREADY_RUNNING := -6;
     APPMGR_ERROR_INTERNAL_TRANSPORT_ERROR := -3 |}.

(** An application manager that kills what it is asked to, and a .desktop
    file of "appX" that allows the red key. *)
Definition ams (kill_code : Z) : Ams :=
  {| AppMgrAppKill := fun _ => kill_code;
     clp_app_mgr_get_property :=
       fun application property =>
         if String.eqb application "appX"
            && String.eqb property "X-RedKeyKill"
         then Some "true" else None |}.

End Sample.

(** * Properties *)

(** ** Sanity checks of the string functions *)

Example sprintf_d_3 : sprintf_d 3 = "3".
Proof. reflexivity. Qed.

Example sprintf_d_neg : sprintf_d (-12) = "-12".
Proof. reflexivity. Qed.

Example g_strsplit_inst : g_strsplit "appY:3" ":" = ["appY"; "3"].
Proof. reflexivity. Qed.

Example g_strsplit_plain : g_strsplit "appY" ":" = ["appY"].
Proof. reflexivity. Qed.

Example g_strlcat_cut : g_strlcat "abc" (Some "defgh") 6 = "abcde".
Proof. reflexivity. Qed.

Example appX_interface :
  dbus_interface Sample.appX = "org.clp.appmanager.appX"
  /\ instance_name (appclient_context Sample.appX) = Some "appX".
Proof. vm_compute. split; reflexivity. Qed.

Example appY3_interface :
  dbus_interface Sample.appY3 = "org.clp.appmanager.appY3"
  /\ dbus_object Sample.appY3 = "/org/clp/appmanager/appY3"
  /\ instance_name (appclient_context Sample.appY3) = Some "appY:3".
Proof. vm_compute. repeat split; reflexivity. Qed.

(** ** The dispatch filter: exec, Message and stop *)

Lemma read_strings_take (n : nat) (arr : list string) :
  (n <= length arr)%nat -> read_strings n arr = Some (take n arr).
Proof.
  revert arr; induction n as [|n IH]; intros arr H; [reflexivity|].
  destruct arr as [|s arr]; simpl in H; [lia|].
  simpl. rewrite IH by lia. reflexivity.
Qed.

(** A count above the length of the array makes the loop read past the
    end of the array. *)
Lemma read_strings_past (n : nat) (arr : list string) :
  (length arr < n)%nat -> read_strings n arr = None.
Proof.
  revert arr; induction n as [|n IH]; intros arr H; [lia|].
  destruct arr as [|s arr]; [reflexivity|].
  simpl in H. simpl. rewrite IH by lia. reflexivity.
Qed.

(** A count sent as a negative INT32 is read into the [guint] as a number
    above [INT_MAX]: the loop leaves the array. *)
Lemma message_func_exec_negative_count (e : Env) (st : State)
    (path : string) (f : fnptr) (n : Z) (arr : list string) :
  exec_callback (appclient_context st) = Some f ->
  - 2 ^ 31 <= n < 0 ->
  Z.of_nat (length arr) < 2 ^ 31 ->
  message_func e
    (inbound_signal path (dbus_interface st) CLP_APP_MGR_DBUS_SIGNAL_EXEC
       [DBUS_TYPE_INT32 n; DBUS_TYPE_ARRAY arr]) st
  = None.
Proof.
  intros Hf Hn Hlen.
  unfold message_func, message_func_chain, dbus_message_is_signal,
    decode_params.
  cbn [msg_type msg_member msg_interface msg_args inbound_signal
       is_signal_type iter_get_uint iter_next iter_recurse tl andb].
  assert (Hu : uint32 n = n + 2 ^ 32).
  { unfold uint32. symmetry. apply Z.mod_unique_pos with (q := -1); lia. }
  rewrite Hu.
  repeat (rewrite ?String.eqb_refl, ?Hf;
          cbn [andb CLP_APP_MGR_DBUS_SIGNAL_EXEC CLP_APP_MGR_DBUS_SIGNAL_STOP
               String.eqb Ascii.eqb Bool.eqb]).
  destruct (n + 2 ^ 32 =? 0) eqn:E; [lia|].
  rewrite read_strings_past by lia. reflexivity.
Qed.

(** An [exec] signal on the own interface with a count [n > 0] and an
    array of at least [n] strings reaches the exec handler with the first
    [n] strings of the array. *)
Lemma message_func_exec (e : Env) (st : State) (path : string) (f : fnptr)
    (n : Z) (arr : list string) :
  exec_callback (appclient_context st) = Some f ->
  0 < n -> (Z.to_nat n <= length arr)%nat ->
  message_func e
    (inbound_signal path (dbus_interface st) CLP_APP_MGR_DBUS_SIGNAL_EXEC
       [DBUS_TYPE_UINT32 n; DBUS_TYPE_ARRAY arr]) st
  = Some (DBUS_HANDLER_RESULT_HANDLED,
          emit (call_exec f n (take (Z.to_nat n) arr)) st).
Proof.
  intros Hf Hn Hlen.
  unfold message_func, message_func_chain, dbus_message_is_signal,
    decode_params; simpl.
  rewrite String.eqb_refl, Hf; simpl.
  destruct (n =? 0) eqn:E; [lia|].
  rewrite read_strings_take by exact Hlen. reflexivity.
Qed.

(** The same for a [Message] signal and the message handler. *)
Lemma message_func_message (e : Env) (st : State) (path : string)
    (f : fnptr) (n : Z) (arr : list string) :
  message_callback (appclient_context st) = Some f ->
  0 < n -> (Z.to_nat n <= length arr)%nat ->
  message_func e
    (inbound_signal path (dbus_interface st) CLP_APP_MGR_DBUS_SIGNAL_MESSAGE
       [DBUS_TYPE_UINT32 n; DBUS_TYPE_ARRAY arr]) st
  = Some (DBUS_HANDLER_RESULT_HANDLED,
          emit (call_message f n (take (Z.to_nat n) arr)) st).
Proof.
  intros Hf Hn Hlen.
  unfold message_func, message_func_chain, dbus_message_is_signal,
    decode_params; simpl.
  rewrite String.eqb_refl, Hf; simpl.
  destruct (n =? 0) eqn:E; [lia|].
  rewrite read_strings_take by exact Hlen. reflexivity.
Qed.

(** C1, as the code has it: an inbound signal on the process's own derived
    interface with member exec and payload (2, ["appX", "a", "b"]) makes the
    filter call the registered exec handler once, with count 2 and the first
    two strings of the array, ["appX", "a"]: the prepended name is passed as
    element zero, and "b" is not passed. *)
Theorem C1_exec_dispatch (e : Env) (st : State) (path : string) (f : fnptr) :
  exec_callback (appclient_context st) = Some f ->
  message_func e
    (inbound_signal path (dbus_interface st) "exec"
       [DBUS_TYPE_UINT32 2; DBUS_TYPE_ARRAY ["appX"; "a"; "b"]]) st
  = Some (DBUS_HANDLER_RESULT_HANDLED,
          emit (call_exec f 2 ["appX"; "a"]) st).
Proof.
  intros Hf.
  apply (message_func_exec e st path f 2 ["appX"; "a"; "b"] Hf);
    [lia | simpl; lia].
Qed.

Lemma C1_exec_dispatch_witness :
  exec_callback (appclient_context Sample.appX) = Some 7%nat
  /\ message_func Sample.cold
       (inbound_signal "/org/clp/appmanager/appX"
          (dbus_interface Sample.appX) "exec"
          [DBUS_TYPE_UINT32 2; DBUS_TYPE_ARRAY ["appX"; "a"; "b"]])
       Sample.appX
     = Some (DBUS_HANDLER_RESULT_HANDLED,
             emit (call_exec 7%nat 2 ["appX"; "a"]) Sample.appX).
Proof.
  split; [reflexivity|].
  apply (C1_exec_dispatch Sample.cold Sample.appX
           "/org/clp/appmanager/appX" 7%nat).
  reflexivity.
Defined.

(** C1 as stated fails: for the registered process "appX" the handler is
    called with ["appX"; "a"], not with ["a"; "b"], and "appX" is among
    the strings passed. *)
Lemma C1_counterexample :
  exists st',
    message_func Sample.cold
      (inbound_signal "/org/clp/appmanager/appX" "org.clp.appmanager.appX"
         "exec" [DBUS_TYPE_UINT32 2; DBUS_TYPE_ARRAY ["appX"; "a"; "b"]])
      Sample.appX
    = Some (DBUS_HANDLER_RESULT_HANDLED, st')
    /\ trace st' = trace Sample.appX ++ [call_exec 7%nat 2 ["appX"; "a"]]
    /\ trace st' <> trace Sample.appX ++ [call_exec 7%nat 2 ["a"; "b"]]
    /\ In "appX" ["appX"; "a"].
Proof.
  eexists. split; [vm_compute; reflexivity|].
  split; [reflexivity|]. split; [|left; reflexivity].
  vm_compute. discriminate.
Qed.

(** C10: a stop signal on the process's own derived interface, which is not
    the well-known app-manager interface, makes the filter call the
    registered stop handler once and still return
    [DBUS_HANDLER_RESULT_NOT_YET_HANDLED]: the first stop test is outside
    the chain that decides the result. *)
Theorem C10_own_stop_not_handled (e : Env) (st : State) (path : string)
    (args : list DBusArg) (f : fnptr) :
  dbus_interface st <> CLP_APP_MGR_DBUS_INTERFACE ->
  stop_callback (appclient_context st) = Some f ->
  message_func e (inbound_signal path (dbus_interface st) "stop" args) st
  = Some (DBUS_HANDLER_RESULT_NOT_YET_HANDLED, emit (call_stop f) st).
Proof.
  intros Hne Hf.
  unfold message_func, message_func_chain, dbus_message_is_signal; simpl.
  rewrite String.eqb_refl, Hf; simpl.
  apply String.eqb_neq in Hne. rewrite Hne. reflexivity.
Qed.

Lemma C10_own_stop_not_handled_witness :
  message_func Sample.cold
    (inbound_signal "/org/clp/appmanager/appY3"
       (dbus_interface Sample.appY3) "stop" []) Sample.appY3
  = Some (DBUS_HANDLER_RESULT_NOT_YET_HANDLED,
          emit (call_stop 8%nat) Sample.appY3).
Proof.
  apply (C10_own_stop_not_handled Sample.cold Sample.appY3
           "/org/clp/appmanager/appY3" [] 8%nat).
  - vm_compute. discriminate.
  - reflexivity.
Defined.

(** ** Registration *)

Lemma append_inj_l (s a b : string) : s +:+ a = s +:+ b -> a = b.
Proof.
  induction s as [|c s IH]; simpl; intros H; [exact H|].
  injection H as H. exact (IH H).
Qed.

Lemma append_empty_r (s : string) : s +:+ "" = s.
Proof. induction s as [|c s IH]; simpl; [reflexivity | now rewrite IH]. Qed.

Lemma g_strsplit_head (name : string) (d : ascii) :
  name <> "" -> nth_error (g_strsplit name d) 0 = Some (split_at d name).1.
Proof.
  intros Hne. destruct name as [|c name]; [contradiction|].
  unfold g_strsplit.
  destruct (split_at d (String c name)) as [h [t|]]; reflexivity.
Qed.

Lemma split_at_no_delim (d : ascii) (s : string) :
  (split_at d s).2 = None -> (split_at d s).1 = s.
Proof.
  induction s as [|c s IH]; simpl; [reflexivity|].
  destruct (Ascii.eqb c d); [discriminate|].
  destruct (split_at d s) as [h t]; simpl in *.
  intros Ht. rewrite (IH Ht). reflexivity.
Qed.

(** The PID written at registration does not disturb the other keys the
    registration reads. *)
Lemma get_int_after_pid (registry : gmap string GConfValue) (n tail : string)
    (v : Z) :
  tail <> "/info/PID" ->
  gconf_client_get_int
    (gconf_client_set_int registry
       (concat_until_null [Some GCONF_APPS_DIR; Some "/"; Some n;
                           Some "/info/PID"]) v)
    (concat_until_null [Some GCONF_APPS_DIR; Some "/"; Some n; Some tail])
  = gconf_client_get_int registry (GCONF_APPS_DIR +:+ "/" +:+ n +:+ tail).
Proof.
  intros Hne. unfold gconf_client_get_int, gconf_client_set_int.
  rewrite lookup_insert_ne.
  - simpl. rewrite ?append_empty_r. reflexivity.
  - simpl. intros H. apply Hne. injection H as H.
    apply append_inj_l in H. rewrite !append_empty_r in H.
    congruence.
Qed.

Lemma get_bool_after_pid (registry : gmap string GConfValue) (n a : string)
    (v : Z) :
  gconf_client_get_bool
    (gconf_client_set_int registry
       (concat_until_null [Some GCONF_APPS_DIR; Some "/"; Some n;
                           Some "/info/PID"]) v)
    (concat_until_null [Some LIMO_APPS_DIR; Some "/"; Some a;
                        Some "/AppMultiInstance"])
  = gconf_client_get_bool registry
      (LIMO_APPS_DIR +:+ "/" +:+ a +:+ "/AppMultiInstance").
Proof.
  unfold gconf_client_get_bool, gconf_client_set_int.
  rewrite lookup_insert_ne.
  - simpl. rewrite ?append_empty_r. reflexivity.
  - simpl. discriminate.
Qed.

(** What lines 210-265 leave in the context and in the two static
    buffers, for a name that is not empty. *)
Lemma clp_app_mgr_init_identity_spec (e : Env) (name : string) (st : State) :
  name <> "" ->
  let n := canonical_name name in
  let multi := registry_multi_instance (gconf st) n in
  let k := registry_last_inst_id (gconf st) n in
  let st' := clp_app_mgr_init_identity e name st in
  app_name (appclient_context st') = Some n
  /\ inst_id (appclient_context st') = k
  /\ instance_name (appclient_context st')
     = Some (if multi then n +:+ ":" +:+ sprintf_d k else n)
  /\ dbus_interface st' = derive_address (dbus_interface st) "." n multi k
  /\ dbus_object st' = derive_address (dbus_object st) "/" n multi k.
Proof.
  intros Hne n multi k st'.
  subst st'. unfold clp_app_mgr_init_identity. cbn zeta.
  rewrite (g_strsplit_head name "." Hne). fold (canonical_name name).
  fold n. unfold g_strdup.
  rewrite !get_int_after_pid by discriminate.
  rewrite get_bool_after_pid.
  fold (registry_app_id (gconf st) n).
  fold (registry_last_inst_id (gconf st) n). fold k.
  fold (registry_multi_instance (gconf st) n). fold multi.
  cbn [appclient_context app_name inst_id instance_name dbus_interface
       dbus_object].
  unfold derive_address.
  repeat split; try reflexivity.
  destruct multi; [|reflexivity].
  cbn [g_strconcat concat_until_null]. rewrite append_empty_r. reflexivity.
Qed.

(** The rest of [clp_app_mgr_init] leaves the identity alone. *)
Lemma clp_app_mgr_init_keeps_identity (e : Env) (name : string)
    (priority : Z) (instance : ClpAppMgrInstanceType) (st : State) :
  let st0 := clp_app_mgr_init_identity e name st in
  let st' := (clp_app_mgr_init e name priority instance st).2 in
  app_name (appclient_context st') = app_name (appclient_context st0)
  /\ instance_name (appclient_context st')
     = instance_name (appclient_context st0)
  /\ inst_id (appclient_context st') = inst_id (appclient_context st0)
  /\ dbus_interface st' = dbus_interface st0
  /\ dbus_object st' = dbus_object st0
  /\ post_init_callback (appclient_context st')
     = post_init_callback (appclient_context st).
Proof.
  unfold clp_app_mgr_init. destruct (dbus_bus_get e); repeat split.
Qed.

(** What a registration leaves in the registry: the PID key of the
    application name, set to the process id. *)
Lemma clp_app_mgr_init_gconf (e : Env) (name : string) (priority : Z)
    (instance : ClpAppMgrInstanceType) (st : State) :
  name <> "" ->
  gconf (clp_app_mgr_init e name priority instance st).2
  = gconf_client_set_int (gconf st)
      (GCONF_APPS_DIR +:+ "/" +:+ canonical_name name +:+ "/info/PID")
      (getpid e).
Proof.
  intros Hne.
  assert (H : gconf (clp_app_mgr_init e name priority instance st).2
              = gconf (clp_app_mgr_init_identity e name st)).
  { unfold clp_app_mgr_init. destruct (dbus_bus_get e); reflexivity. }
  rewrite H. unfold clp_app_mgr_init_identity. cbn zeta.
  rewrite (g_strsplit_head name "." Hne). fold (canonical_name name).
  cbn [gconf g_strdup concat_until_null]. rewrite append_empty_r.
  reflexivity.
Qed.

(** Registering under a non-empty name whose application name is [n] (the
    name up to its first '.', the whole name when it has none) leaves the
    instance name [n] when the registry has the application as
    single-instance and [n ++ ":" ++ k] when it has it as multi-instance
    with last instance id [k]; and two registrations of the same
    application name, registry instance type and instance id leave the
    same interface, object path and instance name provided they start
    from the same contents of the two static buffers. *)
Lemma clp_app_mgr_init_instance_name (e : Env) (name : string) (priority : Z)
    (instance : ClpAppMgrInstanceType) (st : State) :
  name <> "" ->
  let n := canonical_name name in
  let multi := registry_multi_instance (gconf st) n in
  let k := registry_last_inst_id (gconf st) n in
  let st' := (clp_app_mgr_init e name priority instance st).2 in
  ((split_at "." name).2 = None -> n = name)
  /\ clp_app_mgr_get_name st' = Some n
  /\ clp_app_mgr_get_instance_name st'
     = Some (if multi then n +:+ ":" +:+ sprintf_d k else n)
  /\ (forall (e2 : Env) (name2 : string) (priority2 : Z)
        (instance2 : ClpAppMgrInstanceType) (st2 : State),
        name2 <> "" ->
        canonical_name name2 = n ->
        registry_multi_instance (gconf st2) n = multi ->
        registry_last_inst_id (gconf st2) n = k ->
        dbus_interface st2 = dbus_interface st ->
        dbus_object st2 = dbus_object st ->
        let st2' := (clp_app_mgr_init e2 name2 priority2 instance2 st2).2 in
        dbus_interface st2' = dbus_interface st'
        /\ dbus_object st2' = dbus_object st'
        /\ clp_app_mgr_get_instance_name st2'
           = clp_app_mgr_get_instance_name st').
Proof.
  intros Hne n multi k st'.
  destruct (clp_app_mgr_init_keeps_identity e name priority instance st)
    as (Ha & Hi & _ & Hif & Hob & _).
  destruct (clp_app_mgr_init_identity_spec e name st Hne)
    as (Ha0 & _ & Hi0 & Hif0 & Hob0).
  fold st' in Ha, Hi, Hif, Hob.
  unfold clp_app_mgr_get_name, clp_app_mgr_get_instance_name.
  split; [apply split_at_no_delim|].
  split; [rewrite Ha; exact Ha0|].
  split; [rewrite Hi; exact Hi0|].
  intros e2 name2 priority2 instance2 st2 Hne2 Hn2 Hm2 Hk2 Hif2 Hob2.
  destruct (clp_app_mgr_init_keeps_identity e2 name2 priority2 instance2 st2)
    as (_ & Hi' & _ & Hif' & Hob' & _).
  destruct (clp_app_mgr_init_identity_spec e2 name2 st2 Hne2)
    as (_ & _ & Hi0' & Hif0' & Hob0').
  cbn zeta in Hi', Hif', Hob', Hi0', Hif0', Hob0'.
  rewrite Hn2, Hm2, Hk2 in Hi0', Hif0', Hob0'.
  rewrite Hi', Hif', Hob', Hi, Hif, Hob.
  rewrite Hi0', Hif0', Hob0', Hi0, Hif0, Hob0, Hif2, Hob2.
  repeat split.
Qed.




(** C8: [clp_app_mgr_async_init] stores the handler it is given, runs
    [clp_app_mgr_init] without looking at its result, and then returns
    [CLP_APP_MGR_FAILURE] when it was given no handler, and calls the
    handler and returns [CLP_APP_MGR_SUCCESS] when it was given one.  When
    the bus connects, the registration is complete in both cases, and has
    succeeded: application name, instance name, the two address buffers
    and the PID key of the registry are written, the connection is stored,
    [init_done] is set, the three match rules and then the filter are
    added; the handler is called right after the filter. *)
Theorem C8_async_init (e : Env) (name : string) (priority : Z)
    (instance : ClpAppMgrInstanceType) (st : State) :
  let n := canonical_name name in
  let multi := registry_multi_instance (gconf st) n in
  let k := registry_last_inst_id (gconf st) n in
  let registered (c : DBusConnection) (post : option fnptr) (s : State) :=
    clp_app_mgr_get_name s = Some n
    /\ clp_app_mgr_get_instance_name s
       = Some (if multi then n +:+ ":" +:+ sprintf_d k else n)
    /\ dbus_interface s = derive_address (dbus_interface st) "." n multi k
    /\ dbus_object s = derive_address (dbus_object st) "/" n multi k
    /\ gconf_client_get_int (gconf s)
         (GCONF_APPS_DIR +:+ "/" +:+ n +:+ "/info/PID") = getpid e
    /\ bus_conn (appclient_context s) = Some c
    /\ init_done (appclient_context s) = true
    /\ post_init_callback (appclient_context s) = post in
  let steps (c : DBusConnection) (s : State) :=
    [bus_get;
     bus_add_match c (match_rule (dbus_interface s));
     bus_add_match c (match_rule CLP_APP_MGR_DBUS_INTERFACE);
     bus_add_match c (match_rule CLP_WIN_MGR_DBUS_INTERFACE);
     connection_add_filter c] in
  (clp_app_mgr_async_init e name priority instance None st
   = (CLP_APP_MGR_FAILURE,
      (clp_app_mgr_init e name priority instance
         (set_post_init_callback None st)).2)
   /\ forall f : fnptr,
        clp_app_mgr_async_init e name priority instance (Some f) st
        = (CLP_APP_MGR_SUCCESS,
           emit (call_post_init f)
             (clp_app_mgr_init e name priority instance
                (set_post_init_callback (Some f) st)).2))
  /\ (forall c : DBusConnection,
        name <> "" ->
        dbus_bus_get e = Some c ->
        (exists s,
           clp_app_mgr_async_init e name priority instance None st
           = (CLP_APP_MGR_FAILURE, s)
           /\ clp_app_mgr_init e name priority instance
                (set_post_init_callback None st)
              = (CLP_APP_MGR_SUCCESS, s)
           /\ registered c None s
           /\ trace s = trace st ++ steps c s)
        /\ (forall f : fnptr,
              exists s,
                clp_app_mgr_async_init e name priority instance (Some f) st
                = (CLP_APP_MGR_SUCCESS, s)
                /\ (clp_app_mgr_init e name priority instance
                      (set_post_init_callback (Some f) st)).1
                   = CLP_APP_MGR_SUCCESS
                /\ registered c (Some f) s
                /\ trace s = trace st ++ steps c s ++ [call_post_init f])).
Proof.
  intros n multi k registered steps.
  assert (Hasync : forall post,
            clp_app_mgr_async_init e name priority instance post st
            = match post with
              | Some f =>
                  (CLP_APP_MGR_SUCCESS,
                   emit (call_post_init f)
                     (clp_app_mgr_init e name priority instance
                        (set_post_init_callback post st)).2)
              | None =>
                  (CLP_APP_MGR_FAILURE,
                   (clp_app_mgr_init e name priority instance
                      (set_post_init_callback post st)).2)
              end).
  { intros post. unfold clp_app_mgr_async_init.
    pose proof (clp_app_mgr_init_keeps_identity e name priority instance
                  (set_post_init_callback post st)) as H.
    cbn zeta in H. destruct H as (_ & _ & _ & _ & _ & Hp).
    destruct (clp_app_mgr_init e name priority instance
                (set_post_init_callback post st)) as [r st'] eqn:E.
    simpl in Hp. rewrite Hp. destruct post; reflexivity. }
  split; [split; [exact (Hasync None) | intros f; exact (Hasync (Some f))]|].
  intros c Hne Hbus.
  assert (Hreg : forall post,
            let s := (clp_app_mgr_init e name priority instance
                        (set_post_init_callback post st)).2 in
            (clp_app_mgr_init e name priority instance
               (set_post_init_callback post st)).1 = CLP_APP_MGR_SUCCESS
            /\ registered c post s
            /\ trace s = trace st ++ steps c s).
  { intros post s.
    pose proof (clp_app_mgr_init_keeps_identity e name priority instance
                  (set_post_init_callback post st)) as H.
    cbn zeta in H. fold s in H. destruct H as (Ha & Hi & _ & Hif & Hob & Hp).
    destruct (clp_app_mgr_init_identity_spec e name
                (set_post_init_callback post st) Hne)
      as (Ha0 & _ & Hi0 & Hif0 & Hob0).
    pose proof (clp_app_mgr_init_gconf e name priority instance
                  (set_post_init_callback post st) Hne) as Hg.
    fold s in Hg.
    change (gconf (set_post_init_callback post st)) with (gconf st)
      in Ha0, Hi0, Hif0, Hob0, Hg.
    change (dbus_interface (set_post_init_callback post st))
      with (dbus_interface st) in Hif0.
    change (dbus_object (set_post_init_callback post st))
      with (dbus_object st) in Hob0.
    fold n in Ha0, Hi0, Hif0, Hob0, Hg. fold multi in Hi0, Hif0, Hob0.
    fold k in Hi0, Hif0, Hob0.
    unfold registered, clp_app_mgr_get_name, clp_app_mgr_get_instance_name.
    rewrite Ha, Hi, Hif, Hob, Hp, Ha0, Hi0, Hif0, Hob0, Hg.
    split; [unfold clp_app_mgr_init; rewrite Hbus; reflexivity|].
    split.
    - repeat split; try reflexivity.
      + unfold gconf_client_get_int, gconf_client_set_int.
        rewrite lookup_insert_eq. reflexivity.
      + subst s. unfold clp_app_mgr_init. rewrite Hbus. reflexivity.
      + subst s. unfold clp_app_mgr_init. rewrite Hbus. reflexivity.
    - subst s steps. unfold clp_app_mgr_init. rewrite Hbus.
      cbn [fst snd trace with_context emit dbus_interface
           clp_app_mgr_init_identity set_post_init_callback].
      rewrite <- !app_assoc. reflexivity. }
  split.
  - eexists. split; [exact (Hasync None)|].
    destruct (Hreg None) as (H1 & H2 & H3).
    split; [|split; assumption].
    destruct (clp_app_mgr_init e name priority instance
                (set_post_init_callback None st)) as [r s0].
    simpl in H1. subst r. reflexivity.
  - intros f. eexists. split; [exact (Hasync (Some f))|].
    destruct (Hreg (Some f)) as (H1 & H2 & H3).
    split; [exact H1|]. split; [exact H2|].
    cbn [trace dbus_interface emit]. rewrite H3.
    rewrite <- app_assoc. reflexivity.
Qed.

Lemma C8_async_init_witness :
  exists s,
    clp_app_mgr_async_init Sample.cold "appY" 10 CLP_APP_MGR_MULTIPLE None
      (initial_state Sample.registry)
    = (CLP_APP_MGR_FAILURE, s)
    /\ clp_app_mgr_init Sample.cold "appY" 10 CLP_APP_MGR_MULTIPLE
         (set_post_init_callback None (initial_state Sample.registry))
       = (CLP_APP_MGR_SUCCESS, s)
    /\ clp_app_mgr_get_instance_name s = Some "appY:3"
    /\ bus_conn (appclient_context s) = Some 1%nat
    /\ init_done (appclient_context s) = true
    /\ trace s
       = [bus_get;
          bus_add_match 1%nat (match_rule "org.clp.appmanager.appY3");
          bus_add_match 1%nat (match_rule CLP_APP_MGR_DBUS_INTERFACE);
          bus_add_match 1%nat (match_rule CLP_WIN_MGR_DBUS_INTERFACE);
          connection_add_filter 1%nat].
Proof.
  destruct (proj2 (C8_async_init Sample.cold "appY" 10 CLP_APP_MGR_MULTIPLE
                     (initial_state Sample.registry))
              1%nat ltac:(discriminate) eq_refl)
    as [(s & H1 & H2 & (_ & Hi & Hif & _ & _ & Hb & Hd & _) & Ht) _].
  exists s. split; [exact H1|]. split; [exact H2|].
  split; [exact Hi|]. split; [exact Hb|]. split; [exact Hd|].
  rewrite Ht, Hif. reflexivity.
Defined.

(** ** Launching *)

Lemma uint32_small (n : Z) : 0 <= n < 2 ^ 32 -> uint32 n = n.
Proof. intros H. unfold uint32. apply Z.mod_small. exact H. Qed.

Lemma concat3 (a b c : string) :
  concat_until_null [Some a; Some b; Some c] = a +:+ b +:+ c.
Proof. simpl. rewrite append_empty_r. reflexivity. Qed.

Lemma collect_params_ok (va : list string) (n : Z) (params : list string) :
  n + Z.of_nat (length va) <= NAME_SIZE ->
  collect_params va n params = Some (n + Z.of_nat (length va), params ++ va).
Proof.
  revert n params; induction va as [|v va IH]; intros n params H; simpl.
  - rewrite Z.add_0_r, app_nil_r. reflexivity.
  - simpl length in H. destruct (NAME_SIZE <=? n) eqn:E; [lia|].
    rewrite IH by lia. rewrite <- app_assoc. simpl. do 2 f_equal. lia.
Qed.

Lemma collect_messages_ok (ap : list string) (i n : Z) (l : list string) :
  i + Z.of_nat (length ap) <= MAX_SIZE ->
  collect_messages ap i n l = Some (n + Z.of_nat (length ap), l ++ ap).
Proof.
  revert i n l; induction ap as [|v ap IH]; intros i n l H; simpl.
  - rewrite Z.add_0_r, app_nil_r. reflexivity.
  - simpl length in H. destruct (MAX_SIZE <=? i) eqn:E; [lia|].
    rewrite IH by lia. rewrite <- app_assoc. simpl. do 2 f_equal. lia.
Qed.

Lemma read_params_ok (pre suf : list string) :
  read_params (length suf) (length pre) (pre ++ suf) = Some suf.
Proof.
  revert pre; induction suf as [|p suf IH]; intros pre; simpl; [reflexivity|].
  rewrite nth_error_app2 by lia. rewrite Nat.sub_diag. simpl.
  replace (pre ++ p :: suf) with ((pre ++ [p]) ++ suf)
    by (rewrite <- app_assoc; reflexivity).
  replace (S (length pre)) with (length (pre ++ [p]))
    by (rewrite length_app; simpl; lia).
  rewrite IH. reflexivity.
Qed.

Lemma join_argv_ok (pre suf : list string) (args : string) :
  join_argv (length suf) (length pre) (pre ++ suf) args
  = Some (fold_left (fun a p => a +:+ delim +:+ p) suf args).
Proof.
  revert pre args; induction suf as [|p suf IH]; intros pre args; simpl;
    [reflexivity|].
  rewrite nth_error_app2 by lia. rewrite Nat.sub_diag. simpl.
  replace (pre ++ p :: suf) with ((pre ++ [p]) ++ suf)
    by (rewrite <- app_assoc; reflexivity).
  replace (S (length pre)) with (length (pre ++ [p]))
    by (rewrite length_app; simpl; lia).
  rewrite IH. reflexivity.
Qed.

Lemma launch_call_reply (e : Env) (app_id md : Z) (inst0 : option Z)
    (args : cstr) (st : State) (inst code : Z) :
  proxy_ok e = true ->
  app_launch_call e app_id args md = Some (inst, code) ->
  launch_call e app_id md inst0 args st
  = (code, Some inst,
     emit (proxy_call "app_launch_call" app_id args md) (emit g_bus_get st)).
Proof.
  unfold proxy_ok, launch_call, app_get_dbus_proxy. intros Hp Hr.
  apply andb_true_iff in Hp as [-> ->]. simpl. rewrite Hr.
  destruct (code =? 0) eqn:E; [|reflexivity].
  apply Z.eqb_eq in E. subst. reflexivity.
Qed.

Lemma emit_trace (ev : Event) (st : State) :
  trace (emit ev st) = trace st ++ [ev].
Proof. reflexivity. Qed.

Lemma sent_messages_app (a b : list Event) :
  sent_messages (a ++ b) = sent_messages a ++ sent_messages b.
Proof.
  induction a as [|ev a IH]; simpl; [reflexivity|].
  destruct ev; simpl; rewrite ?IH; reflexivity.
Qed.

(** [clp_app_mgr_exec] when the daemon reports a running instance. *)
Lemma clp_app_mgr_exec_running (e : Env) (st : State) (application : string)
    (args : list string) (inst : Z) (c : DBusConnection) :
  va_list_by_value e = true ->
  shutdown_flag st = false ->
  proxy_ok e = true ->
  dbus_bus_get e = Some c ->
  dbus_message_new_signal_ok e (app_objectpath application)
    (app_interface application) "exec" = true ->
  dbus_connection_send_ok e = true ->
  Z.of_nat (length args) < NAME_SIZE ->
  daemon_reports e st application inst (APPMGR_ERROR_APP_ALREADY_RUNNING e) ->
  exists st',
    clp_app_mgr_exec e application args st = Some (CLP_APP_MGR_SUCCESS, st')
    /\ trace st'
       = trace st
         ++ forwarded_launch (clp_app_mgr_get_app_id application st)
              (va_args_string args) c application args.
Proof.
  intros Hva Hs Hp Hb Hn Hsend Hlen Hd.
  unfold clp_app_mgr_exec, ClpAppMgrAppLaunchWithArgs, va_list_after_call.
  unfold shutdown_flag in Hs. rewrite Hs, Hva.
  fold (va_args_string args).
  rewrite (launch_call_reply e _ 0 None _ st inst _ Hp (Hd _)).
  rewrite Z.eqb_refl, !concat3.
  rewrite collect_params_ok by (unfold NAME_SIZE in *; lia).
  fold (app_interface application) (app_objectpath application).
  cbn [CLP_APP_MGR_DBUS_SIGNAL_EXEC]. unfold CLP_APP_MGR_DBUS_SIGNAL_EXEC.
  rewrite Hn, Hb. simpl negb. cbv iota.
  unfold dbus_connection_send. rewrite Hsend. simpl negb. cbv iota.
  eexists. split; [reflexivity|].
  unfold dbus_connection_flush. rewrite !emit_trace.
  unfold forwarded_launch, forwarded_signal, new_signal, inbound_signal.
  rewrite uint32_small by (unfold NAME_SIZE in *; lia).
  rewrite <- !app_assoc. reflexivity.
Qed.

(** The va_list variant is the variadic variant, word for word. *)
Lemma clp_app_mgr_exec_application_eq (e : Env) (application : string)
    (args : list string) (st : State) :
  clp_app_mgr_exec_application e application args st
  = clp_app_mgr_exec e application args st.
Proof. reflexivity. Qed.

(** [clp_app_mgr_exec_argv] when the daemon reports a running instance. *)
Lemma clp_app_mgr_exec_argv_running (e : Env) (st : State)
    (application : string) (args : list string) (inst : Z)
    (c : DBusConnection) :
  shutdown_flag st = false ->
  proxy_ok e = true ->
  dbus_bus_get e = Some c ->
  dbus_message_new_signal_ok e (app_objectpath application)
    (app_interface application) "exec" = true ->
  dbus_connection_send_ok e = true ->
  Z.of_nat (length args) < NAME_SIZE ->
  daemon_reports e st application inst (APPMGR_ERROR_APP_ALREADY_RUNNING e) ->
  exists st',
    clp_app_mgr_exec_argv e application (Z.of_nat (length args)) args st
    = Some (CLP_APP_MGR_SUCCESS, st')
    /\ trace st'
       = trace st
         ++ forwarded_launch (clp_app_mgr_get_app_id application st)
              (Some (argv_string args)) c application args.
Proof.
  intros Hs Hp Hb Hn Hsend Hlen Hd.
  unfold clp_app_mgr_exec_argv, ClpAppMgrAppLaunchWithArgv.
  unfold shutdown_flag in Hs. rewrite Hs. rewrite Nat2Z.id.
  pose proof (join_argv_ok [] args "") as Hj. simpl in Hj. rewrite Hj.
  fold (argv_string args).
  rewrite (launch_call_reply e _ 0 None _ st inst _ Hp (Hd _)).
  rewrite Z.eqb_refl, !concat3.
  fold (app_interface application) (app_objectpath application).
  unfold CLP_APP_MGR_DBUS_SIGNAL_EXEC.
  rewrite Hn, Hb. simpl negb. cbv iota.
  pose proof (read_params_ok [] args) as Hr. simpl in Hr. rewrite Hr.
  unfold dbus_connection_send. rewrite Hsend. simpl negb. cbv iota.
  eexists. split; [reflexivity|].
  unfold dbus_connection_flush. rewrite !emit_trace.
  unfold forwarded_launch, forwarded_signal, new_signal, inbound_signal.
  rewrite uint32_small by (unfold NAME_SIZE in *; lia).
  rewrite <- !app_assoc, (Z.add_comm 1). reflexivity.
Qed.

(** A cold launch: the daemon answers with code 0 and a positive
    instance id. *)
Lemma clp_app_mgr_exec_cold (e : Env) (st : State) (application : string)
    (args : list string) (inst : Z) :
  va_list_by_value e = true ->
  shutdown_flag st = false ->
  proxy_ok e = true ->
  APPMGR_ERROR_APP_ALREADY_RUNNING e <> 0 ->
  0 < inst ->
  daemon_reports e st application inst 0 ->
  clp_app_mgr_exec e application args st
  = Some (CLP_APP_MGR_SUCCESS,
          emit (proxy_call "app_launch_call"
                  (clp_app_mgr_get_app_id application st)
                  (va_args_string args) 0) (emit g_bus_get st)).
Proof.
  intros Hva Hs Hp Hne Hinst Hd.
  unfold clp_app_mgr_exec, ClpAppMgrAppLaunchWithArgs, va_list_after_call.
  unfold shutdown_flag in Hs. rewrite Hs, Hva.
  fold (va_args_string args).
  rewrite (launch_call_reply e _ 0 None _ st inst _ Hp (Hd _)).
  destruct (0 =? APPMGR_ERROR_APP_ALREADY_RUNNING e) eqn:E; [lia|].
  unfold launch_failed. simpl.
  destruct (inst <=? 0) eqn:E'; [lia|]. reflexivity.
Qed.

(** Where the callee walks the caller's own [va_list], the variadic
    variants have no defined result unless the system is shutting down:
    line 441 reads past the closing NULL. *)
Lemma clp_app_mgr_exec_shared_va_list (e : Env) (st : State)
    (application : string) (args : list string) :
  va_list_by_value e = false ->
  shutdown_flag st = false ->
  clp_app_mgr_exec e application args st = None
  /\ clp_app_mgr_exec_application e application args st = None.
Proof.
  intros Hva Hs. unfold shutdown_flag in Hs.
  unfold clp_app_mgr_exec_application, clp_app_mgr_exec,
    ClpAppMgrAppLaunchWithArgs, va_list_after_call.
  rewrite Hs, Hva.
  destruct (launch_call e _ 0 None _ st) as [[rc inst] st'].
  split; reflexivity.
Qed.

Lemma clp_app_mgr_exec_argv_cold (e : Env) (st : State)
    (application : string) (args : list string) (inst : Z) :
  shutdown_flag st = false ->
  proxy_ok e = true ->
  APPMGR_ERROR_APP_ALREADY_RUNNING e <> 0 ->
  0 < inst ->
  daemon_reports e st application inst 0 ->
  clp_app_mgr_exec_argv e application (Z.of_nat (length args)) args st
  = Some (CLP_APP_MGR_SUCCESS,
          emit (proxy_call "app_launch_call"
                  (clp_app_mgr_get_app_id application st)
                  (Some (argv_string args)) 0) (emit g_bus_get st)).
Proof.
  intros Hs Hp Hne Hinst Hd.
  unfold clp_app_mgr_exec_argv, ClpAppMgrAppLaunchWithArgv.
  unfold shutdown_flag in Hs. rewrite Hs. rewrite Nat2Z.id.
  pose proof (join_argv_ok [] args "") as Hj. simpl in Hj. rewrite Hj.
  fold (argv_string args).
  rewrite (launch_call_reply e _ 0 None _ st inst _ Hp (Hd _)).
  destruct (0 =? APPMGR_ERROR_APP_ALREADY_RUNNING e) eqn:E; [lia|].
  unfold launch_failed. simpl.
  destruct (inst <=? 0) eqn:E'; [lia|]. reflexivity.
Qed.

Lemma launch_variants_running (e : Env) (st : State) (application : string)
    (args : list string) (inst : Z) (c : DBusConnection) launch :
  va_list_by_value e = true ->
  shutdown_flag st = false ->
  proxy_ok e = true ->
  dbus_bus_get e = Some c ->
  dbus_message_new_signal_ok e (app_objectpath application)
    (app_interface application) "exec" = true ->
  dbus_connection_send_ok e = true ->
  Z.of_nat (length args) < NAME_SIZE ->
  daemon_reports e st application inst (APPMGR_ERROR_APP_ALREADY_RUNNING e) ->
  In launch (launch_variants e application args) ->
  exists st',
    launch st = Some (CLP_APP_MGR_SUCCESS, st')
    /\ sent_messages (trace st')
       = sent_messages (trace st)
         ++ [forwarded_signal (app_objectpath application)
               (app_interface application) "exec" application args].
Proof.
  intros Hva Hs Hp Hb Hn Hsend Hlen Hd Hin.
  destruct (clp_app_mgr_exec_running e st application args inst c
              Hva Hs Hp Hb Hn Hsend Hlen Hd) as (s1 & E1 & T1).
  destruct (clp_app_mgr_exec_argv_running e st application args inst c
              Hs Hp Hb Hn Hsend Hlen Hd) as (s2 & E2 & T2).
  simpl in Hin. destruct Hin as [<-|[<-|[<-|[]]]].
  - exists s1. split; [exact E1|].
    rewrite T1, sent_messages_app. reflexivity.
  - exists s1. split; [exact E1|].
    rewrite T1, sent_messages_app. reflexivity.
  - exists s2. split; [exact E2|].
    rewrite T2, sent_messages_app. reflexivity.
Qed.

Lemma launch_variants_cold (e : Env) (st : State) (application : string)
    (args : list string) (inst : Z) launch :
  va_list_by_value e = true ->
  shutdown_flag st = false ->
  proxy_ok e = true ->
  APPMGR_ERROR_APP_ALREADY_RUNNING e <> 0 ->
  0 < inst ->
  daemon_reports e st application inst 0 ->
  In launch (launch_variants e application args) ->
  exists st',
    launch st = Some (CLP_APP_MGR_SUCCESS, st')
    /\ sent_messages (trace st') = sent_messages (trace st).
Proof.
  intros Hva Hs Hp Hne Hinst Hd Hin.
  pose proof (clp_app_mgr_exec_cold e st application args inst
                Hva Hs Hp Hne Hinst Hd) as E1.
  pose proof (clp_app_mgr_exec_argv_cold e st application args inst
                Hs Hp Hne Hinst Hd) as E2.
  simpl in Hin. destruct Hin as [<-|[<-|[<-|[]]]].
  - eexists. split; [exact E1|].
    rewrite !emit_trace, !sent_messages_app, !app_nil_r. reflexivity.
  - eexists. split; [exact E1|].
    rewrite !emit_trace, !sent_messages_app, !app_nil_r. reflexivity.
  - eexists. split; [exact E2|].
    rewrite !emit_trace, !sent_messages_app, !app_nil_r. reflexivity.
Qed.

(** Where the ABI copies the [va_list] for the callee and there are fewer
    than [NAME_SIZE] arguments: when the daemon reports AlreadyRunning,
    each launch variant puts exactly one message on the bus, the exec
    signal to the target's single-instance address with payload
    [(1 + length args, application :: args)], and returns success; on a
    cold launch (code 0, positive instance id) the call returns success
    and no message is put on the bus. *)
Lemma launch_forwards_by_value (e : Env) (st : State) (application : string)
    (args : list string) (inst : Z) (c : DBusConnection) :
  va_list_by_value e = true ->
  shutdown_flag st = false ->
  proxy_ok e = true ->
  dbus_bus_get e = Some c ->
  dbus_message_new_signal_ok e (app_objectpath application)
    (app_interface application) "exec" = true ->
  dbus_connection_send_ok e = true ->
  Z.of_nat (length args) < NAME_SIZE ->
  let exec_signal :=
    forwarded_signal (app_objectpath application)
      (app_interface application) "exec" application args in
  (daemon_reports e st application inst (APPMGR_ERROR_APP_ALREADY_RUNNING e) ->
   forall launch,
     In launch (launch_variants e application args) ->
     exists st',
       launch st = Some (CLP_APP_MGR_SUCCESS, st')
       /\ sent_messages (trace st')
          = sent_messages (trace st) ++ [exec_signal])
  /\ (APPMGR_ERROR_APP_ALREADY_RUNNING e <> 0 ->
      0 < inst ->
      daemon_reports e st application inst 0 ->
      forall launch,
        In launch (launch_variants e application args) ->
        exists st',
          launch st = Some (CLP_APP_MGR_SUCCESS, st')
          /\ sent_messages (trace st') = sent_messages (trace st))
  /\ msg_args
       (forwarded_signal (app_objectpath "calendar")
          (app_interface "calendar") "exec" "calendar" ["2024-01-01"])
     = [DBUS_TYPE_UINT32 2; DBUS_TYPE_ARRAY ["calendar"; "2024-01-01"]].
Proof.
  intros Hva Hs Hp Hb Hn Hsend Hlen exec_signal. split; [|split].
  - intros Hd launch Hin.
    exact (launch_variants_running e st application args inst c launch
             Hva Hs Hp Hb Hn Hsend Hlen Hd Hin).
  - intros Hne Hinst Hd launch Hin.
    exact (launch_variants_cold e st application args inst launch
             Hva Hs Hp Hne Hinst Hd Hin).
  - reflexivity.
Qed.

(** C4: the variadic launch calls do not keep the claim.
    [clp_app_mgr_exec] and [clp_app_mgr_exec_application] hand their
    [va_list] to [ClpAppMgrAppLaunchWithArgs], which reads it up to the
    closing NULL, and then read an argument from it themselves (lines 441
    and 622).  Where the callee has walked the caller's own list (the
    [va_list] is an array type), that read is past the closing NULL: with
    the daemon reporting AlreadyRunning the two calls have no defined
    result, so no exec signal is promised, whatever the arguments.  The
    sibling [clp_app_mgr_exec_argv] does in the same world what the claim
    says: one exec signal with payload
    [(1 + length args, application :: args)]. *)
Theorem C4_variadic_launch_undefined (e : Env) (st : State)
    (application : string) (args : list string) (inst : Z)
    (c : DBusConnection) :
  va_list_by_value e = false ->
  shutdown_flag st = false ->
  proxy_ok e = true ->
  dbus_bus_get e = Some c ->
  dbus_message_new_signal_ok e (app_objectpath application)
    (app_interface application) "exec" = true ->
  dbus_connection_send_ok e = true ->
  Z.of_nat (length args) < NAME_SIZE ->
  daemon_reports e st application inst (APPMGR_ERROR_APP_ALREADY_RUNNING e) ->
  clp_app_mgr_exec e application args st = None
  /\ clp_app_mgr_exec_application e application args st = None
  /\ exists st',
       clp_app_mgr_exec_argv e application (Z.of_nat (length args)) args st
       = Some (CLP_APP_MGR_SUCCESS, st')
       /\ sent_messages (trace st')
          = sent_messages (trace st)
            ++ [inbound_signal (app_objectpath application)
                  (app_interface application) "exec"
                  [DBUS_TYPE_UINT32 (1 + Z.of_nat (length args));
                   DBUS_TYPE_ARRAY (application :: args)]].
Proof.
  intros Hva Hs Hp Hb Hn Hsend Hlen Hd.
  destruct (clp_app_mgr_exec_shared_va_list e st application args Hva Hs)
    as [H1 H2].
  split; [exact H1|]. split; [exact H2|].
  destruct (clp_app_mgr_exec_argv_running e st application args inst c
              Hs Hp Hb Hn Hsend Hlen Hd) as (st' & E & T).
  exists st'. split; [exact E|].
  rewrite T, sent_messages_app. reflexivity.
Qed.

Lemma C4_variadic_launch_undefined_witness :
  clp_app_mgr_exec Sample.running_shared_va_list "calendar" ["2024-01-01"]
    (initial_state Sample.registry) = None
  /\ clp_app_mgr_exec_application Sample.running_shared_va_list "calendar"
       ["2024-01-01"] (initial_state Sample.registry) = None
  /\ exists st',
       clp_app_mgr_exec_argv Sample.running_shared_va_list "calendar"
         (Z.of_nat (length ["2024-01-01"])) ["2024-01-01"]
         (initial_state Sample.registry)
       = Some (CLP_APP_MGR_SUCCESS, st')
       /\ sent_messages (trace st')
          = sent_messages (trace (initial_state Sample.registry))
            ++ [inbound_signal (app_objectpath "calendar")
                  (app_interface "calendar") "exec"
                  [DBUS_TYPE_UINT32 (1 + Z.of_nat (length ["2024-01-01"]));
                   DBUS_TYPE_ARRAY ["calendar"; "2024-01-01"]]].
Proof.
  apply (C4_variadic_launch_undefined Sample.running_shared_va_list
           (initial_state Sample.registry) "calendar" ["2024-01-01"] 5
           1%nat); try reflexivity.
  intros a. reflexivity.
Defined.

(** C5: while the shutdown flag of the registry is set, every launch
    variant returns the failure code at once and leaves the state, hence
    the trace, untouched: the daemon is not called and no signal is sent.
    (The launch helpers return -1 for the shutdown; the public calls turn
    it into [CLP_APP_MGR_FAILURE].) *)
Theorem C5_shutdown_no_traffic (e : Env) (st : State) (application : string)
    (args : list string) (no_of_params : Z) (params_list : list string) :
  shutdown_flag st = true ->
  APPMGR_ERROR_APP_ALREADY_RUNNING e <> -1 ->
  clp_app_mgr_exec e application args st = Some (CLP_APP_MGR_FAILURE, st)
  /\ clp_app_mgr_exec_application e application args st
     = Some (CLP_APP_MGR_FAILURE, st)
  /\ clp_app_mgr_exec_argv e application no_of_params params_list st
     = Some (CLP_APP_MGR_FAILURE, st)
  /\ (forall app_id md inst_id,
        ClpAppMgrAppLaunchWithArgs e app_id md inst_id args st
        = (-1, inst_id, Some args, st)
        /\ ClpAppMgrAppLaunchWithArgv e app_id md inst_id no_of_params
             params_list st
           = Some (-1, inst_id, st)).
Proof.
  intros Hs Hne. unfold shutdown_flag in Hs.
  assert (Hexec : clp_app_mgr_exec e application args st
                  = Some (CLP_APP_MGR_FAILURE, st)).
  { unfold clp_app_mgr_exec, ClpAppMgrAppLaunchWithArgs,
      va_list_after_call. rewrite Hs.
    destruct (-1 =? APPMGR_ERROR_APP_ALREADY_RUNNING e) eqn:E; [lia|].
    destruct (va_list_by_value e); reflexivity. }
  split; [exact Hexec|]. split; [exact Hexec|]. split.
  - unfold clp_app_mgr_exec_argv, ClpAppMgrAppLaunchWithArgv. rewrite Hs.
    destruct (-1 =? APPMGR_ERROR_APP_ALREADY_RUNNING e) eqn:E; [lia|].
    reflexivity.
  - intros app_id md inst_id.
    unfold ClpAppMgrAppLaunchWithArgs, ClpAppMgrAppLaunchWithArgv.
    rewrite Hs. split; reflexivity.
Qed.

Lemma C5_shutdown_no_traffic_witness :
  shutdown_flag (initial_state Sample.shutting_down) = true
  /\ clp_app_mgr_exec Sample.running "calendar" ["2024-01-01"]
       (initial_state Sample.shutting_down)
     = Some (CLP_APP_MGR_FAILURE, initial_state Sample.shutting_down).
Proof.
  split; [reflexivity|].
  exact (proj1 (C5_shutdown_no_traffic Sample.running
                  (initial_state Sample.shutting_down) "calendar"
                  ["2024-01-01"] 1 ["2024-01-01"] eq_refl
                  ltac:(discriminate))).
Defined.

(** C7 fails on the code: for launch ("calendar", ["2024-01-01"]) the
    variadic and the va_list variants hand the daemon the argument string
    "2024-01-01", the argc/argv variant hands it the delimiter byte
    followed by "2024-01-01"; without arguments the former pass NULL and
    the latter the empty string.  The exec signal sent on AlreadyRunning is
    the same in the three. *)
Theorem C7_launch_strings_differ :
  let st := initial_state Sample.registry in
  let signal :=
    inbound_signal "/org/clp/appmanager/calendar"
      "org.clp.appmanager.calendar" "exec"
      [DBUS_TYPE_UINT32 2; DBUS_TYPE_ARRAY ["calendar"; "2024-01-01"]] in
  let trace_of (r : option (Z * State)) :=
    match r with Some (_, st') => trace st' | None => [] end in
  trace_of (clp_app_mgr_exec Sample.running "calendar" ["2024-01-01"] st)
  = [g_bus_get; proxy_call "app_launch_call" 0 (Some "2024-01-01") 0;
     bus_get; connection_send 1%nat signal; connection_flush 1%nat]
  /\ trace_of (clp_app_mgr_exec_application Sample.running "calendar"
                 ["2024-01-01"] st)
     = [g_bus_get; proxy_call "app_launch_call" 0 (Some "2024-01-01") 0;
        bus_get; connection_send 1%nat signal; connection_flush 1%nat]
  /\ trace_of (clp_app_mgr_exec_argv Sample.running "calendar" 1
                 ["2024-01-01"] st)
     = [g_bus_get;
        proxy_call "app_launch_call" 0 (Some (delim +:+ "2024-01-01")) 0;
        bus_get; connection_send 1%nat signal; connection_flush 1%nat]
  /\ Some "2024-01-01" <> Some (delim +:+ "2024-01-01")
  /\ trace_of (clp_app_mgr_exec Sample.cold "calendar" [] st)
     = [g_bus_get; proxy_call "app_launch_call" 0 None 0]
  /\ trace_of (clp_app_mgr_exec_argv Sample.cold "calendar" 0 [] st)
     = [g_bus_get; proxy_call "app_launch_call" 0 (Some "") 0].
Proof.
  vm_compute. repeat split; try reflexivity. discriminate.
Qed.

(** ** Sending a message *)

(** What [clp_app_mgr_send_message] does on a registered process, for a
    target name that is not empty. *)
Lemma clp_app_mgr_send_message_ok (e : Env) (st : State)
    (c : DBusConnection) (application : string) (args : list string) :
  application <> "" ->
  bus_conn (appclient_context st) = Some c ->
  dbus_message_new_signal_ok e (message_objectpath application)
    (message_interface application) "Message" = true ->
  dbus_connection_send_ok e = true ->
  Z.of_nat (length args) <= MAX_SIZE ->
  clp_app_mgr_send_message e application args st
  = Some (CLP_APP_MGR_SUCCESS,
          emit (connection_send c
                  (forwarded_signal (message_objectpath application)
                     (message_interface application) "Message" application
                     args)) st).
Proof.
  intros Hne Hc Hn Hsend Hlen.
  unfold clp_app_mgr_send_message.
  unfold message_objectpath, message_interface in *.
  assert (Hsplit : exists h t, g_strsplit application ":" = h :: t
                               /\ (length t <= 1)%nat).
  { destruct application as [|ch application]; [contradiction|].
    unfold g_strsplit.
    destruct (split_at ":" (String ch application)) as [h [t|]];
      eexists; eexists; (split; [reflexivity | simpl; lia]). }
  destruct Hsplit as (h & t & Hs & Ht). rewrite Hs in *.
  assert (H1 : strv_nth (h :: t) 1 = Some (nth_error (h :: t) 1)).
  { unfold strv_nth. destruct t; reflexivity. }
  rewrite H1. cbn [strv_nth length Nat.leb].
  cbv zeta in Hn. unfold CLP_APP_MGR_DBUS_SIGNAL_MESSAGE.
  match goal with
  | |- context [negb ?b] => replace b with true by (symmetry; exact Hn)
  end.
  cbn [negb].
  rewrite collect_messages_ok by (unfold MAX_SIZE in *; lia).
  unfold dbus_connection_send. rewrite Hc, Hsend.
  unfold forwarded_signal, new_signal, inbound_signal.
  rewrite uint32_small by (unfold MAX_SIZE in *; lia).
  reflexivity.
Qed.

(** C3, as the code has it: on a registered process, sendMessage with
    target "appY:3" and the single argument "ping" puts exactly one signal
    on the bus; its member is Message, its payload is
    (2, ["appY:3", "ping"]), the count including the prepended name, and
    its interface and object path are those on which a freshly registered
    process with application name "appY" and instance name "appY:3"
    listens. *)
Theorem C3_send_message (e : Env) (st : State) (c : DBusConnection) :
  bus_conn (appclient_context st) = Some c ->
  dbus_message_new_signal_ok e "/org/clp/appmanager/appY3"
    "org.clp.appmanager.appY3" "Message" = true ->
  dbus_connection_send_ok e = true ->
  let m :=
    inbound_signal "/org/clp/appmanager/appY3" "org.clp.appmanager.appY3"
      "Message" [DBUS_TYPE_UINT32 2; DBUS_TYPE_ARRAY ["appY:3"; "ping"]] in
  clp_app_mgr_send_message e "appY:3" ["ping"] st
  = Some (CLP_APP_MGR_SUCCESS, emit (connection_send c m) st)
  /\ sent_messages (trace (emit (connection_send c m) st))
     = sent_messages (trace st) ++ [m]
  /\ (forall (e' : Env) (name : string) (priority : Z)
        (instance : ClpAppMgrInstanceType)
        (registry : gmap string GConfValue),
        let target :=
          (clp_app_mgr_init e' name priority instance
             (initial_state registry)).2 in
        clp_app_mgr_get_name target = Some "appY" ->
        clp_app_mgr_get_instance_name target = Some "appY:3" ->
        dbus_interface target = msg_interface m
        /\ dbus_object target = msg_path m).
Proof.
  intros Hc Hn Hsend m. split; [|split].
  - apply (clp_app_mgr_send_message_ok e st c "appY:3" ["ping"]);
      try assumption; discriminate.
  - rewrite emit_trace, sent_messages_app. reflexivity.
  - intros e' name priority instance registry target Hname Hinst.
    destruct (clp_app_mgr_init_keeps_identity e' name priority instance
                (initial_state registry)) as (Ha & Hi & _ & Hif & Hob & _).
    fold target in Ha, Hi, Hif, Hob.
    unfold clp_app_mgr_get_name in Hname.
    unfold clp_app_mgr_get_instance_name in Hinst.
    assert (Hne : name <> "").
    { intros ->. rewrite Ha in Hname. discriminate Hname. }
    destruct (clp_app_mgr_init_identity_spec e' name
                (initial_state registry) Hne) as (Ha0 & _ & Hi0 & Hif0 & Hob0).
    rewrite Ha, Ha0 in Hname. injection Hname as Hcan.
    rewrite Hi, Hi0, Hcan in Hinst.
    rewrite Hif, Hif0, Hob, Hob0, Hcan.
    change (gconf (initial_state registry)) with registry in *.
    destruct (registry_multi_instance registry "appY");
      [|discriminate Hinst].
    simpl in Hinst. injection Hinst as Hk.
    unfold derive_address. rewrite Hk. split; reflexivity.
Qed.

Lemma C3_send_message_witness :
  bus_conn (appclient_context Sample.appX) = Some 1%nat
  /\ clp_app_mgr_send_message Sample.cold "appY:3" ["ping"] Sample.appX
     = Some (CLP_APP_MGR_SUCCESS,
             emit (connection_send 1%nat
                     (inbound_signal "/org/clp/appmanager/appY3"
                        "org.clp.appmanager.appY3" "Message"
                        [DBUS_TYPE_UINT32 2;
                         DBUS_TYPE_ARRAY ["appY:3"; "ping"]]))
               Sample.appX).
Proof.
  split; [reflexivity|].
  exact (proj1 (C3_send_message Sample.cold Sample.appX 1%nat
                  eq_refl eq_refl eq_refl)).
Defined.

(** C3 as stated fails: the count of the payload is 2, not 1. *)
Lemma C3_counterexample :
  exists st',
    clp_app_mgr_send_message Sample.cold "appY:3" ["ping"] Sample.appX
    = Some (CLP_APP_MGR_SUCCESS, st')
    /\ (exists m,
          sent_messages (trace st') = sent_messages (trace Sample.appX) ++ [m]
          /\ msg_args m
             = [DBUS_TYPE_UINT32 2; DBUS_TYPE_ARRAY ["appY:3"; "ping"]]
          /\ msg_args m
             <> [DBUS_TYPE_UINT32 1; DBUS_TYPE_ARRAY ["appY:3"; "ping"]]).
Proof.
  eexists. split; [vm_compute; reflexivity|].
  eexists. split; [vm_compute; reflexivity|].
  split; [reflexivity | discriminate].
Qed.

(** ** The round trip *)

(** C2, as the code has it: what the exec handler (for a launch forwarded
    to a running instance) and the message handler (for
    [clp_app_mgr_send_message]) receive is the destination name followed
    by the arguments the sender was given, in order and unchanged, with a
    count one above their number; for no arguments, the destination name
    alone with count 1.  This holds for [clp_app_mgr_exec_argv] and
    [clp_app_mgr_send_message] as they are, and for the variadic
    [clp_app_mgr_exec] and [clp_app_mgr_exec_application] where the ABI
    hands their [va_list] to the callee by value: only there do these two
    produce a payload at all. *)
Theorem C2_round_trip (application : string) (args : list string)
    (e_r : Env) (st_r : State) (f : fnptr) :
  Z.of_nat (length args) < NAME_SIZE ->
  (forall (e : Env) (st : State) (inst : Z) (c : DBusConnection),
     shutdown_flag st = false ->
     proxy_ok e = true ->
     dbus_bus_get e = Some c ->
     dbus_message_new_signal_ok e (app_objectpath application)
       (app_interface application) "exec" = true ->
     dbus_connection_send_ok e = true ->
     daemon_reports e st application inst
       (APPMGR_ERROR_APP_ALREADY_RUNNING e) ->
     dbus_interface st_r = app_interface application ->
     exec_callback (appclient_context st_r) = Some f ->
     (exists st' m,
        clp_app_mgr_exec_argv e application (Z.of_nat (length args)) args st
        = Some (CLP_APP_MGR_SUCCESS, st')
        /\ sent_messages (trace st') = sent_messages (trace st) ++ [m]
        /\ message_func e_r m st_r
           = Some (DBUS_HANDLER_RESULT_HANDLED,
                   emit (call_exec f (1 + Z.of_nat (length args))
                           (application :: args)) st_r))
     /\ (va_list_by_value e = true ->
         forall launch,
           In launch [clp_app_mgr_exec e application args;
                      clp_app_mgr_exec_application e application args] ->
           exists st' m,
             launch st = Some (CLP_APP_MGR_SUCCESS, st')
             /\ sent_messages (trace st') = sent_messages (trace st) ++ [m]
             /\ message_func e_r m st_r
                = Some (DBUS_HANDLER_RESULT_HANDLED,
                        emit (call_exec f (1 + Z.of_nat (length args))
                                (application :: args)) st_r)))
  /\ (forall (e : Env) (st : State) (c : DBusConnection),
        application <> "" ->
        bus_conn (appclient_context st) = Some c ->
        dbus_message_new_signal_ok e (message_objectpath application)
          (message_interface application) "Message" = true ->
        dbus_connection_send_ok e = true ->
        dbus_interface st_r = message_interface application ->
        message_callback (appclient_context st_r) = Some f ->
        exists st' m,
          clp_app_mgr_send_message e application args st
          = Some (CLP_APP_MGR_SUCCESS, st')
          /\ sent_messages (trace st') = sent_messages (trace st) ++ [m]
          /\ message_func e_r m st_r
             = Some (DBUS_HANDLER_RESULT_HANDLED,
                     emit (call_message f (1 + Z.of_nat (length args))
                             (application :: args)) st_r)).
Proof.
  intros Hlen.
  assert (Htake : take (Z.to_nat (1 + Z.of_nat (length args)))
                    (application :: args) = application :: args).
  { replace (Z.to_nat (1 + Z.of_nat (length args)))
      with (length (application :: args)) by (simpl; lia).
    apply firstn_all. }
  assert (Hrecv : dbus_interface st_r = app_interface application ->
                  exec_callback (appclient_context st_r) = Some f ->
                  message_func e_r
                    (forwarded_signal (app_objectpath application)
                       (app_interface application) "exec" application args)
                    st_r
                  = Some (DBUS_HANDLER_RESULT_HANDLED,
                          emit (call_exec f (1 + Z.of_nat (length args))
                                  (application :: args)) st_r)).
  { intros Hif Hf. unfold forwarded_signal. rewrite <- Hif.
    rewrite (message_func_exec e_r st_r _ f _ _ Hf);
      [rewrite Htake; reflexivity | lia | cbn [length]; lia]. }
  split.
  - intros e st inst c Hs Hp Hb Hn Hsend Hd Hif Hf. split.
    + destruct (clp_app_mgr_exec_argv_running e st application args inst c
                  Hs Hp Hb Hn Hsend Hlen Hd) as (st' & E & T).
      exists st'; eexists. split; [exact E|].
      split; [rewrite T, sent_messages_app; reflexivity|].
      exact (Hrecv Hif Hf).
    + intros Hva launch Hin.
      destruct (clp_app_mgr_exec_running e st application args inst c
                  Hva Hs Hp Hb Hn Hsend Hlen Hd) as (st' & E & T).
      exists st'; eexists.
      split; [simpl in Hin; destruct Hin as [<-|[<-|[]]]; exact E|].
      split; [rewrite T, sent_messages_app; reflexivity|].
      exact (Hrecv Hif Hf).
  - intros e st c Hne Hc Hn Hsend Hif Hf.
    do 2 eexists. split.
    + apply (clp_app_mgr_send_message_ok e st c application args);
        try assumption. unfold MAX_SIZE, NAME_SIZE in *. lia.
    + split; [rewrite emit_trace, sent_messages_app; reflexivity|].
      unfold forwarded_signal. rewrite <- Hif.
      rewrite (message_func_message e_r st_r _ f _ _ Hf);
        [rewrite Htake; reflexivity | lia | cbn [length]; lia].
Qed.

Lemma C2_round_trip_witness :
  Z.of_nat (length ["ping"]) < NAME_SIZE
  /\ (exists st' m,
        clp_app_mgr_exec_argv Sample.running_shared_va_list "appX"
          (Z.of_nat (length ["ping"])) ["ping"] Sample.appY3
        = Some (CLP_APP_MGR_SUCCESS, st')
        /\ sent_messages (trace st')
           = sent_messages (trace Sample.appY3) ++ [m]
        /\ message_func Sample.cold m Sample.appX
           = Some (DBUS_HANDLER_RESULT_HANDLED,
                   emit (call_exec 7%nat (1 + Z.of_nat (length ["ping"]))
                           ["appX"; "ping"]) Sample.appX))
  /\ exists st' m,
       clp_app_mgr_send_message Sample.cold "appY:3" ["ping"] Sample.appX
       = Some (CLP_APP_MGR_SUCCESS, st')
       /\ sent_messages (trace st')
          = sent_messages (trace Sample.appX) ++ [m]
       /\ message_func Sample.cold m Sample.appY3
          = Some (DBUS_HANDLER_RESULT_HANDLED,
                  emit (call_message 9%nat 2 ["appY:3"; "ping"])
                    Sample.appY3).
Proof.
  split; [reflexivity|]. split.
  - exact (proj1 (proj1 (C2_round_trip "appX" ["ping"] Sample.cold
                           Sample.appX 7%nat eq_refl)
                    Sample.running_shared_va_list Sample.appY3 5 1%nat
                    eq_refl eq_refl eq_refl eq_refl eq_refl
                    (fun _ => eq_refl) eq_refl eq_refl)).
  - exact (proj2 (C2_round_trip "appY:3" ["ping"] Sample.cold Sample.appY3
                    9%nat eq_refl)
             Sample.cold Sample.appX 1%nat ltac:(discriminate) eq_refl
             eq_refl eq_refl eq_refl eq_refl).
Defined.

(** C2 as stated fails: the sender was given ["ping"], the message handler
    of the target receives ["appY:3"; "ping"] with count 2. *)
Lemma C2_counterexample :
  exists st' m st_r,
    clp_app_mgr_send_message Sample.cold "appY:3" ["ping"] Sample.appX
    = Some (CLP_APP_MGR_SUCCESS, st')
    /\ sent_messages (trace st') = sent_messages (trace Sample.appX) ++ [m]
    /\ message_func Sample.cold m Sample.appY3
       = Some (DBUS_HANDLER_RESULT_HANDLED, st_r)
    /\ trace st_r
       = trace Sample.appY3 ++ [call_message 9%nat 2 ["appY:3"; "ping"]]
    /\ ["appY:3"; "ping"] <> ["ping"].
Proof.
  do 3 eexists.
  split; [vm_compute; reflexivity|].
  split; [vm_compute; reflexivity|].
  split; [vm_compute; reflexivity|].
  split; [reflexivity | discriminate].
Qed.

(** The two launch helpers never hand the same string to the daemon: for
    a non-empty argument list the string of the argc/argv helper is one
    byte longer, for the empty list it is the empty string against NULL. *)
Lemma string_length_append (a b : string) :
  String.length (a +:+ b) = (String.length a + String.length b)%nat.
Proof. induction a as [|c a IH]; simpl; [reflexivity | now rewrite IH]. Qed.

Lemma join_va_args_length (rest : list string) (args : string) :
  String.length (join_va_args args rest)
  = (String.length args
     + list_sum (map (fun p => S (String.length p)) rest))%nat.
Proof.
  revert args; induction rest as [|p rest IH]; intros args; simpl; [lia|].
  rewrite IH, !string_length_append. simpl. lia.
Qed.

Lemma argv_fold_length (params : list string) (args : string) :
  String.length (fold_left (fun a p => a +:+ delim +:+ p) params args)
  = (String.length args
     + list_sum (map (fun p => S (String.length p)) params))%nat.
Proof.
  revert args; induction params as [|p params IH]; intros args; simpl; [lia|].
  rewrite IH, !string_length_append. simpl. lia.
Qed.

Lemma launch_strings_never_agree (args : list string) :
  va_args_string args <> Some (argv_string args).
Proof.
  destruct args as [|v rest]; [discriminate|].
  unfold va_args_string, argv_string. intros H. injection H as H.
  apply (f_equal String.length) in H.
  simpl in H. rewrite join_va_args_length, argv_fold_length in H.
  rewrite ?string_length_append in H. simpl in H. lia.
Qed.

(** * Further properties of the code *)

(** ** The dispatch filter, rule by rule *)

Lemma dbus_message_is_signal_false (msg : DBusMessage)
    (interface signal_name : string) :
  is_signal_type (msg_type msg) = false
  \/ msg_member msg <> signal_name
  \/ msg_interface msg <> interface ->
  dbus_message_is_signal msg interface signal_name = false.
Proof.
  unfold dbus_message_is_signal. intros [H|[H|H]].
  - rewrite H. reflexivity.
  - apply String.eqb_neq in H. rewrite H. apply andb_false_iff.
    left. apply andb_false_r.
  - apply String.eqb_neq in H. rewrite H. apply andb_false_r.
Qed.

Lemma dbus_message_is_signal_true (msg : DBusMessage)
    (interface signal_name : string) :
  dbus_message_is_signal msg interface signal_name = true ->
  is_signal_type (msg_type msg) = true
  /\ msg_member msg = signal_name /\ msg_interface msg = interface.
Proof.
  unfold dbus_message_is_signal. intros H.
  apply andb_true_iff in H as [H Hi]. apply andb_true_iff in H as [Ht Hm].
  apply String.eqb_eq in Hi, Hm. auto.
Qed.

Lemma message_func_unmatched (e : Env) (msg : DBusMessage) (st : State) :
  is_signal_type (msg_type msg) = false
  \/ ~ In (msg_member msg) known_members
  \/ (msg_interface msg <> dbus_interface st
      /\ msg_interface msg <> CLP_APP_MGR_DBUS_INTERFACE
      /\ msg_interface msg <> CLP_WIN_MGR_DBUS_INTERFACE) ->
  message_func e msg st = Some (DBUS_HANDLER_RESULT_NOT_YET_HANDLED, st).
Proof.
  intros H.
  assert (F : forall interface signal_name,
             In signal_name known_members ->
             interface = dbus_interface st
             \/ interface = CLP_APP_MGR_DBUS_INTERFACE
             \/ interface = CLP_WIN_MGR_DBUS_INTERFACE ->
             dbus_message_is_signal msg interface signal_name = false).
  { intros interface signal_name Hm Hi.
    apply dbus_message_is_signal_false.
    destruct H as [H|[H|(H1 & H2 & H3)]]; [left; exact H | |].
    - right; left. intros E. apply H. rewrite E. exact Hm.
    - right; right. destruct Hi as [->|[->| ->]]; assumption. }
  unfold message_func.
  rewrite (F (dbus_interface st) CLP_APP_MGR_DBUS_SIGNAL_STOP)
    by (unfold known_members; simpl; auto 10).
  unfold message_func_chain.
  rewrite !F; try reflexivity; unfold known_members; simpl; auto 10.
Qed.

(** X1: a message that is not a signal, or whose member is none of the
    seven the filter knows, or whose interface is neither the process's
    own nor one of the two well-known ones, is reported
    [DBUS_HANDLER_RESULT_NOT_YET_HANDLED]; no handler is called and the
    state is left as it was. *)
Theorem X1_unmatched_not_handled (e : Env) (msg : DBusMessage) (st : State) :
  is_signal_type (msg_type msg) = false
  \/ ~ In (msg_member msg) known_members
  \/ (msg_interface msg <> dbus_interface st
      /\ msg_interface msg <> CLP_APP_MGR_DBUS_INTERFACE
      /\ msg_interface msg <> CLP_WIN_MGR_DBUS_INTERFACE) ->
  message_func e msg st = Some (DBUS_HANDLER_RESULT_NOT_YET_HANDLED, st).
Proof.
  intros H.
  assert (F : forall interface signal_name,
             In signal_name known_members ->
             interface = dbus_interface st
             \/ interface = CLP_APP_MGR_DBUS_INTERFACE
             \/ interface = CLP_WIN_MGR_DBUS_INTERFACE ->
             dbus_message_is_signal msg interface signal_name = false).
  { intros interface signal_name Hm Hi.
    apply dbus_message_is_signal_false.
    destruct H as [H|[H|(H1 & H2 & H3)]]; [left; exact H | |].
    - right; left. intros E. apply H. rewrite E. exact Hm.
    - right; right. destruct Hi as [->|[->| ->]]; assumption. }
  unfold message_func.
  rewrite (F (dbus_interface st) CLP_APP_MGR_DBUS_SIGNAL_STOP)
    by (unfold known_members; simpl; auto 10).
  unfold message_func_chain.
  rewrite !F; try reflexivity; unfold known_members; simpl; auto 10.
Qed.

Lemma X1_unmatched_not_handled_witness :
  message_func Sample.cold
    (inbound_signal "/org/clp/appmanager/appX" "org.clp.appmanager.appX"
       "pause" []) Sample.appX
  = Some (DBUS_HANDLER_RESULT_NOT_YET_HANDLED, Sample.appX).
Proof.
  apply (X1_unmatched_not_handled Sample.cold _ Sample.appX).
  right; left. vm_compute. intuition discriminate.
Defined.

Lemma string_take_length (k : nat) (s : string) :
  String.length (string_take k s) = Nat.min k (String.length s).
Proof.
  revert s; induction k as [|k IH]; intros s; [reflexivity|].
  destruct s as [|c s]; simpl; [reflexivity | now rewrite IH].
Qed.

Lemma g_strlcat_length (dest : string) (src : cstr) (size : Z) :
  (String.length dest <= String.length (g_strlcat dest src size))%nat
  /\ (Z.of_nat (String.length dest) < size ->
      Z.of_nat (String.length (g_strlcat dest src size)) < size).
Proof.
  unfold g_strlcat. destruct src as [s|]; [|split; [lia | auto]].
  destruct (size <=? Z.of_nat (String.length dest)) eqn:E;
    [split; [lia | auto]|].
  rewrite string_length_append, string_take_length. split; lia.
Qed.

Lemma g_strlcat_grows (dest : string) (c : ascii) (s : string) (size : Z) :
  Z.of_nat (String.length dest) + 1 < size ->
  (S (String.length dest)
   <= String.length (g_strlcat dest (Some (String c s)) size))%nat.
Proof.
  intros H. unfold g_strlcat.
  destruct (size <=? Z.of_nat (String.length dest)) eqn:E; [lia|].
  rewrite string_length_append, string_take_length. simpl. lia.
Qed.

(** The interface buffer after the identity part of a registration: it
    has grown by the ['.'] at least, unless it was full, and it stays
    inside its [MAX_SIZE] bytes. *)
Lemma clp_app_mgr_init_interface_length (e : Env) (name : string)
    (priority : Z) (instance : ClpAppMgrInstanceType) (st : State) :
  let st' := (clp_app_mgr_init e name priority instance st).2 in
  (Nat.min (S (String.length (dbus_interface st))) 255
   <= String.length (dbus_interface st'))%nat
  /\ (Z.of_nat (String.length (dbus_interface st)) < MAX_SIZE ->
      Z.of_nat (String.length (dbus_interface st')) < MAX_SIZE)
  /\ (Z.of_nat (String.length (dbus_object st)) < MAX_SIZE ->
      Z.of_nat (String.length (dbus_object st')) < MAX_SIZE).
Proof.
  intros st'.
  destruct (clp_app_mgr_init_keeps_identity e name priority instance st)
    as (_ & _ & _ & Hif & Hob & _).
  fold st' in Hif, Hob. rewrite Hif, Hob. clear Hif Hob st'.
  unfold clp_app_mgr_init_identity. cbn [dbus_interface dbus_object].
  set (a := g_strdup (nth_error (g_strsplit name ".") 0)).
  set (i1 := g_strlcat (dbus_interface st) (Some ".") MAX_SIZE).
  set (o1 := g_strlcat (dbus_object st) (Some "/") MAX_SIZE).
  match goal with
  | |- context [if ?b then _ else _] => destruct b
  end.
  - match goal with
    | |- context [g_strlcat (g_strlcat i1 a MAX_SIZE) ?id MAX_SIZE] =>
        set (idc := id)
    end.
    pose proof (g_strlcat_length (g_strlcat i1 a MAX_SIZE) idc MAX_SIZE)
      as [G3 B3].
    pose proof (g_strlcat_length (g_strlcat o1 a MAX_SIZE) idc MAX_SIZE)
      as [_ C3].
    pose proof (g_strlcat_length i1 a MAX_SIZE) as [G2 B2].
    pose proof (g_strlcat_length o1 a MAX_SIZE) as [_ C2].
    pose proof (g_strlcat_length (dbus_interface st) (Some ".") MAX_SIZE)
      as [G1 B1].
    pose proof (g_strlcat_length (dbus_object st) (Some "/") MAX_SIZE)
      as [_ C1].
    fold i1 in G1, B1. fold o1 in C1.
    split; [|split; [intros H; auto | intros H; auto]].
    destruct (Z_lt_dec (Z.of_nat (String.length (dbus_interface st)) + 1)
                MAX_SIZE) as [L|L].
    + pose proof (g_strlcat_grows (dbus_interface st) "." "" MAX_SIZE L)
        as G. fold i1 in G. lia.
    + unfold MAX_SIZE in L. lia.
  - pose proof (g_strlcat_length i1 a MAX_SIZE) as [G2 B2].
    pose proof (g_strlcat_length o1 a MAX_SIZE) as [_ C2].
    pose proof (g_strlcat_length (dbus_interface st) (Some ".") MAX_SIZE)
      as [G1 B1].
    pose proof (g_strlcat_length (dbus_object st) (Some "/") MAX_SIZE)
      as [_ C1].
    fold i1 in G1, B1. fold o1 in C1.
    split; [|split; [intros H; auto | intros H; auto]].
    destruct (Z_lt_dec (Z.of_nat (String.length (dbus_interface st)) + 1)
                MAX_SIZE) as [L|L].
    + pose proof (g_strlcat_grows (dbus_interface st) "." "" MAX_SIZE L)
        as G. fold i1 in G. lia.
    + unfold MAX_SIZE in L. lia.
Qed.

(** C9: the derivation is not deterministic in (name, instance id).
    [clp_app_mgr_init] appends to the two static buffers instead of
    building the addresses from the well-known interface and object path:
    a second registration in the same process, with the same name and
    the same instance id, leaves an interface that differs from the one
    the first registration left (as long as the buffer has room).  For
    "appX" the first registration gives org.clp.appmanager.appX, the one
    every sender computes, and the second gives
    org.clp.appmanager.appX.appX, on which the exec signal forwarded for
    "appX" is no longer received.  Nor is the instance type the caller's:
    the [instance] argument is not read, so "appY", multi-instance in the
    registry with last instance 3, registered as [CLP_APP_MGR_SINGLE]
    gets the instance name appY:3, and an application unknown to the
    registry registered as [CLP_APP_MGR_MULTIPLE] gets its plain name. *)
Theorem C9_registration_not_deterministic (e : Env) (name : string)
    (priority : Z) (instance instance' : ClpAppMgrInstanceType)
    (st : State) :
  let first := (clp_app_mgr_init e name priority instance st).2 in
  let second := (clp_app_mgr_init e name priority instance first).2 in
  ((String.length (dbus_interface first) < 255)%nat ->
   dbus_interface second <> dbus_interface first)
  /\ clp_app_mgr_init e name priority instance' st
     = clp_app_mgr_init e name priority instance st
  /\ (let appX1 :=
        (clp_app_mgr_init Sample.cold "appX" 10 CLP_APP_MGR_SINGLE
           (initial_state Sample.registry)).2 in
      let appX2 :=
        clp_app_mgr_register_exec_handler (Some 7%nat)
          (clp_app_mgr_init Sample.cold "appX" 10 CLP_APP_MGR_SINGLE
             appX1).2 in
      dbus_interface appX1 = app_interface "appX"
      /\ dbus_interface appX2 = "org.clp.appmanager.appX.appX"
      /\ dbus_object appX2 = "/org/clp/appmanager/appX/appX"
      /\ clp_app_mgr_get_instance_name appX1 = Some "appX"
      /\ clp_app_mgr_get_instance_name appX2 = Some "appX"
      /\ inst_id (appclient_context appX2) = inst_id (appclient_context appX1)
      /\ message_func Sample.cold
           (forwarded_signal (app_objectpath "appX") (app_interface "appX")
              "exec" "appX" ["a"]) appX2
         = Some (DBUS_HANDLER_RESULT_NOT_YET_HANDLED, appX2))
  /\ clp_app_mgr_get_instance_name
       (clp_app_mgr_init Sample.cold "appY" 10 CLP_APP_MGR_SINGLE
          (initial_state Sample.registry)).2 = Some "appY:3"
  /\ clp_app_mgr_get_instance_name
       (clp_app_mgr_init Sample.cold "fresh" 10 CLP_APP_MGR_MULTIPLE
          (initial_state Sample.registry)).2 = Some "fresh".
Proof.
  intros first second. split; [|split; [reflexivity|]].
  - intros Hroom E.
    destruct (clp_app_mgr_init_interface_length e name priority instance
                first) as (G & _ & _).
    fold second in G. rewrite E in G. lia.
  - split; [|split]; vm_compute; repeat split; reflexivity.
Qed.

Lemma C9_registration_not_deterministic_witness :
  dbus_interface
    (clp_app_mgr_init Sample.cold "appX" 10 CLP_APP_MGR_SINGLE
       (clp_app_mgr_init Sample.cold "appX" 10 CLP_APP_MGR_SINGLE
          (initial_state Sample.registry)).2).2
  <> dbus_interface
       (clp_app_mgr_init Sample.cold "appX" 10 CLP_APP_MGR_SINGLE
          (initial_state Sample.registry)).2.
Proof.
  apply (C9_registration_not_deterministic Sample.cold "appX" 10
           CLP_APP_MGR_SINGLE CLP_APP_MGR_MULTIPLE
           (initial_state Sample.registry)).
  vm_compute. lia.
Defined.

Ltac break_match_in H :=
  repeat match type of H with
  | context [match ?x with _ => _ end] => destruct x eqn:?
  end.

(** The chain alone calls at most one handler. *)
Lemma message_func_chain_one_callback (e : Env) (msg : DBusMessage)
    (st : State) (r : DBusHandlerResult) (st' : State) :
  message_func_chain e msg st = Some (r, st') ->
  st' = st \/ exists ev, is_callback ev = true /\ st' = emit ev st.
Proof.
  unfold message_func_chain. intros H.
  break_match_in H; inversion H; subst;
    first [left; reflexivity
          | right; eexists; split; [|reflexivity]; reflexivity].
Qed.

Lemma message_func_one_callback (e : Env) (msg : DBusMessage) (st : State)
    (r : DBusHandlerResult) (st' : State) :
  dbus_interface st <> CLP_APP_MGR_DBUS_INTERFACE ->
  message_func e msg st = Some (r, st') ->
  st' = st \/ exists ev, is_callback ev = true /\ st' = emit ev st.
Proof.
  intros Hne. unfold message_func.
  destruct (dbus_message_is_signal msg (dbus_interface st)
              CLP_APP_MGR_DBUS_SIGNAL_STOP) eqn:E;
    [|apply message_func_chain_one_callback].
  apply dbus_message_is_signal_true in E as (Ht & Hm & Hi).
  assert (F : forall s interface signal_name,
             dbus_interface s = dbus_interface st ->
             (interface, signal_name)
             <> (dbus_interface st, CLP_APP_MGR_DBUS_SIGNAL_STOP) ->
             dbus_message_is_signal msg interface signal_name = false).
  { intros s interface signal_name _ Hd.
    apply dbus_message_is_signal_false. rewrite Hm, Hi.
    destruct (string_dec CLP_APP_MGR_DBUS_SIGNAL_STOP signal_name) as [<-|N];
      [|right; left; exact N].
    right; right. intros <-. apply Hd. reflexivity. }
  set (s1 := match stop_callback (appclient_context st) with
             | Some f => emit (call_stop f) st
             | None => st
             end).
  assert (Hs1 : dbus_interface s1 = dbus_interface st)
    by (subst s1; destruct (stop_callback (appclient_context st));
        reflexivity).
  unfold message_func_chain. rewrite Hs1.
  rewrite !(F s1) by (try exact Hs1; intros X; inversion X; congruence).
  intros H. inversion H; subst. subst s1.
  destruct (stop_callback (appclient_context st));
    [right; eexists; split; [|reflexivity]; reflexivity | left; reflexivity].
Qed.

(** X2: a registration leaves an interface buffer that is not the
    well-known app-manager interface (it has grown by a ['.'] at least),
    whatever the name and however often the process has registered
    before; and with such an interface the filter calls at most one
    handler per message, so that no stop signal is delivered twice. *)
Theorem X2_one_callback_per_message (e : Env) (name : string) (priority : Z)
    (instance : ClpAppMgrInstanceType) (st0 : State) :
  (String.length CLP_APP_MGR_DBUS_INTERFACE
   <= String.length (dbus_interface st0))%nat ->
  let st := (clp_app_mgr_init e name priority instance st0).2 in
  (String.length CLP_APP_MGR_DBUS_INTERFACE
   < String.length (dbus_interface st))%nat
  /\ dbus_interface st <> CLP_APP_MGR_DBUS_INTERFACE
  /\ (forall (e' : Env) (msg : DBusMessage) (st1 : State)
        (r : DBusHandlerResult) (st' : State),
        dbus_interface st1 = dbus_interface st ->
        message_func e' msg st1 = Some (r, st') ->
        st' = st1 \/ exists ev, is_callback ev = true /\ st' = emit ev st1).
Proof.
  intros Hlen st.
  destruct (clp_app_mgr_init_interface_length e name priority instance st0)
    as (G & _ & _).
  fold st in G. simpl String.length in Hlen |- *.
  assert (L : (18 < String.length (dbus_interface st))%nat) by lia.
  assert (N : dbus_interface st <> CLP_APP_MGR_DBUS_INTERFACE).
  { intros E. rewrite E in L. simpl in L. lia. }
  split; [exact L|]. split; [exact N|].
  intros e' msg st1 r st' Hi.
  apply message_func_one_callback. rewrite Hi. exact N.
Qed.

Lemma X2_one_callback_per_message_witness :
  dbus_interface
    (clp_app_mgr_init Sample.cold "appX" 10 CLP_APP_MGR_SINGLE
       (initial_state Sample.registry)).2
  <> CLP_APP_MGR_DBUS_INTERFACE.
Proof.
  exact (proj1 (proj2
    (X2_one_callback_per_message Sample.cold "appX" 10 CLP_APP_MGR_SINGLE
       (initial_state Sample.registry) ltac:(simpl; lia)))).
Defined.

Lemma message_func_broadcast_stop (e : Env) (st : State) (path : string)
    (args : list DBusArg) (f : fnptr) :
  stop_callback (appclient_context st) = Some f ->
  message_func e
    (inbound_signal path CLP_APP_MGR_DBUS_INTERFACE "stop" args) st
  = Some (DBUS_HANDLER_RESULT_HANDLED,
          if String.eqb (dbus_interface st) CLP_APP_MGR_DBUS_INTERFACE
          then emit (call_stop f) (emit (call_stop f) st)
          else emit (call_stop f) st).
Proof.
  intros Hf. unfold message_func, message_func_chain,
    dbus_message_is_signal. cbn [msg_type msg_member msg_interface
    inbound_signal is_signal_type andb].
  change (String.eqb "stop" CLP_APP_MGR_DBUS_SIGNAL_STOP) with true.
  cbn [andb].
  rewrite (String.eqb_sym CLP_APP_MGR_DBUS_INTERFACE (dbus_interface st)).
  rewrite String.eqb_refl.
  destruct (String.eqb (dbus_interface st) CLP_APP_MGR_DBUS_INTERFACE);
    rewrite Hf; cbn; rewrite ?Hf; reflexivity.
Qed.

(** X3: a stop signal on the well-known app-manager interface (the
    broadcast of a power off) is reported handled and calls the registered
    stop handler once; only a process whose own interface buffer still is
    the well-known interface would have it called twice. *)
Theorem X3_broadcast_stop (e : Env) (st : State) (path : string)
    (args : list DBusArg) (f : fnptr) :
  stop_callback (appclient_context st) = Some f ->
  message_func e
    (inbound_signal path CLP_APP_MGR_DBUS_INTERFACE "stop" args) st
  = Some (DBUS_HANDLER_RESULT_HANDLED,
          if String.eqb (dbus_interface st) CLP_APP_MGR_DBUS_INTERFACE
          then emit (call_stop f) (emit (call_stop f) st)
          else emit (call_stop f) st).
Proof.
  intros Hf. unfold message_func, message_func_chain,
    dbus_message_is_signal. cbn [msg_type msg_member msg_interface
    inbound_signal is_signal_type andb].
  change (String.eqb "stop" CLP_APP_MGR_DBUS_SIGNAL_STOP) with true.
  cbn [andb].
  rewrite (String.eqb_sym CLP_APP_MGR_DBUS_INTERFACE (dbus_interface st)).
  rewrite String.eqb_refl.
  destruct (String.eqb (dbus_interface st) CLP_APP_MGR_DBUS_INTERFACE);
    rewrite Hf; cbn; rewrite ?Hf; reflexivity.
Qed.

Lemma X3_broadcast_stop_witness :
  message_func Sample.cold
    (inbound_signal "/org/clp/appmanager" CLP_APP_MGR_DBUS_INTERFACE "stop"
       []) Sample.appY3
  = Some (DBUS_HANDLER_RESULT_HANDLED, emit (call_stop 8%nat) Sample.appY3).
Proof.
  exact (X3_broadcast_stop Sample.cold Sample.appY3 "/org/clp/appmanager"
           [] 8%nat eq_refl).
Defined.

(** X4: a focus signal of the window manager is always reported handled;
    the focus-gained (focus-lost) handler is called exactly when one is
    registered and the process id in the signal is the one [getpid]
    returns. *)
Theorem X4_focus_only_for_own_pid (e : Env) (st : State) (path : string)
    (p : Z) (rest : list DBusArg) :
  message_func e
    (inbound_signal path CLP_WIN_MGR_DBUS_INTERFACE "UserInteractionGained"
       (DBUS_TYPE_INT32 p :: rest)) st
  = Some (DBUS_HANDLER_RESULT_HANDLED,
          match app_focus_gained_callback (appclient_context st) with
          | Some f => if p =? getpid e then emit (call_focus_gained f) st
                      else st
          | None => st
          end)
  /\ message_func e
       (inbound_signal path CLP_WIN_MGR_DBUS_INTERFACE "UserInteractionLost"
          (DBUS_TYPE_INT32 p :: rest)) st
     = Some (DBUS_HANDLER_RESULT_HANDLED,
             match app_focus_lost_callback (appclient_context st) with
             | Some f => if p =? getpid e then emit (call_focus_lost f) st
                         else st
             | None => st
             end).
Proof.
  split; unfold message_func, message_func_chain, dbus_message_is_signal;
    simpl; rewrite ?andb_false_r; simpl;
    destruct (p =? getpid e);
    [destruct (app_focus_gained_callback (appclient_context st))
    |destruct (app_focus_gained_callback (appclient_context st))
    |destruct (app_focus_lost_callback (appclient_context st))
    |destruct (app_focus_lost_callback (appclient_context st))];
    reflexivity.
Qed.

(** X5: with handlers registered, an exec signal whose count is 0 is
    reported not handled and the exec handler is not called (the
    zero-byte allocation yields NULL), whereas a Message signal whose
    count is 0 calls the message handler with no strings and is reported
    handled. *)
Theorem X5_zero_count (e : Env) (st : State) (path : string)
    (rest : list DBusArg) (f g : fnptr) :
  exec_callback (appclient_context st) = Some f ->
  message_callback (appclient_context st) = Some g ->
  message_func e
    (inbound_signal path (dbus_interface st) "exec"
       (DBUS_TYPE_UINT32 0 :: rest)) st
  = Some (DBUS_HANDLER_RESULT_NOT_YET_HANDLED, st)
  /\ message_func e
       (inbound_signal path (dbus_interface st) "Message"
          (DBUS_TYPE_UINT32 0 :: rest)) st
     = Some (DBUS_HANDLER_RESULT_HANDLED, emit (call_message g 0 []) st).
Proof.
  intros Hf Hg.
  split; unfold message_func, message_func_chain, dbus_message_is_signal,
    decode_params; simpl; rewrite String.eqb_refl, ?Hf, ?Hg; reflexivity.
Qed.

Lemma X5_zero_count_witness :
  let st := clp_app_mgr_register_message_handler (Some 6%nat) Sample.appX in
  message_func Sample.cold
    (inbound_signal "/org/clp/appmanager/appX" (dbus_interface st) "exec"
       [DBUS_TYPE_UINT32 0]) st
  = Some (DBUS_HANDLER_RESULT_NOT_YET_HANDLED, st).
Proof.
  exact (proj1 (X5_zero_count Sample.cold
                  (clp_app_mgr_register_message_handler (Some 6%nat)
                     Sample.appX)
                  "/org/clp/appmanager/appX" [] 7%nat 6%nat eq_refl eq_refl)).
Defined.

(** X6: a signal that matches the exec, AppExit or Message rule while no
    handler is registered for it is reported handled all the same, its
    body unread: whatever the arguments, the state is left as it was. *)
Theorem X6_no_handler_still_handled (e : Env) (st : State) (path : string)
    (args : list DBusArg) :
  (exec_callback (appclient_context st) = None ->
   message_func e (inbound_signal path (dbus_interface st) "exec" args) st
   = Some (DBUS_HANDLER_RESULT_HANDLED, st))
  /\ (death_callback (appclient_context st) = None ->
      message_func e
        (inbound_signal path CLP_APP_MGR_DBUS_INTERFACE "AppExit" args) st
      = Some (DBUS_HANDLER_RESULT_HANDLED, st))
  /\ (message_callback (appclient_context st) = None ->
      message_func e
        (inbound_signal path (dbus_interface st) "Message" args) st
      = Some (DBUS_HANDLER_RESULT_HANDLED, st)).
Proof.
  repeat split; intros H;
    unfold message_func, message_func_chain, dbus_message_is_signal;
    simpl; rewrite ?String.eqb_refl, ?andb_false_r, ?H; simpl;
    rewrite ?H; reflexivity.
Qed.

Lemma X6_no_handler_still_handled_witness :
  message_func Sample.cold
    (inbound_signal "/org/clp/appmanager/appX" (dbus_interface Sample.appX)
       "Message" [DBUS_TYPE_ARRAY ["no count"]]) Sample.appX
  = Some (DBUS_HANDLER_RESULT_HANDLED, Sample.appX).
Proof.
  exact (proj2 (proj2
    (X6_no_handler_still_handled Sample.cold Sample.appX
       "/org/clp/appmanager/appX" [DBUS_TYPE_ARRAY ["no count"]]))
    eq_refl).
Defined.

(** X7: the rotate handler is never called: registering one (or clearing
    it) changes nothing in what the filter does with any message, the
    rotate signal included. *)
Theorem X7_rotate_handler_unused (e : Env) (msg : DBusMessage) (st : State)
    (h : option fnptr) :
  message_func e msg (clp_app_mgr_register_rotate_handler h st)
  = match message_func e msg st with
    | Some (r, st') => Some (r, clp_app_mgr_register_rotate_handler h st')
    | None => None
    end.
Proof.
  destruct st as [c di do g t]. destruct c.
  unfold message_func, message_func_chain,
    clp_app_mgr_register_rotate_handler, with_context, emit.
  remember (dbus_message_is_signal msg) as is_signal.
  remember (decode_params msg) as decoded.
  remember (iter_get_int (msg_args msg)) as first_int.
  cbn [appclient_context dbus_interface stop_callback].
  destruct (is_signal di CLP_APP_MGR_DBUS_SIGNAL_STOP);
    destruct stop_callback0;
    repeat first
      [ progress
          cbv beta iota zeta delta
            [appclient_context dbus_interface dbus_object gconf trace
             stop_callback exec_callback death_callback message_callback
             app_focus_gained_callback app_focus_lost_callback]
      | match goal with
        | |- context [match ?x with _ => _ end] => destruct x eqn:?
        end ];
    reflexivity.
Qed.

(** ** Registration: the success path and the buffers *)

(** X8: when the bus connects, [clp_app_mgr_init] returns
    [CLP_APP_MGR_SUCCESS], stores the connection, sets [init_done], adds
    three match rules (own, app-manager and window-manager interface) and
    then the filter, and clears every handler slot but the post-init one:
    handlers registered before the registration are dropped. *)
Theorem X8_init_success (e : Env) (name : string) (priority : Z)
    (instance : ClpAppMgrInstanceType) (st : State) (c : DBusConnection) :
  dbus_bus_get e = Some c ->
  let r := clp_app_mgr_init e name priority instance st in
  let c' := appclient_context r.2 in
  r.1 = CLP_APP_MGR_SUCCESS
  /\ trace r.2
     = trace st
       ++ [bus_get;
           bus_add_match c (match_rule (dbus_interface r.2));
           bus_add_match c (match_rule CLP_APP_MGR_DBUS_INTERFACE);
           bus_add_match c (match_rule CLP_WIN_MGR_DBUS_INTERFACE);
           connection_add_filter c]
  /\ bus_conn c' = Some c
  /\ init_done c' = true
  /\ stop_callback c' = None /\ exec_callback c' = None
  /\ rotate_callback c' = None /\ death_callback c' = None
  /\ app_focus_gained_callback c' = None
  /\ app_focus_lost_callback c' = None
  /\ message_callback c' = None
  /\ post_init_callback c' = post_init_callback (appclient_context st).
Proof.
  intros Hbus r c'. subst r c'. unfold clp_app_mgr_init. rewrite Hbus.
  cbn [fst snd]. rewrite !emit_trace.
  split; [reflexivity|]. split; [|repeat split].
  change (trace (with_context ?s ?x)) with (trace s).
  cbn [trace with_context emit dbus_interface clp_app_mgr_init_identity].
  rewrite <- !app_assoc. reflexivity.
Qed.

Lemma X8_init_success_witness :
  let st :=
    clp_app_mgr_register_stop_handler (Some 5%nat)
      (initial_state Sample.registry) in
  let r := clp_app_mgr_init Sample.cold "appX" 10 CLP_APP_MGR_SINGLE st in
  stop_callback (appclient_context st) = Some 5%nat
  /\ r.1 = CLP_APP_MGR_SUCCESS
  /\ stop_callback (appclient_context r.2) = None.
Proof.
  pose proof (X8_init_success Sample.cold "appX" 10 CLP_APP_MGR_SINGLE
                (clp_app_mgr_register_stop_handler (Some 5%nat)
                   (initial_state Sample.registry)) 1%nat eq_refl) as H.
  split; [reflexivity|].
  split; [exact (proj1 H) | exact (proj1 (proj2 (proj2 (proj2 (proj2 H)))))].
Defined.

Lemma g_strlcat_fits (dest s : string) (size : Z) :
  Z.of_nat (String.length dest) + Z.of_nat (String.length s) < size ->
  g_strlcat dest (Some s) size = dest +:+ s.
Proof.
  intros H. unfold g_strlcat.
  destruct (size <=? Z.of_nat (String.length dest)) eqn:E; [lia|].
  f_equal.
  assert (G : forall k t, (String.length t <= k)%nat -> string_take k t = t).
  { induction k as [|k IH]; intros [|ch t] L; simpl in *;
      try reflexivity; try lia. rewrite IH by lia. reflexivity. }
  apply G. lia.
Qed.

(** X9: whatever the length of the name, a registration keeps the two
    static buffers inside their [MAX_SIZE] bytes, and a match rule always
    fits its buffer; but the rule is the complete
    [type='signal',interface='...'] only for an interface of at most 229
    bytes: from 230 bytes on the interface or the closing quote is cut
    off. *)
Theorem X9_buffers_and_match_rule (e : Env) (name : string) (priority : Z)
    (instance : ClpAppMgrInstanceType) (st : State) (interface : string) :
  Z.of_nat (String.length (dbus_interface st)) < MAX_SIZE ->
  Z.of_nat (String.length (dbus_object st)) < MAX_SIZE ->
  let st' := (clp_app_mgr_init e name priority instance st).2 in
  let complete := "type='signal',interface='" +:+ interface +:+ "'" in
  Z.of_nat (String.length (dbus_interface st')) < MAX_SIZE
  /\ Z.of_nat (String.length (dbus_object st')) < MAX_SIZE
  /\ Z.of_nat (String.length (match_rule interface)) < MAX_SIZE
  /\ ((String.length interface <= 229)%nat -> match_rule interface = complete)
  /\ ((230 <= String.length interface)%nat ->
      match_rule interface <> complete).
Proof.
  intros Hi Ho st' complete.
  destruct (clp_app_mgr_init_interface_length e name priority instance st)
    as (_ & Bi & Bo).
  fold st' in Bi, Bo.
  assert (Hm : Z.of_nat (String.length (match_rule interface)) < MAX_SIZE).
  { unfold match_rule.
    apply (g_strlcat_length _ (Some "'") MAX_SIZE).
    apply (g_strlcat_length _ (Some interface) MAX_SIZE).
    reflexivity. }
  split; [auto|]. split; [auto|]. split; [exact Hm|]. split.
  - intros L. unfold match_rule, complete.
    rewrite (g_strlcat_fits _ interface) by (simpl; unfold MAX_SIZE; lia).
    rewrite g_strlcat_fits.
    + clear. simpl. reflexivity.
    + rewrite string_length_append. simpl. unfold MAX_SIZE. lia.
  - intros L E. rewrite E in Hm. subst complete.
    rewrite !string_length_append in Hm. simpl in Hm.
    unfold MAX_SIZE in Hm. lia.
Qed.

Lemma X9_buffers_and_match_rule_witness :
  match_rule "org.clp.appmanager.appX"
  = "type='signal',interface='org.clp.appmanager.appX'".
Proof.
  exact (proj1 (proj2 (proj2 (proj2
    (X9_buffers_and_match_rule Sample.cold "appX" 10 CLP_APP_MGR_SINGLE
       (initial_state Sample.registry) "org.clp.appmanager.appX"
       eq_refl eq_refl))))
    ltac:(simpl; lia)).
Defined.

(** X10: [clp_app_mgr_async_init] with a post-registration handler
    returns [CLP_APP_MGR_SUCCESS] and calls the handler even when the bus
    connection failed.  The trace gains the attempt to connect and the
    handler call and nothing else: no match rule, no filter; no connection
    is stored, [init_done] is not set and the other handler slots are as
    they were.  What the identity part of [clp_app_mgr_init] writes before
    it tries to connect is written all the same: the post-init slot holds
    the handler, and for a non-empty name the application name, the
    instance name, the two address buffers and the PID key of the registry
    are those of a registration. *)
Theorem X10_async_init_bus_failure (e : Env) (name : string) (priority : Z)
    (instance : ClpAppMgrInstanceType) (st : State) (f : fnptr) :
  dbus_bus_get e = None ->
  let r := clp_app_mgr_async_init e name priority instance (Some f) st in
  let c0 := appclient_context st in
  let c' := appclient_context r.2 in
  let n := canonical_name name in
  let multi := registry_multi_instance (gconf st) n in
  let k := registry_last_inst_id (gconf st) n in
  r.1 = CLP_APP_MGR_SUCCESS
  /\ trace r.2 = trace st ++ [bus_get; call_post_init f]
  /\ bus_conn (appclient_context r.2) = bus_conn (appclient_context st)
  /\ init_done (appclient_context r.2) = init_done (appclient_context st)
  /\ post_init_callback c' = Some f
  /\ stop_callback c' = stop_callback c0
  /\ exec_callback c' = exec_callback c0
  /\ rotate_callback c' = rotate_callback c0
  /\ death_callback c' = death_callback c0
  /\ app_focus_gained_callback c' = app_focus_gained_callback c0
  /\ app_focus_lost_callback c' = app_focus_lost_callback c0
  /\ message_callback c' = message_callback c0
  /\ (name <> "" ->
      clp_app_mgr_get_name r.2 = Some n
      /\ clp_app_mgr_get_instance_name r.2
         = Some (if multi then n +:+ ":" +:+ sprintf_d k else n)
      /\ dbus_interface r.2 = derive_address (dbus_interface st) "." n multi k
      /\ dbus_object r.2 = derive_address (dbus_object st) "/" n multi k
      /\ gconf r.2
         = gconf_client_set_int (gconf st)
             (GCONF_APPS_DIR +:+ "/" +:+ n +:+ "/info/PID") (getpid e)).
Proof.
  intros Hbus r c0 c' n multi k.
  assert (Hr : r = (CLP_APP_MGR_SUCCESS,
                    emit (call_post_init f)
                      (emit bus_get
                         (clp_app_mgr_init_identity e name
                            (set_post_init_callback (Some f) st))))).
  { subst r. unfold clp_app_mgr_async_init, clp_app_mgr_init.
    rewrite Hbus. reflexivity. }
  subst c'. rewrite Hr. cbn [fst snd].
  split; [reflexivity|].
  split; [cbn; rewrite <- app_assoc; reflexivity|].
  do 10 (split; [reflexivity|]).
  intros Hne.
  destruct (clp_app_mgr_init_identity_spec e name
              (set_post_init_callback (Some f) st) Hne)
    as (Ha0 & _ & Hi0 & Hif0 & Hob0).
  pose proof (clp_app_mgr_init_gconf e name priority instance
                (set_post_init_callback (Some f) st) Hne) as Hg.
  unfold clp_app_mgr_init in Hg. rewrite Hbus in Hg.
  split; [exact Ha0|]. split; [exact Hi0|]. split; [exact Hif0|].
  split; [exact Hob0 | exact Hg].
Qed.

Lemma X10_async_init_bus_failure_witness :
  let r :=
    clp_app_mgr_async_init Sample.no_bus "appX" 10 CLP_APP_MGR_SINGLE
      (Some 4%nat) (initial_state Sample.registry) in
  r.1 = CLP_APP_MGR_SUCCESS
  /\ trace r.2 = [bus_get; call_post_init 4%nat]
  /\ bus_conn (appclient_context r.2) = None
  /\ init_done (appclient_context r.2) = false
  /\ post_init_callback (appclient_context r.2) = Some 4%nat.
Proof.
  pose proof (X10_async_init_bus_failure Sample.no_bus "appX" 10
                CLP_APP_MGR_SINGLE (initial_state Sample.registry) 4%nat
                eq_refl) as H.
  cbv zeta in H. destruct H as (H1 & H2 & H3 & H4 & H5 & _).
  split; [exact H1|]. split; [exact H2|]. split; [exact H3|].
  split; [exact H4 | exact H5].
Defined.

(** ** Addresses: who reaches whom *)

Lemma split_at_joined (d : ascii) (a b : string) :
  (split_at d a).2 = None ->
  split_at d (a +:+ String d b) = (a, Some b).
Proof.
  induction a as [|ch a IH]; simpl.
  - rewrite Ascii.eqb_refl. reflexivity.
  - destruct (Ascii.eqb ch d); [discriminate|].
    destruct (split_at d a) as [h t]; simpl. intros Ht.
    rewrite (IH Ht). reflexivity.
Qed.

Lemma g_strsplit_joined (d : ascii) (a b : string) :
  (split_at d a).2 = None ->
  g_strsplit (a +:+ String d b) d = [a; b].
Proof.
  intros H. unfold g_strsplit. rewrite (split_at_joined d a b H).
  destruct a; reflexivity.
Qed.

Lemma g_strsplit_whole (d : ascii) (a : string) :
  a <> "" -> (split_at d a).2 = None -> g_strsplit a d = [a].
Proof.
  intros Hne H. unfold g_strsplit.
  pose proof (split_at_no_delim d a H) as E.
  destruct (split_at d a) as [h t]; simpl in *. subst.
  destruct a; [contradiction | reflexivity].
Qed.

Lemma sprintf_d_not_empty (n : Z) : sprintf_d n <> "".
Proof.
  unfold sprintf_d. destruct (Z.to_int n) as [d|d]; simpl.
  - destruct d; discriminate.
  - discriminate.
Qed.

Lemma append_assoc (a b c : string) : (a +:+ b) +:+ c = a +:+ b +:+ c.
Proof. induction a as [|ch a IH]; simpl; [reflexivity | now rewrite IH]. Qed.

(** The address a registration from freshly loaded statics derives, when
    it fits the buffers. *)
Lemma derive_address_fits (buffer sep app : string) (multi : bool)
    (inst : Z) :
  Z.of_nat (String.length buffer) + Z.of_nat (String.length sep)
  + Z.of_nat (String.length app)
  + Z.of_nat (String.length (sprintf_d inst)) < MAX_SIZE ->
  derive_address buffer sep app multi inst
  = buffer +:+ sep +:+ app +:+ (if multi then sprintf_d inst else "").
Proof.
  intros H. unfold derive_address.
  rewrite (g_strlcat_fits buffer sep) by lia.
  rewrite (g_strlcat_fits _ app)
    by (rewrite string_length_append; lia).
  destruct multi.
  - rewrite g_strlcat_fits
      by (rewrite !string_length_append; lia).
    rewrite !append_assoc. reflexivity.
  - rewrite append_empty_r, !append_assoc. reflexivity.
Qed.

(** The instance name and the addresses of a process registered from
    freshly loaded statics, all in terms of the application name, the
    instance type and the instance id. *)
Lemma registered_process (e : Env) (name : string) (priority : Z)
    (instance : ClpAppMgrInstanceType)
    (registry : gmap string GConfValue) :
  name <> "" ->
  let n := canonical_name name in
  let multi := registry_multi_instance registry n in
  let k := sprintf_d (registry_last_inst_id registry n) in
  let target :=
    (clp_app_mgr_init e name priority instance (initial_state registry)).2 in
  (String.length n + String.length k <= 235)%nat ->
  clp_app_mgr_get_instance_name target
  = Some (if multi then n +:+ ":" +:+ k else n)
  /\ dbus_interface target
     = CLP_APP_MGR_DBUS_INTERFACE +:+ "." +:+ n +:+ (if multi then k else "")
  /\ dbus_object target
     = CLP_APP_MGR_DBUS_OBJECT +:+ "/" +:+ n +:+ (if multi then k else "").
Proof.
  intros Hne n multi k target Hfit.
  destruct (clp_app_mgr_init_keeps_identity e name priority instance
              (initial_state registry)) as (_ & Hi & _ & Hif & Hob & _).
  destruct (clp_app_mgr_init_identity_spec e name (initial_state registry)
              Hne) as (_ & _ & Hi0 & Hif0 & Hob0).
  fold target in Hi, Hif, Hob.
  change (gconf (initial_state registry)) with registry in *.
  fold n in Hi0, Hif0, Hob0. fold multi in Hi0, Hif0, Hob0.
  fold k in Hi0.
  unfold clp_app_mgr_get_instance_name.
  rewrite Hi, Hif, Hob, Hi0, Hif0, Hob0.
  split; [reflexivity|].
  change (dbus_interface (initial_state registry))
    with CLP_APP_MGR_DBUS_INTERFACE.
  change (dbus_object (initial_state registry))
    with CLP_APP_MGR_DBUS_OBJECT.
  rewrite !derive_address_fits; [split; reflexivity | |];
    fold k; cbn [String.length CLP_APP_MGR_DBUS_INTERFACE
                 CLP_APP_MGR_DBUS_OBJECT]; unfold MAX_SIZE; simpl; lia.
Qed.

Lemma registered_interface_not_well_known (n k : string) :
  CLP_APP_MGR_DBUS_INTERFACE +:+ "." +:+ n +:+ k
  <> CLP_APP_MGR_DBUS_INTERFACE.
Proof. simpl. discriminate. Qed.

(** The address [clp_app_mgr_send_message] and [clp_app_mgr_stop] compute
    from an instance name is the one the registration has derived. *)
Lemma message_address_of_instance (n k : string) (multi : bool) :
  n <> "" -> (split_at ":" n).2 = None ->
  let inst := if multi then n +:+ ":" +:+ k else n in
  inst <> ""
  /\ message_interface inst
     = CLP_APP_MGR_DBUS_INTERFACE +:+ "." +:+ n +:+ (if multi then k else "")
  /\ message_objectpath inst
     = CLP_APP_MGR_DBUS_OBJECT +:+ "/" +:+ n +:+ (if multi then k else "").
Proof.
  intros Hne Hc inst. subst inst.
  unfold message_interface, message_objectpath.
  destruct multi.
  - change (n +:+ ":" +:+ k) with (n +:+ String ":" k).
    rewrite (g_strsplit_joined ":" n k Hc).
    split; [destruct n; [contradiction | discriminate]|].
    simpl. rewrite !append_empty_r. split; reflexivity.
  - rewrite (g_strsplit_whole ":" n Hne Hc).
    split; [exact Hne|]. simpl. rewrite !append_empty_r.
    split; reflexivity.
Qed.

(** X11: a message sent with [clp_app_mgr_send_message] to the instance
    name a registered process reports is addressed to the interface and
    object path that process listens on, and its filter hands the message
    handler the instance name followed by the arguments; this for
    single-instance and multi-instance applications alike, when the
    application name is not empty, has no [':'] and fits the address
    buffers. *)
Theorem X11_message_reaches_instance (e_r e_s : Env) (name : string)
    (priority : Z) (instance : ClpAppMgrInstanceType)
    (registry : gmap string GConfValue) (f : fnptr) (sender : State)
    (c : DBusConnection) (args : list string) :
  let n := canonical_name name in
  let k := sprintf_d (registry_last_inst_id registry n) in
  let target :=
    clp_app_mgr_register_message_handler (Some f)
      (clp_app_mgr_init e_r name priority instance
         (initial_state registry)).2 in
  n <> "" -> (split_at ":" n).2 = None ->
  (String.length n + String.length k <= 235)%nat ->
  bus_conn (appclient_context sender) = Some c ->
  (forall path interface,
     dbus_message_new_signal_ok e_s path interface "Message" = true) ->
  dbus_connection_send_ok e_s = true ->
  Z.of_nat (length args) <= MAX_SIZE ->
  exists inst msg,
    clp_app_mgr_get_instance_name target = Some inst
    /\ clp_app_mgr_send_message e_s inst args sender
       = Some (CLP_APP_MGR_SUCCESS, emit (connection_send c msg) sender)
    /\ msg_interface msg = dbus_interface target
    /\ msg_path msg = dbus_object target
    /\ message_func e_r msg target
       = Some (DBUS_HANDLER_RESULT_HANDLED,
               emit (call_message f (1 + Z.of_nat (length args))
                       (inst :: args)) target).
Proof.
  intros n k target Hne Hc Hfit Hb Hnew Hsend Hlen.
  assert (Hname : name <> "").
  { intros ->. apply Hne. reflexivity. }
  destruct (registered_process e_r name priority instance registry Hname
              Hfit) as (Hi & Hif & Hob).
  fold n in Hi, Hif, Hob. fold k in Hi, Hif, Hob.
  set (multi := registry_multi_instance registry n) in *.
  destruct (message_address_of_instance n k multi Hne Hc)
    as (Hinst & Hmi & Hmo).
  set (inst := if multi then n +:+ ":" +:+ k else n) in *.
  exists inst.
  exists (forwarded_signal (message_objectpath inst) (message_interface inst)
            "Message" inst args).
  split; [exact Hi|].
  split; [apply clp_app_mgr_send_message_ok; auto|].
  split; [simpl; rewrite Hmi; symmetry; exact Hif|].
  split; [simpl; rewrite Hmo; symmetry; exact Hob|].
  unfold forwarded_signal.
  replace (message_interface inst) with (dbus_interface target)
    by (rewrite Hmi; exact Hif).
  rewrite (message_func_message e_r target _ f) by
    (first [reflexivity | lia
           | simpl; rewrite Nat2Z.id; lia
           | rewrite Z2Nat.inj_add, Nat2Z.id by lia; simpl; lia]).
  replace (Z.to_nat (1 + Z.of_nat (length args))) with (S (length args))
    by lia.
  simpl. rewrite firstn_all. reflexivity.
Qed.

Lemma X11_message_reaches_instance_witness :
  exists inst msg,
    clp_app_mgr_get_instance_name
      (clp_app_mgr_register_message_handler (Some 9%nat)
         (clp_app_mgr_init Sample.cold "appY" 10 CLP_APP_MGR_MULTIPLE
            (initial_state Sample.registry)).2) = Some inst
    /\ clp_app_mgr_send_message Sample.cold inst ["ping"] Sample.appX
       = Some (CLP_APP_MGR_SUCCESS,
               emit (connection_send 1%nat msg) Sample.appX)
    /\ msg_interface msg
       = dbus_interface
           (clp_app_mgr_register_message_handler (Some 9%nat)
              (clp_app_mgr_init Sample.cold "appY" 10 CLP_APP_MGR_MULTIPLE
                 (initial_state Sample.registry)).2)
    /\ msg_path msg
       = dbus_object
           (clp_app_mgr_register_message_handler (Some 9%nat)
              (clp_app_mgr_init Sample.cold "appY" 10 CLP_APP_MGR_MULTIPLE
                 (initial_state Sample.registry)).2)
    /\ message_func Sample.cold msg
         (clp_app_mgr_register_message_handler (Some 9%nat)
            (clp_app_mgr_init Sample.cold "appY" 10 CLP_APP_MGR_MULTIPLE
               (initial_state Sample.registry)).2)
       = Some (DBUS_HANDLER_RESULT_HANDLED,
               emit (call_message 9%nat (1 + Z.of_nat (length ["ping"]))
                       (inst :: ["ping"]))
                 (clp_app_mgr_register_message_handler (Some 9%nat)
                    (clp_app_mgr_init Sample.cold "appY" 10
                       CLP_APP_MGR_MULTIPLE
                       (initial_state Sample.registry)).2)).
Proof.
  apply (X11_message_reaches_instance Sample.cold Sample.cold "appY" 10
           CLP_APP_MGR_MULTIPLE Sample.registry 9%nat Sample.appX 1%nat
           ["ping"]).
  - vm_compute. discriminate.
  - reflexivity.
  - vm_compute. lia.
  - reflexivity.
  - reflexivity.
  - reflexivity.
  - vm_compute. discriminate.
Defined.

Lemma append_not_self (a b : string) : b <> "" -> a +:+ b <> a.
Proof.
  intros Hb E. apply (f_equal String.length) in E.
  rewrite string_length_append in E.
  destruct b; [contradiction | simpl in E; lia].
Qed.

(** X12: the exec signal that a launch forwards for an application that is
    already running is addressed to the application name alone.  A process
    registered for a single-instance application listens there, and its
    exec handler gets the name followed by the arguments; a process
    registered for a multi-instance application listens on an interface
    that ends in its instance id, so its filter reports the forwarded
    signal as not handled and its exec handler is not called. *)
Theorem X12_forwarded_exec_single_instance_only (e_r e_s : Env)
    (name : string) (priority : Z) (instance : ClpAppMgrInstanceType)
    (registry : gmap string GConfValue) (f : fnptr) (sender : State)
    (c : DBusConnection) (args : list string) (inst : Z)
    (launch : State -> option (Z * State)) :
  let n := canonical_name name in
  let k := sprintf_d (registry_last_inst_id registry n) in
  let target :=
    clp_app_mgr_register_exec_handler (Some f)
      (clp_app_mgr_init e_r name priority instance
         (initial_state registry)).2 in
  name <> "" ->
  (String.length n + String.length k <= 235)%nat ->
  va_list_by_value e_s = true ->
  shutdown_flag sender = false ->
  proxy_ok e_s = true ->
  dbus_bus_get e_s = Some c ->
  dbus_message_new_signal_ok e_s (app_objectpath n) (app_interface n) "exec"
  = true ->
  dbus_connection_send_ok e_s = true ->
  Z.of_nat (length args) < NAME_SIZE ->
  daemon_reports e_s sender n inst (APPMGR_ERROR_APP_ALREADY_RUNNING e_s) ->
  In launch (launch_variants e_s n args) ->
  exists st' msg,
    launch sender = Some (CLP_APP_MGR_SUCCESS, st')
    /\ sent_messages (trace st') = sent_messages (trace sender) ++ [msg]
    /\ message_func e_r msg target
       = Some (if registry_multi_instance registry n
               then (DBUS_HANDLER_RESULT_NOT_YET_HANDLED, target)
               else (DBUS_HANDLER_RESULT_HANDLED,
                     emit (call_exec f (1 + Z.of_nat (length args))
                             (n :: args)) target)).
Proof.
  intros n k target Hname Hfit Hva Hs Hp Hb Hnew Hsend Hlen Hd Hin.
  destruct (launch_variants_running e_s sender n args inst c launch
              Hva Hs Hp Hb Hnew Hsend Hlen Hd Hin) as (st' & E & T).
  destruct (registered_process e_r name priority instance registry Hname
              Hfit) as (_ & Hif & _).
  fold n in Hif. fold k in Hif.
  exists st'. eexists. split; [exact E|]. split; [exact T|].
  assert (Hti : dbus_interface target
                = app_interface n
                  +:+ (if registry_multi_instance registry n then k else "")).
  { unfold app_interface. rewrite !append_assoc. exact Hif. }
  destruct (registry_multi_instance registry n).
  - apply message_func_unmatched. right; right.
    cbn [forwarded_signal inbound_signal msg_interface].
    split; [|split].
    + rewrite Hti. intros E'. symmetry in E'. revert E'.
      apply append_not_self. apply sprintf_d_not_empty.
    + unfold app_interface. simpl. discriminate.
    + unfold app_interface. simpl. discriminate.
  - rewrite append_empty_r in Hti. unfold forwarded_signal.
    rewrite <- Hti.
    rewrite (message_func_exec e_r target _ f) by
      (first [reflexivity | lia
             | rewrite Z2Nat.inj_add, Nat2Z.id by lia; simpl; lia]).
    replace (Z.to_nat (1 + Z.of_nat (length args))) with (S (length args))
      by lia.
    simpl. rewrite firstn_all. reflexivity.
Qed.

Lemma X12_forwarded_exec_single_instance_only_witness :
  exists st' msg,
    clp_app_mgr_exec Sample.running "appY" ["a"] (initial_state Sample.registry)
    = Some (CLP_APP_MGR_SUCCESS, st')
    /\ sent_messages (trace st')
       = sent_messages (trace (initial_state Sample.registry)) ++ [msg]
    /\ message_func Sample.cold msg
         (clp_app_mgr_register_exec_handler (Some 7%nat)
            (clp_app_mgr_init Sample.cold "appY" 10 CLP_APP_MGR_MULTIPLE
               (initial_state Sample.registry)).2)
       = Some (if registry_multi_instance Sample.registry
                    (canonical_name "appY")
               then (DBUS_HANDLER_RESULT_NOT_YET_HANDLED,
                     clp_app_mgr_register_exec_handler (Some 7%nat)
                       (clp_app_mgr_init Sample.cold "appY" 10
                          CLP_APP_MGR_MULTIPLE
                          (initial_state Sample.registry)).2)
               else (DBUS_HANDLER_RESULT_HANDLED,
                     emit (call_exec 7%nat (1 + Z.of_nat (length ["a"]))
                             (canonical_name "appY" :: ["a"]))
                       (clp_app_mgr_register_exec_handler (Some 7%nat)
                          (clp_app_mgr_init Sample.cold "appY" 10
                             CLP_APP_MGR_MULTIPLE
                             (initial_state Sample.registry)).2))).
Proof.
  apply (X12_forwarded_exec_single_instance_only Sample.cold Sample.running
           "appY" 10 CLP_APP_MGR_MULTIPLE Sample.registry 7%nat
           (initial_state Sample.registry) 1%nat ["a"] 5
           (clp_app_mgr_exec Sample.running "appY" ["a"])).
  - discriminate.
  - vm_compute. lia.
  - reflexivity.
  - reflexivity.
  - reflexivity.
  - reflexivity.
  - reflexivity.
  - reflexivity.
  - vm_compute. reflexivity.
  - intros a. reflexivity.
  - left. reflexivity.
Defined.

Lemma message_func_own_stop (e : Env) (st : State) (path : string)
    (f : fnptr) :
  dbus_interface st <> CLP_APP_MGR_DBUS_INTERFACE ->
  stop_callback (appclient_context st) = Some f ->
  message_func e
    (inbound_signal path (dbus_interface st) CLP_APP_MGR_DBUS_SIGNAL_STOP [])
    st
  = Some (DBUS_HANDLER_RESULT_NOT_YET_HANDLED, emit (call_stop f) st).
Proof.
  intros Hne Hf.
  unfold message_func, message_func_chain, dbus_message_is_signal; simpl.
  rewrite String.eqb_refl, Hf; simpl.
  apply String.eqb_neq in Hne. rewrite Hne. reflexivity.
Qed.

(** X13: [clp_app_mgr_stop] called with the instance name a registered
    process reports gets a connection, sends one stop signal without body
    to the interface and object path that process listens on, flushes and
    returns success; the filter of that process calls its stop handler
    once. *)
Theorem X13_stop_reaches_instance (e_r e_s : Env) (name : string)
    (priority : Z) (instance : ClpAppMgrInstanceType)
    (registry : gmap string GConfValue) (f : fnptr) (sender : State)
    (c : DBusConnection) :
  let n := canonical_name name in
  let k := sprintf_d (registry_last_inst_id registry n) in
  let target :=
    clp_app_mgr_register_stop_handler (Some f)
      (clp_app_mgr_init e_r name priority instance
         (initial_state registry)).2 in
  n <> "" -> (split_at ":" n).2 = None ->
  (String.length n + String.length k <= 235)%nat ->
  dbus_bus_get e_s = Some c ->
  (forall path interface,
     dbus_message_new_signal_ok e_s path interface "stop" = true) ->
  dbus_connection_send_ok e_s = true ->
  exists inst msg,
    clp_app_mgr_get_instance_name target = Some inst
    /\ clp_app_mgr_stop e_s inst sender
       = Some (CLP_APP_MGR_SUCCESS,
               emit (connection_flush c)
                 (emit (connection_send c msg) (emit bus_get sender)))
    /\ msg_interface msg = dbus_interface target
    /\ msg_path msg = dbus_object target
    /\ msg_args msg = []
    /\ message_func e_r msg target
       = Some (DBUS_HANDLER_RESULT_NOT_YET_HANDLED,
               emit (call_stop f) target).
Proof.
  intros n k target Hne Hc Hfit Hb Hnew Hsend.
  assert (Hname : name <> "").
  { intros ->. apply Hne. reflexivity. }
  destruct (registered_process e_r name priority instance registry Hname
              Hfit) as (Hi & Hif & Hob).
  fold n in Hi, Hif, Hob. fold k in Hi, Hif, Hob.
  set (multi := registry_multi_instance registry n) in *.
  destruct (message_address_of_instance n k multi Hne Hc)
    as (Hinst & Hmi & Hmo).
  set (inst := if multi then n +:+ ":" +:+ k else n) in *.
  exists inst.
  exists (inbound_signal (dbus_object target) (dbus_interface target)
            CLP_APP_MGR_DBUS_SIGNAL_STOP []).
  split; [exact Hi|].
  split.
  - unfold clp_app_mgr_stop.
    assert (Hsplit : exists h t, g_strsplit inst ":" = h :: t
                                 /\ (length t <= 1)%nat).
    { destruct inst as [|ch rest]; [contradiction|].
      unfold g_strsplit.
      destruct (split_at ":" (String ch rest)) as [h [t|]];
        eexists; eexists; (split; [reflexivity | simpl; lia]). }
    destruct Hsplit as (h & t & Hs & Ht).
    unfold message_interface, message_objectpath in Hmi, Hmo.
    rewrite Hs in *.
    assert (H1 : strv_nth (h :: t) 1 = Some (nth_error (h :: t) 1)).
    { unfold strv_nth. destruct t; reflexivity. }
    rewrite H1. cbn [strv_nth length Nat.leb].
    cbv zeta in Hmi, Hmo.
    unfold cstr. rewrite Hmi, Hmo.
    change (dbus_interface target) with
      (dbus_interface (clp_app_mgr_init e_r name priority instance
                         (initial_state registry)).2).
    change (dbus_object target) with
      (dbus_object (clp_app_mgr_init e_r name priority instance
                      (initial_state registry)).2).
    rewrite Hif, Hob. unfold CLP_APP_MGR_DBUS_SIGNAL_STOP.
    rewrite Hnew. cbn [negb]. unfold dbus_connection_send.
    rewrite Hb, Hsend. cbn [negb dbus_connection_flush]. reflexivity.
  - split; [reflexivity|]. split; [reflexivity|]. split; [reflexivity|].
    apply message_func_own_stop; [|reflexivity].
    change (dbus_interface target) with
      (dbus_interface (clp_app_mgr_init e_r name priority instance
                         (initial_state registry)).2).
    rewrite Hif. apply registered_interface_not_well_known.
Qed.

Lemma X13_stop_reaches_instance_witness :
  let target :=
    clp_app_mgr_register_stop_handler (Some 8%nat)
      (clp_app_mgr_init Sample.cold "appY" 10 CLP_APP_MGR_MULTIPLE
         (initial_state Sample.registry)).2 in
  exists inst msg,
    clp_app_mgr_get_instance_name target = Some inst
    /\ clp_app_mgr_stop Sample.cold inst Sample.appX
       = Some (CLP_APP_MGR_SUCCESS,
               emit (connection_flush 1%nat)
                 (emit (connection_send 1%nat msg)
                    (emit bus_get Sample.appX)))
    /\ msg_interface msg = dbus_interface target
    /\ msg_path msg = dbus_object target
    /\ msg_args msg = []
    /\ message_func Sample.cold msg target
       = Some (DBUS_HANDLER_RESULT_NOT_YET_HANDLED,
               emit (call_stop 8%nat) target).
Proof.
  apply (X13_stop_reaches_instance Sample.cold Sample.cold "appY" 10
           CLP_APP_MGR_MULTIPLE Sample.registry 8%nat Sample.appX 1%nat).
  - vm_compute. discriminate.
  - reflexivity.
  - vm_compute. lia.
  - reflexivity.
  - reflexivity.
  - reflexivity.
Defined.

(** ** Closing and power off *)

Lemma close_signal_fits (app : string) :
  (String.length app <= 235)%nat ->
  close_signal app
  = inbound_signal (app_objectpath app) (app_interface app)
      CLP_APP_MGR_DBUS_SIGNAL_STOP [].
Proof.
  intros H. unfold close_signal, app_objectpath, app_interface.
  rewrite (g_strlcat_fits CLP_APP_MGR_DBUS_INTERFACE ".")
    by (unfold MAX_SIZE; simpl; lia).
  rewrite (g_strlcat_fits CLP_APP_MGR_DBUS_OBJECT "/")
    by (unfold MAX_SIZE; simpl; lia).
  rewrite !g_strlcat_fits
    by (rewrite string_length_append; unfold MAX_SIZE; simpl; lia).
  rewrite !append_assoc. reflexivity.
Qed.

(** X14: [clp_app_mgr_close_by_name (n)] sends one stop signal to the
    address made of the whole of [n], waits, and asks for the kill of the
    instance the registry names as the last one of [n]; its result is the
    failure code exactly when the kill is refused.  A process registered
    for the single-instance application [n] listens on that address and
    its stop handler is called.  A process registered for a multi-instance
    application does not: neither the signal for its application name nor
    the signal for its instance name reaches its stop handler. *)
Theorem X14_close_by_name_reach (e_r e_s : Env) (a : Ams) (name : string)
    (priority : Z) (instance : ClpAppMgrInstanceType)
    (registry : gmap string GConfValue) (f : fnptr) (sender : State)
    (c : DBusConnection) :
  let n := canonical_name name in
  let k := sprintf_d (registry_last_inst_id registry n) in
  let target :=
    clp_app_mgr_register_stop_handler (Some f)
      (clp_app_mgr_init e_r name priority instance
         (initial_state registry)).2 in
  let last := registry_last_inst_id (gconf sender) n in
  name <> "" ->
  (String.length n + String.length k <= 234)%nat ->
  bus_conn (appclient_context sender) = Some c ->
  (forall path interface,
     dbus_message_new_signal_ok e_s path interface "stop" = true) ->
  dbus_connection_send_ok e_s = true ->
  clp_app_mgr_close_by_name e_s a n sender
  = (if AppMgrAppKill a last =? 0 then CLP_APP_MGR_SUCCESS
     else CLP_APP_MGR_FAILURE,
     emit (connection_send c (close_signal n)) sender,
     [sleep 2; app_kill last])
  /\ (registry_multi_instance registry n = false ->
      message_func e_r (close_signal n) target
      = Some (DBUS_HANDLER_RESULT_NOT_YET_HANDLED,
              emit (call_stop f) target))
  /\ (registry_multi_instance registry n = true ->
      message_func e_r (close_signal n) target
      = Some (DBUS_HANDLER_RESULT_NOT_YET_HANDLED, target)
      /\ message_func e_r (close_signal (n +:+ ":" +:+ k)) target
         = Some (DBUS_HANDLER_RESULT_NOT_YET_HANDLED, target)).
Proof.
  intros n k target last Hname Hfit Hb Hnew Hsend.
  destruct (registered_process e_r name priority instance registry Hname)
    as (_ & Hif & Hob); [fold n k; lia|].
  fold n in Hif, Hob. fold k in Hif, Hob.
  assert (Hti : dbus_interface target
                = app_interface n
                  +:+ (if registry_multi_instance registry n then k else "")).
  { unfold app_interface. rewrite !append_assoc. exact Hif. }
  assert (Hto : dbus_object target
                = app_objectpath n
                  +:+ (if registry_multi_instance registry n then k else "")).
  { unfold app_objectpath. rewrite !append_assoc. exact Hob. }
  split; [|split].
  - unfold clp_app_mgr_close_by_name.
    replace (concat_until_null [Some GCONF_APPS_DIR; Some "/"; Some n;
                                Some "/LastInstId"])
      with (GCONF_APPS_DIR +:+ "/" +:+ n +:+ "/LastInstId")
      by (cbn [concat_until_null]; rewrite append_empty_r; reflexivity).
    fold (registry_last_inst_id (gconf sender) n). fold last.
    unfold CLP_APP_MGR_DBUS_SIGNAL_STOP. rewrite Hnew. cbn [negb].
    unfold dbus_connection_send. rewrite Hb, Hsend.
    destruct (AppMgrAppKill a last =? 0); reflexivity.
  - intros Hm. rewrite Hm, append_empty_r in Hti, Hto.
    rewrite close_signal_fits by lia. rewrite <- Hti.
    apply message_func_own_stop; [|reflexivity].
    rewrite Hti. unfold app_interface. simpl. discriminate.
  - intros Hm. rewrite Hm in Hti.
    assert (Hwk : forall x, app_interface x <> CLP_APP_MGR_DBUS_INTERFACE
                            /\ app_interface x <> CLP_WIN_MGR_DBUS_INTERFACE).
    { intros x. unfold app_interface. simpl. split; discriminate. }
    split; rewrite close_signal_fits; try apply message_func_unmatched;
      try (right; right; cbn [inbound_signal msg_interface];
           split; [|apply Hwk]; rewrite Hti).
    + intros E. symmetry in E. revert E.
      apply append_not_self. apply sprintf_d_not_empty.
    + lia.
    + unfold app_interface. intros E.
      apply (f_equal String.length) in E.
      rewrite !string_length_append in E. simpl in E. lia.
    + rewrite !string_length_append. simpl. lia.
Qed.

Lemma X14_close_by_name_reach_witness :
  let target :=
    clp_app_mgr_register_stop_handler (Some 8%nat)
      (clp_app_mgr_init Sample.cold "appY" 10 CLP_APP_MGR_MULTIPLE
         (initial_state Sample.registry)).2 in
  clp_app_mgr_close_by_name Sample.cold (Sample.ams 1) "appY" Sample.appX
  = (if AppMgrAppKill (Sample.ams 1)
          (registry_last_inst_id (gconf Sample.appX) "appY") =? 0
     then CLP_APP_MGR_SUCCESS else CLP_APP_MGR_FAILURE,
     emit (connection_send 1%nat (close_signal "appY")) Sample.appX,
     [sleep 2;
      app_kill (registry_last_inst_id (gconf Sample.appX) "appY")])
  /\ (registry_multi_instance Sample.registry "appY" = false ->
      message_func Sample.cold (close_signal "appY") target
      = Some (DBUS_HANDLER_RESULT_NOT_YET_HANDLED,
              emit (call_stop 8%nat) target))
  /\ (registry_multi_instance Sample.registry "appY" = true ->
      message_func Sample.cold (close_signal "appY") target
      = Some (DBUS_HANDLER_RESULT_NOT_YET_HANDLED, target)
      /\ message_func Sample.cold
           (close_signal
              ("appY" +:+ ":"
               +:+ sprintf_d (registry_last_inst_id Sample.registry "appY")))
           target
         = Some (DBUS_HANDLER_RESULT_NOT_YET_HANDLED, target)).
Proof.
  apply (X14_close_by_name_reach Sample.cold Sample.cold (Sample.ams 1)
           "appY" 10 CLP_APP_MGR_MULTIPLE Sample.registry 8%nat Sample.appX
           1%nat).
  - discriminate.
  - vm_compute. lia.
  - reflexivity.
  - reflexivity.
  - reflexivity.
Defined.

(** X15: [clp_app_mgr_close_by_red_key] is [clp_app_mgr_close_by_name]
    behind the X-RedKeyKill property of the application: when the property
    is exactly "true" or "TRUE" the two do the same; for any other value,
    and for a missing property or file, nothing is sent, nothing is killed
    and the call returns success. *)
Theorem X15_red_key_guard (e : Env) (a : Ams) (app : string) (st : State) :
  let flag := clp_app_mgr_get_property a app "X-RedKeyKill" in
  (flag = Some "true" \/ flag = Some "TRUE" ->
   clp_app_mgr_close_by_red_key e a app st
   = clp_app_mgr_close_by_name e a app st)
  /\ (flag <> Some "true" -> flag <> Some "TRUE" ->
      clp_app_mgr_close_by_red_key e a app st
      = (CLP_APP_MGR_SUCCESS, st, [])).
Proof.
  intros flag. unfold clp_app_mgr_close_by_red_key. fold flag. split.
  - intros [-> | ->]; reflexivity.
  - intros H1 H2.
    replace (red_key_kill flag) with false; [reflexivity|].
    symmetry. unfold red_key_kill. destruct flag as [s|]; [|reflexivity].
    apply orb_false_iff. split; apply String.eqb_neq; congruence.
Qed.

Lemma X15_red_key_guard_witness :
  (clp_app_mgr_get_property (Sample.ams 0) "appX" "X-RedKeyKill"
   = Some "true"
   /\ clp_app_mgr_close_by_red_key Sample.cold (Sample.ams 0) "appX"
        Sample.appX
      = clp_app_mgr_close_by_name Sample.cold (Sample.ams 0) "appX"
          Sample.appX)
  /\ clp_app_mgr_close_by_red_key Sample.cold (Sample.ams 0) "appY"
       Sample.appX
     = (CLP_APP_MGR_SUCCESS, Sample.appX, []).
Proof.
  split.
  - split; [reflexivity|].
    apply (X15_red_key_guard Sample.cold (Sample.ams 0) "appX" Sample.appX).
    left. reflexivity.
  - apply (X15_red_key_guard Sample.cold (Sample.ams 0) "appY" Sample.appX);
      discriminate.
Defined.

Lemma registry_last_inst_id_after_pid (registry : gmap string GConfValue)
    (n app : string) (v : Z) :
  registry_last_inst_id
    (gconf_client_set_int registry
       (GCONF_APPS_DIR +:+ "/" +:+ n +:+ "/info/PID") v) app
  = registry_last_inst_id registry app.
Proof.
  unfold registry_last_inst_id, gconf_client_get_int, gconf_client_set_int.
  rewrite lookup_insert_ne; [reflexivity|].
  intros H. simpl in H. injection H as H.
  assert (G : forall x y : string, x +:+ "/info/PID" <> y +:+ "/LastInstId").
  { intros x y E.
    assert (R : forall (s t : string) (c d : ascii),
               s +:+ String c "" = t +:+ String d "" -> c = d).
    { induction s as [|a s IH]; intros [|b t] c d E'; simpl in E'.
      - congruence.
      - injection E' as _ E'. destruct t; discriminate.
      - injection E' as _ E'. destruct s; discriminate.
      - injection E' as _ E'. exact (IH _ _ _ E'). }
    specialize (R (x +:+ "/info/PI") (y +:+ "/LastInstI") "D"%char
                  "d"%char).
    rewrite !append_assoc in R. simpl in R. specialize (R E).
    discriminate. }
  exact (G _ _ H).
Qed.

(** X16: [clp_app_mgr_close] asks for the kill of the instance id that the
    registration has read from the registry, the LastInstId of the
    application name, and fails exactly when the kill is refused; this is
    the instance [clp_app_mgr_close_by_name] asks to kill for that name
    from a process that sees the registry as the registration left it.
    The bus plays no part: the same holds when the registration has failed
    to connect. *)
Theorem X16_close_kills_registered_instance (e e' : Env) (a : Ams)
    (name : string) (priority : Z) (instance : ClpAppMgrInstanceType)
    (registry : gmap string GConfValue) (other : State) :
  let n := canonical_name name in
  let st :=
    (clp_app_mgr_init e name priority instance (initial_state registry)).2 in
  let last := registry_last_inst_id registry n in
  name <> "" ->
  gconf other = gconf st ->
  clp_app_mgr_close a st
  = (if AppMgrAppKill a last =? 0 then CLP_APP_MGR_SUCCESS
     else CLP_APP_MGR_FAILURE, [app_kill last])
  /\ (clp_app_mgr_close_by_name e' a n other).2
     = (if dbus_message_new_signal_ok e' (msg_path (close_signal n))
             (msg_interface (close_signal n)) "stop"
        then [sleep 2; app_kill last] else []).
Proof.
  intros n st last Hne Hg.
  destruct (clp_app_mgr_init_keeps_identity e name priority instance
              (initial_state registry)) as (_ & _ & Hi & _).
  destruct (clp_app_mgr_init_identity_spec e name (initial_state registry)
              Hne) as (_ & Hi0 & _).
  fold st in Hi. change (gconf (initial_state registry)) with registry in Hi0.
  fold n in Hi0. fold last in Hi0.
  split.
  - unfold clp_app_mgr_close. rewrite Hi, Hi0.
    destruct (AppMgrAppKill a last =? 0); reflexivity.
  - unfold clp_app_mgr_close_by_name.
    replace (concat_until_null [Some GCONF_APPS_DIR; Some "/"; Some n;
                                Some "/LastInstId"])
      with (GCONF_APPS_DIR +:+ "/" +:+ n +:+ "/LastInstId")
      by (cbn [concat_until_null]; rewrite append_empty_r; reflexivity).
    fold (registry_last_inst_id (gconf other) n).
    rewrite Hg. unfold st. rewrite clp_app_mgr_init_gconf by exact Hne.
    change (gconf (initial_state registry)) with registry.
    fold n. rewrite registry_last_inst_id_after_pid. fold last.
    unfold CLP_APP_MGR_DBUS_SIGNAL_STOP.
    destruct (dbus_message_new_signal_ok e' _ _ _); [|reflexivity].
    cbn [negb].
    destruct (dbus_connection_send e' _ _ _) as [sent st1].
    destruct (negb (AppMgrAppKill a last =? 0)); reflexivity.
Qed.

Lemma X16_close_kills_registered_instance_witness :
  let st :=
    (clp_app_mgr_init Sample.no_bus "appY" 10 CLP_APP_MGR_MULTIPLE
       (initial_state Sample.registry)).2 in
  clp_app_mgr_close (Sample.ams 0) st
  = (if AppMgrAppKill (Sample.ams 0)
          (registry_last_inst_id Sample.registry "appY") =? 0
     then CLP_APP_MGR_SUCCESS else CLP_APP_MGR_FAILURE,
     [app_kill (registry_last_inst_id Sample.registry "appY")])
  /\ (clp_app_mgr_close_by_name Sample.cold (Sample.ams 0) "appY"
        Sample.appY3).2
     = (if dbus_message_new_signal_ok Sample.cold
             (msg_path (close_signal "appY"))
             (msg_interface (close_signal "appY")) "stop"
        then [sleep 2; app_kill (registry_last_inst_id Sample.registry "appY")]
        else []).
Proof.
  apply (X16_close_kills_registered_instance Sample.no_bus Sample.cold
           (Sample.ams 0) "appY" 10 CLP_APP_MGR_MULTIPLE Sample.registry
           Sample.appY3).
  - discriminate.
  - reflexivity.
Defined.

(** With the shutdown flag set no launch call gets past its first
    test. *)
Lemma launch_shutdown (e : Env) (st : State) (application : string)
    (args : list string) (launch : State -> option (Z * State)) :
  shutdown_flag st = true ->
  APPMGR_ERROR_APP_ALREADY_RUNNING e <> -1 ->
  In launch (launch_variants e application args
             ++ [clp_app_mgr_service_invoke e application args]) ->
  launch st = Some (CLP_APP_MGR_FAILURE, st).
Proof.
  intros Hs Hne Hin. unfold shutdown_flag in Hs.
  assert (Hexec : clp_app_mgr_exec e application args st
                  = Some (CLP_APP_MGR_FAILURE, st)).
  { unfold clp_app_mgr_exec, ClpAppMgrAppLaunchWithArgs,
      va_list_after_call. rewrite Hs.
    destruct (-1 =? APPMGR_ERROR_APP_ALREADY_RUNNING e) eqn:E; [lia|].
    destruct (va_list_by_value e); reflexivity. }
  simpl in Hin. destruct Hin as [<-|[<-|[<-|[<-|[]]]]]; try exact Hexec.
  unfold clp_app_mgr_exec_argv, ClpAppMgrAppLaunchWithArgv. rewrite Hs.
  destruct (-1 =? APPMGR_ERROR_APP_ALREADY_RUNNING e) eqn:E; [lia|].
  reflexivity.
Qed.

(** X17: [clp_app_mgr_power_off] sets the shutdown flag of the registry
    whatever happens next.  When the stop signal can be made and sent on
    the connection of the context, exactly that signal goes out, on the
    well-known interface and without body, the shutdown script is run and
    the call returns [CLP_APP_MGR_FAILURE]; otherwise nothing is sent, the
    script is not run and the call returns 0, which is
    [CLP_APP_MGR_SUCCESS].  The signal makes the filter of every process
    with a stop handler call it and report the signal handled. *)
Theorem X17_power_off (e e_r : Env) (st target : State) (f : fnptr) :
  let sendable :=
    dbus_message_new_signal_ok e CLP_APP_MGR_DBUS_OBJECT
      CLP_APP_MGR_DBUS_INTERFACE "stop"
    && match bus_conn (appclient_context st) with
       | Some _ => dbus_connection_send_ok e
       | None => false
       end in
  let broadcast :=
    inbound_signal CLP_APP_MGR_DBUS_OBJECT CLP_APP_MGR_DBUS_INTERFACE "stop"
      [] in
  let '(return_code, st', outside) := clp_app_mgr_power_off e st in
  shutdown_flag st' = true
  /\ return_code
     = (if sendable then CLP_APP_MGR_FAILURE else CLP_APP_MGR_SUCCESS)
  /\ outside = (if sendable then [system "/sbin/shutdown.sh"] else [])
  /\ sent_messages (trace st')
     = sent_messages (trace st) ++ (if sendable then [broadcast] else [])
  /\ (stop_callback (appclient_context target) = Some f ->
      dbus_interface target <> CLP_APP_MGR_DBUS_INTERFACE ->
      message_func e_r broadcast target
      = Some (DBUS_HANDLER_RESULT_HANDLED, emit (call_stop f) target)).
Proof.
  intros sendable broadcast.
  assert (Hflag : forall s, shutdown_flag
            (with_gconf s (gconf_client_set_bool (gconf s)
                             "/appmgr/Shutdown" true)) = true).
  { intros s. unfold shutdown_flag, gconf_client_get_bool,
      gconf_client_set_bool. cbn [gconf with_gconf].
    rewrite lookup_insert. reflexivity. }
  assert (Hrecv : stop_callback (appclient_context target) = Some f ->
                  dbus_interface target <> CLP_APP_MGR_DBUS_INTERFACE ->
                  message_func e_r broadcast target
                  = Some (DBUS_HANDLER_RESULT_HANDLED,
                          emit (call_stop f) target)).
  { intros Hf Hne. unfold broadcast.
    rewrite (message_func_broadcast_stop e_r target _ [] f Hf).
    apply String.eqb_neq in Hne. rewrite Hne. reflexivity. }
  unfold clp_app_mgr_power_off, sendable, CLP_APP_MGR_DBUS_SIGNAL_STOP.
  destruct (dbus_message_new_signal_ok e CLP_APP_MGR_DBUS_OBJECT
              CLP_APP_MGR_DBUS_INTERFACE "stop"); cbn [negb andb].
  - unfold dbus_connection_send. cbn [appclient_context with_gconf].
    destruct (bus_conn (appclient_context st)) as [c|].
    + destruct (dbus_connection_send_ok e); cbn [negb].
      * split; [apply (Hflag st)|]. split; [reflexivity|].
        split; [reflexivity|]. split; [|exact Hrecv].
        rewrite emit_trace, sent_messages_app. reflexivity.
      * split; [apply (Hflag st)|]. split; [reflexivity|].
        split; [reflexivity|]. split; [|exact Hrecv].
        rewrite app_nil_r. reflexivity.
    + split; [apply (Hflag st)|]. split; [reflexivity|].
      split; [reflexivity|]. split; [|exact Hrecv].
      rewrite app_nil_r. reflexivity.
  - split; [apply (Hflag st)|]. split; [reflexivity|].
    split; [reflexivity|]. split; [|exact Hrecv].
    rewrite app_nil_r. reflexivity.
Qed.

Lemma X17_power_off_witness :
  shutdown_flag (clp_app_mgr_power_off Sample.cold Sample.appX).1.2 = true
  /\ (clp_app_mgr_power_off Sample.cold Sample.appX).1.1
     = CLP_APP_MGR_FAILURE
  /\ (clp_app_mgr_power_off Sample.cold Sample.appX).2
     = [system "/sbin/shutdown.sh"]
  /\ message_func Sample.cold
       (inbound_signal CLP_APP_MGR_DBUS_OBJECT CLP_APP_MGR_DBUS_INTERFACE
          "stop" []) Sample.appY3
     = Some (DBUS_HANDLER_RESULT_HANDLED,
             emit (call_stop 8%nat) Sample.appY3).
Proof.
  pose proof (X17_power_off Sample.cold Sample.cold Sample.appX Sample.appY3
                8%nat) as H.
  cbv zeta in H.
  destruct (clp_app_mgr_power_off Sample.cold Sample.appX)
    as [[return_code st'] outside] eqn:E.
  destruct H as (H1 & H2 & H3 & _ & H5).
  split; [exact H1|]. split; [exact H2|]. split; [exact H3|].
  apply H5; [reflexivity | vm_compute; discriminate].
Defined.

(** X18: once [clp_app_mgr_power_off] has been called, whether or not its
    signal went out, every launch call ([clp_app_mgr_exec],
    [clp_app_mgr_exec_application], [clp_app_mgr_exec_argv],
    [clp_app_mgr_service_invoke]) of every process that sees the registry
    returns [CLP_APP_MGR_FAILURE] at once: the daemon is not asked and no
    signal is sent. *)
Theorem X18_no_launch_after_power_off (e e' : Env) (st other : State)
    (application : string) (args : list string)
    (launch : State -> option (Z * State)) :
  APPMGR_ERROR_APP_ALREADY_RUNNING e' <> -1 ->
  gconf other = gconf (clp_app_mgr_power_off e st).1.2 ->
  In launch (launch_variants e' application args
             ++ [clp_app_mgr_service_invoke e' application args]) ->
  launch other = Some (CLP_APP_MGR_FAILURE, other).
Proof.
  intros Hne Hg Hin.
  apply (launch_shutdown e' other application args launch); auto.
  unfold shutdown_flag. rewrite Hg.
  assert (G : gconf (clp_app_mgr_power_off e st).1.2
              = gconf_client_set_bool (gconf st) "/appmgr/Shutdown" true).
  { unfold clp_app_mgr_power_off.
    destruct (negb (dbus_message_new_signal_ok e _ _ _)); [reflexivity|].
    unfold dbus_connection_send. cbn [appclient_context with_gconf].
    destruct (bus_conn (appclient_context st)); [|reflexivity].
    destruct (dbus_connection_send_ok e); reflexivity. }
  rewrite G. unfold gconf_client_get_bool, gconf_client_set_bool.
  rewrite lookup_insert. reflexivity.
Qed.

Lemma X18_no_launch_after_power_off_witness :
  clp_app_mgr_exec_argv Sample.running "appX" (Z.of_nat (length ["a"])) ["a"]
    (clp_app_mgr_power_off Sample.no_bus Sample.appX).1.2
  = Some (CLP_APP_MGR_FAILURE,
          (clp_app_mgr_power_off Sample.no_bus Sample.appX).1.2).
Proof.
  apply (X18_no_launch_after_power_off Sample.no_bus Sample.running
           Sample.appX _ "appX" ["a"]).
  - discriminate.
  - reflexivity.
  - right; right; left. reflexivity.
Defined.

(** X19: [clp_app_mgr_set_visibility (v)] in a registered process writes
    the key that [clp_app_mgr_get_application_instance_info] reads for the
    instance name of that process, so the visibility read there is [v]
    (for an application name that is not empty and has no [':']); every
    other key of the registry, the context, the buffers and the trace are
    left as they were, and the call returns success. *)
Theorem X19_visibility_round_trip (e : Env) (name : string) (priority : Z)
    (instance : ClpAppMgrInstanceType) (registry : gmap string GConfValue)
    (visibility : bool) :
  let n := canonical_name name in
  let st :=
    (clp_app_mgr_init e name priority instance (initial_state registry)).2 in
  let key := GCONF_APPS_DIR +:+ "/" +:+ n +:+ "/info/Visibility" in
  n <> "" -> (split_at ":" n).2 = None ->
  exists inst st',
    clp_app_mgr_get_instance_name st = Some inst
    /\ clp_app_mgr_set_visibility visibility st = (CLP_APP_MGR_SUCCESS, st')
    /\ instance_info_visibility inst st' = visibility
    /\ (forall other, other <> key -> gconf st' !! other = gconf st !! other)
    /\ appclient_context st' = appclient_context st
    /\ dbus_interface st' = dbus_interface st
    /\ dbus_object st' = dbus_object st
    /\ trace st' = trace st.
Proof.
  intros n st key Hne Hc.
  assert (Hname : name <> "").
  { intros ->. apply Hne. reflexivity. }
  destruct (clp_app_mgr_init_keeps_identity e name priority instance
              (initial_state registry)) as (Ha & Hi & _).
  destruct (clp_app_mgr_init_identity_spec e name (initial_state registry)
              Hname) as (Ha0 & _ & Hi0 & _).
  fold st in Ha, Hi. fold n in Ha0, Hi0.
  rewrite Ha0 in Ha. rewrite Hi0 in Hi.
  set (multi := registry_multi_instance (gconf (initial_state registry)) n)
    in *.
  set (k := sprintf_d
              (registry_last_inst_id (gconf (initial_state registry)) n))
    in *.
  exists (if multi then n +:+ ":" +:+ k else n).
  eexists. split; [exact Hi|]. split; [reflexivity|].
  assert (Hkey : concat_until_null
                   [Some GCONF_APPS_DIR; Some "/";
                    app_name (appclient_context st);
                    Some "/info/Visibility"] = key).
  { rewrite Ha. cbn [concat_until_null]. rewrite append_empty_r.
    reflexivity. }
  rewrite Hkey. cbn [gconf with_gconf appclient_context dbus_interface
                     dbus_object trace].
  split; [|split; [|repeat split]].
  - unfold instance_info_visibility.
    assert (Hs : nth_error
                   (g_strsplit (if multi then n +:+ ":" +:+ k else n) ":") 0
                 = Some n).
    { destruct multi.
      - change (n +:+ ":" +:+ k) with (n +:+ String ":" k).
        rewrite (g_strsplit_joined ":" n k Hc). reflexivity.
      - rewrite (g_strsplit_whole ":" n Hne Hc). reflexivity. }
    rewrite Hs. cbn [concat_until_null gconf with_gconf].
    rewrite !append_empty_r.
    replace ((GCONF_APPS_DIR +:+ "/" +:+ n +:+ "/info") +:+ "/Visibility")
      with key
      by (unfold key; rewrite !append_assoc; reflexivity).
    unfold gconf_client_get_bool, gconf_client_set_bool.
    rewrite lookup_insert_eq. reflexivity.
  - intros other Ho. unfold gconf_client_set_bool.
    rewrite lookup_insert_ne by congruence. reflexivity.
Qed.

Lemma X19_visibility_round_trip_witness :
  let st :=
    (clp_app_mgr_init Sample.cold "appY" 10 CLP_APP_MGR_MULTIPLE
       (initial_state Sample.registry)).2 in
  exists inst st',
    clp_app_mgr_get_instance_name st = Some inst
    /\ clp_app_mgr_set_visibility true st = (CLP_APP_MGR_SUCCESS, st')
    /\ instance_info_visibility inst st' = true
    /\ (forall other,
          other <> GCONF_APPS_DIR +:+ "/" +:+ canonical_name "appY"
                   +:+ "/info/Visibility" ->
          gconf st' !! other = gconf st !! other)
    /\ appclient_context st' = appclient_context st
    /\ dbus_interface st' = dbus_interface st
    /\ dbus_object st' = dbus_object st
    /\ trace st' = trace st.
Proof.
  apply (X19_visibility_round_trip Sample.cold "appY" 10 CLP_APP_MGR_MULTIPLE
           Sample.registry true).
  - vm_compute. discriminate.
  - reflexivity.
Defined.

(** ** Launching: what can go wrong *)




(** X21: when the daemon reports AlreadyRunning but the exec signal cannot
    be forwarded, nothing is sent and the launch returns
    [CLP_APP_MGR_DBUS_CALL_FAIL] if the signal could not be created, and
    [CLP_APP_MGR_OUT_OF_MEMORY] if it was created but there is no bus
    connection or the connection would not queue it. *)
Theorem X21_forward_failure (e : Env) (st : State) (application : string)
    (args : list string) (inst : Z) (launch : State -> option (Z * State)) :
  let created :=
    dbus_message_new_signal_ok e (app_objectpath application)
      (app_interface application) "exec" in
  let queued :=
    match dbus_bus_get e with
    | Some _ => dbus_connection_send_ok e
    | None => false
    end in
  va_list_by_value e = true ->
  shutdown_flag st = false ->
  proxy_ok e = true ->
  Z.of_nat (length args) < NAME_SIZE ->
  daemon_reports e st application inst (APPMGR_ERROR_APP_ALREADY_RUNNING e) ->
  created && queued = false ->
  In launch (launch_variants e application args
             ++ [clp_app_mgr_service_invoke e application args]) ->
  exists st',
    launch st
    = Some (if created then CLP_APP_MGR_OUT_OF_MEMORY
            else CLP_APP_MGR_DBUS_CALL_FAIL, st')
    /\ sent_messages (trace st') = sent_messages (trace st).
Proof.
  intros created queued Hva Hs Hp Hlen Hd Hfail Hin.
  unfold shutdown_flag in Hs.
  assert (Hexec : exists st',
             clp_app_mgr_exec e application args st
             = Some (if created then CLP_APP_MGR_OUT_OF_MEMORY
                     else CLP_APP_MGR_DBUS_CALL_FAIL, st')
             /\ sent_messages (trace st') = sent_messages (trace st)).
  { unfold clp_app_mgr_exec, ClpAppMgrAppLaunchWithArgs, va_list_after_call.
    rewrite Hs, Hva.
    rewrite (launch_call_reply e _ 0 None _ st inst _ Hp (Hd _)).
    rewrite Z.eqb_refl, !concat3.
    rewrite collect_params_ok by (unfold NAME_SIZE in *; lia).
    fold (app_interface application) (app_objectpath application).
    unfold CLP_APP_MGR_DBUS_SIGNAL_EXEC. fold created.
    destruct created; cbn [negb andb] in *.
    - unfold dbus_connection_send. subst queued.
      destruct (dbus_bus_get e) as [c|]; [rewrite Hfail|]; cbn [negb];
        eexists; (split; [reflexivity|]);
        rewrite !emit_trace, !sent_messages_app, !app_nil_r; reflexivity.
    - eexists. split; [reflexivity|].
      rewrite !emit_trace, !sent_messages_app, !app_nil_r. reflexivity. }
  simpl in Hin. destruct Hin as [<-|[<-|[<-|[<-|[]]]]]; try exact Hexec.
  unfold clp_app_mgr_exec_argv, ClpAppMgrAppLaunchWithArgv.
  rewrite Hs, Nat2Z.id.
  pose proof (join_argv_ok [] args "") as Hj. simpl in Hj. rewrite Hj.
  rewrite (launch_call_reply e _ 0 None _ st inst _ Hp (Hd _)).
  rewrite Z.eqb_refl, !concat3.
  fold (app_interface application) (app_objectpath application).
  unfold CLP_APP_MGR_DBUS_SIGNAL_EXEC. fold created.
  destruct created; cbn [negb andb] in *.
  - pose proof (read_params_ok [] args) as Hr. simpl in Hr. rewrite Hr.
    unfold dbus_connection_send. subst queued.
    destruct (dbus_bus_get e) as [c|]; [rewrite Hfail|]; cbn [negb];
      eexists; (split; [reflexivity|]);
      rewrite !emit_trace, !sent_messages_app, !app_nil_r; reflexivity.
  - eexists. split; [reflexivity|].
    rewrite !emit_trace, !sent_messages_app, !app_nil_r. reflexivity.
Qed.

Lemma X21_forward_failure_witness :
  exists st',
    clp_app_mgr_exec_argv (Sample.env None 5 (-6)) "appX"
      (Z.of_nat (length ["a"])) ["a"] (initial_state Sample.registry)
    = Some (if dbus_message_new_signal_ok (Sample.env None 5 (-6))
                 (app_objectpath "appX") (app_interface "appX") "exec"
            then CLP_APP_MGR_OUT_OF_MEMORY else CLP_APP_MGR_DBUS_CALL_FAIL,
            st')
    /\ sent_messages (trace st')
       = sent_messages (trace (initial_state Sample.registry)).
Proof.
  apply (X21_forward_failure (Sample.env None 5 (-6))
           (initial_state Sample.registry) "appX" ["a"] 5).
  - reflexivity.
  - reflexivity.
  - reflexivity.
  - vm_compute. reflexivity.
  - intros a. reflexivity.
  - reflexivity.
  - right; right; left. reflexivity.
Defined.

Lemma collect_params_overflow (va : list string) (n : Z)
    (params : list string) :
  NAME_SIZE < n + Z.of_nat (length va) -> n <= NAME_SIZE ->
  collect_params va n params = None.
Proof.
  revert n params; induction va as [|v va IH]; intros n params H Hn;
    simpl in *; [lia|].
  destruct (NAME_SIZE <=? n) eqn:E; [reflexivity|].
  apply IH; lia.
Qed.

Lemma collect_messages_overflow (ap : list string) (i n : Z)
    (l : list string) :
  MAX_SIZE < i + Z.of_nat (length ap) -> i <= MAX_SIZE ->
  collect_messages ap i n l = None.
Proof.
  revert i n l; induction ap as [|v ap IH]; intros i n l H Hi;
    simpl in *; [lia|].
  destruct (MAX_SIZE <=? i) eqn:E; [reflexivity|].
  apply IH; lia.
Qed.

(** X22: the argument buffers.  [clp_app_mgr_exec] and
    [clp_app_mgr_exec_application] copy the arguments into [params], an
    array of [NAME_SIZE] pointers filled from index 1: with [NAME_SIZE]
    arguments or more, forwarding to a running instance writes past the
    array and has no defined result, whereas [clp_app_mgr_exec_argv] uses
    the caller's array and forwards them all.  [clp_app_mgr_send_message]
    fills [message_list], [MAX_SIZE] pointers from index 0: more than
    [MAX_SIZE] arguments have no defined result. *)
Theorem X22_argument_buffers (e : Env) (st : State) (application : string)
    (args : list string) (inst : Z) (c : DBusConnection) :
  va_list_by_value e = true ->
  shutdown_flag st = false ->
  proxy_ok e = true ->
  dbus_bus_get e = Some c ->
  (forall path interface member,
     dbus_message_new_signal_ok e path interface member = true) ->
  dbus_connection_send_ok e = true ->
  daemon_reports e st application inst (APPMGR_ERROR_APP_ALREADY_RUNNING e) ->
  (NAME_SIZE <= Z.of_nat (length args) ->
   clp_app_mgr_exec e application args st = None
   /\ clp_app_mgr_exec_application e application args st = None
   /\ exists st',
        clp_app_mgr_exec_argv e application (Z.of_nat (length args)) args st
        = Some (CLP_APP_MGR_SUCCESS, st')
        /\ sent_messages (trace st')
           = sent_messages (trace st)
             ++ [inbound_signal (app_objectpath application)
                   (app_interface application) "exec"
                   [DBUS_TYPE_UINT32 (uint32 (Z.of_nat (length args) + 1));
                    DBUS_TYPE_ARRAY (application :: args)]])
  /\ (MAX_SIZE < Z.of_nat (length args) -> application <> "" ->
      clp_app_mgr_send_message e application args st = None).
Proof.
  intros Hva Hs Hp Hb Hnew Hsend Hd. unfold shutdown_flag in Hs. split.
  - intros Hlen.
    assert (Hexec : clp_app_mgr_exec e application args st = None).
    { unfold clp_app_mgr_exec, ClpAppMgrAppLaunchWithArgs,
        va_list_after_call.
      rewrite Hs, Hva.
      rewrite (launch_call_reply e _ 0 None _ st inst _ Hp (Hd _)).
      rewrite Z.eqb_refl.
      rewrite collect_params_overflow by (unfold NAME_SIZE in *; lia).
      reflexivity. }
    split; [exact Hexec|]. split; [exact Hexec|].
    unfold clp_app_mgr_exec_argv, ClpAppMgrAppLaunchWithArgv.
    rewrite Hs, Nat2Z.id.
    pose proof (join_argv_ok [] args "") as Hj. simpl in Hj. rewrite Hj.
    rewrite (launch_call_reply e _ 0 None _ st inst _ Hp (Hd _)).
    rewrite Z.eqb_refl, !concat3.
    fold (app_interface application) (app_objectpath application).
    rewrite Hnew, Hb. cbn [negb].
    pose proof (read_params_ok [] args) as Hr. simpl in Hr. rewrite Hr.
    unfold dbus_connection_send. rewrite Hsend. cbn [negb].
    eexists. split; [reflexivity|].
    unfold dbus_connection_flush.
    rewrite !emit_trace, !sent_messages_app, !app_nil_r. reflexivity.
  - intros Hlen Hne. unfold clp_app_mgr_send_message.
    assert (Hsplit : exists h t, g_strsplit application ":" = h :: t
                                 /\ (length t <= 1)%nat).
    { destruct application as [|ch application]; [contradiction|].
      unfold g_strsplit.
      destruct (split_at ":" (String ch application)) as [h [t|]];
        eexists; eexists; (split; [reflexivity | simpl; lia]). }
    destruct Hsplit as (h & t & Hsp & Ht). rewrite Hsp.
    assert (H1 : strv_nth (h :: t) 1 = Some (nth_error (h :: t) 1)).
    { unfold strv_nth. destruct t; reflexivity. }
    rewrite H1. cbn [strv_nth length Nat.leb].
    rewrite Hnew. cbn [negb].
    rewrite collect_messages_overflow by (unfold MAX_SIZE in *; lia).
    reflexivity.
Qed.

Lemma X22_argument_buffers_witness :
  clp_app_mgr_exec Sample.running "appX" (repeat "a" 256)
    (initial_state Sample.registry) = None
  /\ clp_app_mgr_exec_application Sample.running "appX" (repeat "a" 256)
       (initial_state Sample.registry) = None
  /\ exists st',
       clp_app_mgr_exec_argv Sample.running "appX"
         (Z.of_nat (length (repeat "a" 256))) (repeat "a" 256)
         (initial_state Sample.registry)
       = Some (CLP_APP_MGR_SUCCESS, st')
       /\ sent_messages (trace st')
          = sent_messages (trace (initial_state Sample.registry))
            ++ [inbound_signal (app_objectpath "appX") (app_interface "appX")
                  "exec"
                  [DBUS_TYPE_UINT32
                     (uint32 (Z.of_nat (length (repeat "a" 256)) + 1));
                   DBUS_TYPE_ARRAY ("appX" :: repeat "a" 256)]].
Proof.
  apply (X22_argument_buffers Sample.running (initial_state Sample.registry)
           "appX" (repeat "a" 256) 5 1%nat).
  - reflexivity.
  - reflexivity.
  - reflexivity.
  - reflexivity.
  - reflexivity.
  - reflexivity.
  - intros a. reflexivity.
  - rewrite repeat_length. unfold NAME_SIZE. lia.
Defined.

(** X23: [clp_app_mgr_send_message] does not look at the result of the
    send.  When the signal cannot be created it returns
    [CLP_APP_MGR_DBUS_CALL_FAIL]; once it is created, the call returns
    [CLP_APP_MGR_SUCCESS] although nothing is sent, both in a process that
    has no bus connection (it never registered, or the registration failed)
    and when the connection will not queue the message. *)
Theorem X23_send_message_unsent (e : Env) (st : State) (application : string)
    (args : list string) :
  let created :=
    dbus_message_new_signal_ok e (message_objectpath application)
      (message_interface application) "Message" in
  application <> "" ->
  (created = false ->
   clp_app_mgr_send_message e application args st
   = Some (CLP_APP_MGR_DBUS_CALL_FAIL, st))
  /\ (created = true ->
      Z.of_nat (length args) <= MAX_SIZE ->
      bus_conn (appclient_context st) = None
      \/ dbus_connection_send_ok e = false ->
      clp_app_mgr_send_message e application args st
      = Some (CLP_APP_MGR_SUCCESS, st)).
Proof.
  intros created Hne. subst created.
  unfold clp_app_mgr_send_message, message_objectpath, message_interface.
  assert (Hsplit : exists h t, g_strsplit application ":" = h :: t
                               /\ (length t <= 1)%nat).
  { destruct application as [|ch application]; [contradiction|].
    unfold g_strsplit.
    destruct (split_at ":" (String ch application)) as [h [t|]];
      eexists; eexists; (split; [reflexivity | simpl; lia]). }
  destruct Hsplit as (h & t & Hs & Ht). rewrite Hs.
  assert (H1 : strv_nth (h :: t) 1 = Some (nth_error (h :: t) 1)).
  { unfold strv_nth. destruct t; reflexivity. }
  rewrite H1. cbn [strv_nth length Nat.leb]. cbv zeta.
  unfold CLP_APP_MGR_DBUS_SIGNAL_MESSAGE, cstr.
  split.
  - intros Hc. rewrite Hc. reflexivity.
  - intros Hc Hlen Hq. rewrite Hc. cbn [negb].
    rewrite collect_messages_ok by (unfold MAX_SIZE in *; lia).
    unfold dbus_connection_send.
    destruct Hq as [-> | Hq]; [reflexivity|].
    rewrite Hq. destruct (bus_conn (appclient_context st)); reflexivity.
Qed.

Lemma X23_send_message_unsent_witness :
  clp_app_mgr_send_message Sample.cold "appY:3" ["ping"]
    (initial_state Sample.registry)
  = Some (CLP_APP_MGR_SUCCESS, initial_state Sample.registry).
Proof.
  apply (X23_send_message_unsent Sample.cold (initial_state Sample.registry)
           "appY:3" ["ping"]).
  - discriminate.
  - reflexivity.
  - vm_compute. discriminate.
  - left. reflexivity.
Defined.

(** X24: the variadic launch calls hand their [va_list] to
    [ClpAppMgrAppLaunchWithArgs], which reads it to the closing NULL, and
    then read one more argument from it themselves.  Where the callee
    walks the caller's own list ([va_list] an array type) that read is
    past the closing NULL: the three variadic calls have no defined result
    for any arguments, unless the shutdown flag stops the callee before it
    reads. *)
Theorem X24_shared_va_list (e : Env) (st : State) (application : string)
    (args : list string) :
  va_list_by_value e = false ->
  shutdown_flag st = false ->
  clp_app_mgr_exec e application args st = None
  /\ clp_app_mgr_exec_application e application args st = None
  /\ clp_app_mgr_service_invoke e application args st = None.
Proof.
  intros Hva Hs.
  destruct (clp_app_mgr_exec_shared_va_list e st application args Hva Hs)
    as [H1 H2].
  split; [exact H1|]. split; exact H2.
Qed.

Lemma X24_shared_va_list_witness :
  clp_app_mgr_exec Sample.running_shared_va_list "appX" ["a"]
    (initial_state Sample.registry) = None
  /\ clp_app_mgr_exec_application Sample.running_shared_va_list "appX" ["a"]
       (initial_state Sample.registry) = None
  /\ clp_app_mgr_service_invoke Sample.running_shared_va_list "appX" ["a"]
       (initial_state Sample.registry) = None.
Proof.
  apply (X24_shared_va_list Sample.running_shared_va_list
           (initial_state Sample.registry) "appX" ["a"]); reflexivity.
Defined.

(** ** The launch strings and the argument count *)

Lemma pieces_free (d : ascii) (a : string) :
  free_of d a = true -> pieces d a = [a].
Proof.
  induction a as [|c a IH]; simpl; [reflexivity|].
  intros H. apply andb_true_iff in H as [Hc Ha].
  apply negb_true_iff in Hc. rewrite Hc, (IH Ha). reflexivity.
Qed.

Lemma pieces_append (d : ascii) (a r : string) :
  free_of d a = true -> pieces d (a +:+ String d r) = a :: pieces d r.
Proof.
  induction a as [|c a IH]; simpl.
  - rewrite Ascii.eqb_refl. reflexivity.
  - intros H. apply andb_true_iff in H as [Hc Ha].
    apply negb_true_iff in Hc. rewrite Hc, (IH Ha). reflexivity.
Qed.

(** What follows the first argument in a launch string. *)
Lemma join_va_args_tail (acc : string) (rest : list string) :
  join_va_args acc rest
  = acc +:+ fold_right (fun r s => delim +:+ r +:+ s) "" rest.
Proof.
  revert acc; induction rest as [|v rest IH]; intros acc; simpl.
  - rewrite append_empty_r. reflexivity.
  - rewrite IH, !append_assoc. reflexivity.
Qed.

Lemma pieces_join_va_args (acc : string) (rest : list string) :
  free_of (ascii_of_nat 16) acc = true ->
  forallb (free_of (ascii_of_nat 16)) rest = true ->
  pieces (ascii_of_nat 16) (join_va_args acc rest) = acc :: rest.
Proof.
  rewrite join_va_args_tail.
  revert acc; induction rest as [|v rest IH]; intros acc Ha Hr.
  - simpl. rewrite append_empty_r. apply pieces_free. exact Ha.
  - cbn [forallb] in Hr. apply andb_true_iff in Hr as [Hv Hr].
    cbn [fold_right].
    change (delim +:+ v +:+ fold_right (fun r s => delim +:+ r +:+ s) ""
                             rest)
      with (String (ascii_of_nat 16)
              (v +:+ fold_right (fun r s => delim +:+ r +:+ s) "" rest)).
    rewrite (pieces_append _ acc _ Ha). rewrite (IH v Hv Hr). reflexivity.
Qed.

Lemma argv_string_join (params : list string) :
  argv_string params = join_va_args "" params.
Proof.
  unfold argv_string. generalize "" as acc.
  induction params as [|p params IH]; intros acc; simpl;
    [reflexivity | apply IH].
Qed.

(** X25: the launch strings lose nothing as long as no argument contains
    the delimiter byte 16: two argument lists free of it that give the same
    string to the daemon are the same list, for the variadic helper and
    for the argc/argv helper.  An argument that contains the byte is taken
    for two: ["a\016b"] and ["a"; "b"] give the same string. *)
Theorem X25_launch_string_injective (args args' : list string) :
  forallb (free_of (ascii_of_nat 16)) args = true ->
  forallb (free_of (ascii_of_nat 16)) args' = true ->
  (va_args_string args = va_args_string args' -> args = args')
  /\ (argv_string args = argv_string args' -> args = args')
  /\ va_args_string ["a" +:+ delim +:+ "b"] = va_args_string ["a"; "b"]
  /\ argv_string ["a" +:+ delim +:+ "b"] = argv_string ["a"; "b"].
Proof.
  intros H H'. split; [|split; [|split; reflexivity]].
  - destruct args as [|v rest], args' as [|v' rest']; simpl;
      try discriminate; [reflexivity|].
    intros E. injection E as E.
    cbn [forallb] in H, H'.
    apply andb_true_iff in H as [Hv Hr], H' as [Hv' Hr'].
    pose proof (pieces_join_va_args v rest Hv Hr) as P.
    pose proof (pieces_join_va_args v' rest' Hv' Hr') as P'.
    rewrite E in P. congruence.
  - rewrite !argv_string_join. intros E.
    pose proof (pieces_join_va_args "" args eq_refl H) as P.
    pose proof (pieces_join_va_args "" args' eq_refl H') as P'.
    rewrite E in P. congruence.
Qed.

Lemma X25_launch_string_injective_witness :
  (va_args_string ["2024-01-01"; "x"] = va_args_string ["2024-01-01"; "x"] ->
   ["2024-01-01"; "x"] = ["2024-01-01"; "x"])
  /\ (argv_string ["2024-01-01"; "x"] = argv_string ["2024-01-01"; "x"] ->
      ["2024-01-01"; "x"] = ["2024-01-01"; "x"])
  /\ va_args_string ["a" +:+ delim +:+ "b"] = va_args_string ["a"; "b"]
  /\ argv_string ["a" +:+ delim +:+ "b"] = argv_string ["a"; "b"].
Proof.
  apply (X25_launch_string_injective ["2024-01-01"; "x"]
           ["2024-01-01"; "x"]); reflexivity.
Defined.

Lemma nth_error_drop (l : list string) (i : nat) (p : string) :
  nth_error l i = Some p -> drop i l = p :: drop (S i) l.
Proof.
  revert i; induction l as [|x l IH]; intros [|i] H; simpl in *;
    try discriminate.
  - injection H as ->. rewrite drop_0. reflexivity.
  - apply IH. exact H.
Qed.

Lemma read_params_take (n i : nat) (l : list string) :
  (i + n <= length l)%nat -> read_params n i l = Some (take n (drop i l)).
Proof.
  revert i; induction n as [|n IH]; intros i H; [reflexivity|].
  simpl. destruct (nth_error l i) as [p|] eqn:E.
  - rewrite (IH (S i)) by lia. rewrite (nth_error_drop l i p E).
    reflexivity.
  - apply nth_error_None in E. lia.
Qed.

Lemma read_params_past (n i : nat) (l : list string) :
  (length l < i + n)%nat -> (i <= length l)%nat -> read_params n i l = None.
Proof.
  revert i; induction n as [|n IH]; intros i H Hi; [lia|].
  simpl. destruct (nth_error l i) as [p|] eqn:E; [|reflexivity].
  assert (i < length l)%nat by (apply nth_error_Some; congruence).
  rewrite (IH (S i)) by lia. reflexivity.
Qed.

Lemma join_argv_take (n i : nat) (l : list string) (args : string) :
  (i + n <= length l)%nat ->
  join_argv n i l args
  = Some (fold_left (fun a p => a +:+ delim +:+ p) (take n (drop i l)) args).
Proof.
  revert i args; induction n as [|n IH]; intros i args H; [reflexivity|].
  simpl. destruct (nth_error l i) as [p|] eqn:E.
  - rewrite (IH (S i)) by lia. rewrite (nth_error_drop l i p E).
    reflexivity.
  - apply nth_error_None in E. lia.
Qed.

Lemma join_argv_past (n i : nat) (l : list string) (args : string) :
  (length l < i + n)%nat -> (i <= length l)%nat -> join_argv n i l args = None.
Proof.
  revert i args; induction n as [|n IH]; intros i args H Hi; [lia|].
  simpl. destruct (nth_error l i) as [p|] eqn:E; [|reflexivity].
  assert (i < length l)%nat by (apply nth_error_Some; congruence).
  apply IH; lia.
Qed.

(** X26: [clp_app_mgr_exec_argv] trusts its count.  With a count that is
    at most the length of the array, the daemon is asked with the first
    [count] parameters only, and so is the running instance: the exec
    signal carries [count + 1] and the name followed by these parameters.
    With a count beyond the array the helper reads past its end, and the
    call has no defined result. *)
Theorem X26_exec_argv_count (e : Env) (st : State) (application : string)
    (params : list string) (count : Z) (inst : Z) (c : DBusConnection) :
  shutdown_flag st = false ->
  proxy_ok e = true ->
  dbus_bus_get e = Some c ->
  dbus_message_new_signal_ok e (app_objectpath application)
    (app_interface application) "exec" = true ->
  dbus_connection_send_ok e = true ->
  daemon_reports e st application inst (APPMGR_ERROR_APP_ALREADY_RUNNING e) ->
  (0 <= count <= Z.of_nat (length params) -> count + 1 < 2 ^ 32 ->
   exists st',
     clp_app_mgr_exec_argv e application count params st
     = Some (CLP_APP_MGR_SUCCESS, st')
     /\ trace st'
        = trace st
          ++ forwarded_launch (clp_app_mgr_get_app_id application st)
               (Some (argv_string (take (Z.to_nat count) params))) c
               application (take (Z.to_nat count) params))
  /\ (Z.of_nat (length params) < count ->
      clp_app_mgr_exec_argv e application count params st = None).
Proof.
  intros Hs Hp Hb Hn Hsend Hd. unfold shutdown_flag in Hs. split.
  - intros Hc Hlt.
    unfold clp_app_mgr_exec_argv, ClpAppMgrAppLaunchWithArgv. rewrite Hs.
    rewrite join_argv_take by (simpl; lia). rewrite drop_0.
    fold (argv_string (take (Z.to_nat count) params)).
    rewrite (launch_call_reply e _ 0 None _ st inst _ Hp (Hd _)).
    rewrite Z.eqb_refl, !concat3.
    fold (app_interface application) (app_objectpath application).
    unfold CLP_APP_MGR_DBUS_SIGNAL_EXEC. rewrite Hn, Hb. cbn [negb].
    rewrite read_params_take by (simpl; lia). rewrite drop_0.
    unfold dbus_connection_send. rewrite Hsend. cbn [negb].
    eexists. split; [reflexivity|].
    unfold dbus_connection_flush. rewrite !emit_trace.
    unfold forwarded_launch, forwarded_signal, new_signal, inbound_signal.
    rewrite uint32_small by lia.
    rewrite length_take, Nat.min_l by lia.
    rewrite Z2Nat.id by lia.
    rewrite <- !app_assoc, (Z.add_comm 1). reflexivity.
  - intros Hc.
    unfold clp_app_mgr_exec_argv, ClpAppMgrAppLaunchWithArgv. rewrite Hs.
    rewrite join_argv_past by (simpl; lia). reflexivity.
Qed.

Lemma X26_exec_argv_count_witness :
  (exists st',
     clp_app_mgr_exec_argv Sample.running "appX" 1 ["a"; "b"]
       (initial_state Sample.registry)
     = Some (CLP_APP_MGR_SUCCESS, st')
     /\ trace st'
        = trace (initial_state Sample.registry)
          ++ forwarded_launch
               (clp_app_mgr_get_app_id "appX" (initial_state Sample.registry))
               (Some (argv_string (take (Z.to_nat 1) ["a"; "b"]))) 1%nat
               "appX" (take (Z.to_nat 1) ["a"; "b"]))
  /\ clp_app_mgr_exec_argv Sample.running "appX" 3 ["a"; "b"]
       (initial_state Sample.registry) = None.
Proof.
  split.
  - apply (X26_exec_argv_count Sample.running (initial_state Sample.registry)
             "appX" ["a"; "b"] 1 5 1%nat); try reflexivity;
      try (intros a; reflexivity); simpl; lia.
  - apply (X26_exec_argv_count Sample.running (initial_state Sample.registry)
             "appX" ["a"; "b"] 3 5 1%nat); try reflexivity;
      try (intros a; reflexivity); simpl; lia.
Defined.
